(** * ncscli: launch / poll / terminate controller and remote command dispatcher

    A shallow embedding of [src/ncscli/ncs.py] and of the result
    classification of [src/examples/blender/commandInstancesAsync.py].

    The Python code talks to the outside world through [requests],
    [time], [uuid] and [print].  Those calls are the constructors of a
    small free monad [Prog]; a program is run against an environment
    [Env] that answers every call from the history of the calls made so
    far.  Calls to [logger] have no influence on control flow and are
    left out, except that the arguments they evaluate may raise. *)

From Stdlib Require Import ZArith String List Bool Lia Permutation.
From stdpp Require Import base option gmap strings list fin_maps pretty.
Import ListNotations.
Local Open Scope string_scope.
Local Open Scope Z_scope.
Set Warnings "-register-all,-clear-no-such-hyp".

(** ** Python values *)

(** What [json.loads] / [resp.json()] can produce.  A float is kept as a
    decimal mantissa and exponent; only its truth value is ever used. *)
Inductive JSON : Type :=
| JNull
| JBool (b : bool)
| JNum (n : Z)
| JFloat (m e : Z)
| JStr (s : string)
| JList (l : list JSON)
| JDict (kvs : list (string * JSON)).

(** The exceptions the code can meet.  [except Exception] catches all of
    them but [KeyboardInterrupt] and [SystemExit]. *)
Inductive Exn : Type :=
| KeyboardInterrupt
| SystemExit
| RequestException (msg : string)
| JSONDecodeError (msg : string)
| TypeError (msg : string)
| KeyError (key : string)
| AttributeError (msg : string)
| TimeoutError
| OtherException (cls msg : string).

Definition isException (e : Exn) : bool :=
  match e with
  | KeyboardInterrupt | SystemExit => false
  | _ => true
  end.

Definition isKeyboardInterrupt (e : Exn) : bool :=
  match e with KeyboardInterrupt => true | _ => false end.

Inductive Result (A : Type) : Type :=
| Ok (a : A)
| Err (e : Exn).
Arguments Ok {A} a.
Arguments Err {A} e.

Fixpoint dict_get (kvs : list (string * JSON)) (k : string) : option JSON :=
  match kvs with
  | [] => None
  | (k', v) :: rest => if String.eqb k' k then Some v else dict_get rest k
  end.

(** [d[k] = v] on a dict: replace in place, or append. *)
Fixpoint dict_set (kvs : list (string * JSON)) (k : string) (v : JSON)
  : list (string * JSON) :=
  match kvs with
  | [] => [(k, v)]
  | (k', v') :: rest =>
      if String.eqb k' k then (k', v) :: rest else (k', v') :: dict_set rest k v
  end.

(** [d.update(other)] *)
Definition dict_update (kvs other : list (string * JSON)) : list (string * JSON) :=
  fold_left (fun acc kv => dict_set acc (fst kv) (snd kv)) other kvs.

Definition is_str (v : JSON) (s : string) : bool :=
  match v with JStr s' => String.eqb s' s | _ => false end.

(** [isinstance(v, str)] *)
Definition isinstance_str (v : JSON) : bool :=
  match v with JStr _ => true | _ => false end.

Definition substring_of (needle hay : string) : bool :=
  match String.index 0 needle hay with Some _ => true | None => false end.

(** [k in v] for a string [k] *)
Definition py_contains (k : string) (v : JSON) : Result bool :=
  match v with
  | JDict kvs => Ok (match dict_get kvs k with Some _ => true | None => false end)
  | JList l => Ok (existsb (fun x => is_str x k) l)
  | JStr s => Ok (substring_of k s)
  | _ => Err (TypeError "argument is not iterable")
  end.

(** [v[k]] for a string [k] *)
Definition py_getitem (v : JSON) (k : string) : Result JSON :=
  match v with
  | JDict kvs => match dict_get kvs k with Some x => Ok x | None => Err (KeyError k) end
  | JList _ | JStr _ => Err (TypeError "indices must be integers")
  | _ => Err (TypeError "object is not subscriptable")
  end.

Fixpoint chars (s : string) : list JSON :=
  match s with
  | EmptyString => []
  | String c rest => JStr (String c EmptyString) :: chars rest
  end.

(** [for x in v] *)
Definition py_iter (v : JSON) : Result (list JSON) :=
  match v with
  | JList l => Ok l
  | JDict kvs => Ok (map (fun kv => JStr (fst kv)) kvs)
  | JStr s => Ok (chars s)
  | _ => Err (TypeError "object is not iterable")
  end.

(** [bool(v)] *)
Definition py_truthy (v : JSON) : bool :=
  match v with
  | JNull => false
  | JBool b => b
  | JNum n => negb (n =? 0)
  | JFloat m _ => negb (m =? 0)
  | JStr s => negb (String.eqb s "")
  | JList l => match l with [] => false | _ => true end
  | JDict kvs => match kvs with [] => false | _ => true end
  end.

(** [hash(v)] succeeds *)
Definition py_hashable (v : JSON) : bool :=
  match v with
  | JList _ | JDict _ => false
  | _ => true
  end.

(** ** The outside world *)

Inductive Method := GET | POST | DELETE.

Record Request := {
  method : Method;
  url : string;
  headers : list (string * string);
  data : option string
}.

(** A [requests.Response]: [json = None] when [resp.json()] raises. *)
Record Response := {
  status_code : Z;
  text : string;
  json : option JSON
}.

Inductive NetReply :=
| Reply (resp : Response)
| NetRaise (e : Exn).

Inductive Call : Type -> Type :=
| CHttp (req : Request) : Call NetReply
| CSleep (secs : Z) : Call (option Exn)
| CTime : Call Z
| CUuid4 : Call string
| CPrint (out : string) : Call unit.

Inductive Event :=
| EvHttp (req : Request)
| EvSleep (secs : Z)
| EvTime
| EvUuid4
| EvPrint (out : string).

Definition event_of {X} (c : Call X) : Event :=
  match c with
  | CHttp req => EvHttp req
  | CSleep secs => EvSleep secs
  | CTime => EvTime
  | CUuid4 => EvUuid4
  | CPrint out => EvPrint out
  end.

(** Most recent event first. *)
Definition History := list Event.

(** The environment answers a call from what happened before it.
    [time.time()] is read in whole seconds. *)
Record Env := {
  answer : forall X, History -> Call X -> X
}.

(** ** Programs

    [Stuck] marks the places where the embedding gives no result: the
    budget of a recursion that Python does not bound has run out, or the
    input is one the embedding does not cover. *)

Inductive Prog (A : Type) : Type :=
| Ret (a : A)
| Raise (e : Exn)
| Vis (X : Type) (c : Call X) (k : X -> Prog A)
| Stuck.
Arguments Ret {A} a.
Arguments Raise {A} e.
Arguments Vis {A X} c k.
Arguments Stuck {A}.

Fixpoint bind {A B} (p : Prog A) (f : A -> Prog B) : Prog B :=
  match p with
  | Ret a => f a
  | Raise e => Raise e
  | Vis c k => Vis c (fun x => bind (k x) f)
  | Stuck => Stuck
  end.

#[export] Instance Prog_ret : MRet Prog := @Ret.
#[export] Instance Prog_bind : MBind Prog := fun A B f p => bind p f.

(** [try: p except ...: handler] ; the handler re-raises what it does
    not catch. *)
Fixpoint try_except {A} (p : Prog A) (handler : Exn -> Prog A) : Prog A :=
  match p with
  | Ret a => Ret a
  | Raise e => handler e
  | Vis c k => Vis c (fun x => try_except (k x) handler)
  | Stuck => Stuck
  end.

Definition lift {A} (r : Result A) : Prog A :=
  match r with Ok a => Ret a | Err e => Raise e end.

Definition http (req : Request) : Prog Response :=
  Vis (CHttp req) (fun r => match r with Reply resp => Ret resp | NetRaise e => Raise e end).

Definition time_sleep (secs : Z) : Prog unit :=
  Vis (CSleep secs) (fun r => match r with None => Ret tt | Some e => Raise e end).

Definition time_time : Prog Z := Vis CTime Ret.
Definition uuid4 : Prog string := Vis CUuid4 Ret.

Definition newline : string := String (Ascii.ascii_of_nat 10) EmptyString.

(** [print(line)] and [print(line, end=e)] *)
Definition print (line : string) : Prog unit :=
  Vis (CPrint (line +:+ newline)) (fun _ => Ret tt).
Definition print_end (line e : string) : Prog unit :=
  Vis (CPrint (line +:+ e)) (fun _ => Ret tt).

Inductive Outcome (A : Type) : Type :=
| Returned (a : A)
| Raised (e : Exn)
| NoResult.
Arguments Returned {A} a.
Arguments Raised {A} e.
Arguments NoResult {A}.

Fixpoint run {A} (env : Env) (p : Prog A) (h : History) : Outcome A * History :=
  match p with
  | Ret a => (Returned a, h)
  | Raise e => (Raised e, h)
  | Vis c k => run env (k (answer env _ h c)) (event_of c :: h)
  | Stuck => (NoResult, h)
  end.

(** Pure library functions the code calls and whose results are only
    passed on: [json.dumps], [json.loads], whether [max] raises on a
    list (its value is never used), and [str()] for [%s]. *)
Class PyLib := {
  json_dumps : JSON -> string;
  json_loads : string -> option JSON;
  max_raises : list JSON -> option Exn;
  str_of : JSON -> string
}.

(** ** ncs.py *)

Section Ncs.
Context `{lib : PyLib}.

Definition ncscReqHeaders (authToken : string) : list (string * string) :=
  [ ("Content-Type", "application/json");
    ("Accept", "application/json");
    ("X-Neocortix-Cloud-API-Version", "1");
    ("X-Neocortix-Cloud-API-AuthToken", authToken) ].

Definition non2xx (code : Z) : bool := (code <? 200) || (code >=? 300).

(** The dict [{'content': ..., 'statusCode': ...}]. *)
Record QueryResult := {
  content : JSON;
  statusCode : Z
}.

Definition requests_get (u : string) (hd : list (string * string)) (d : string)
  : Prog Response :=
  http {| method := GET; url := u; headers := hd; data := Some d |}.

Definition requests_post (u : string) (hd : list (string * string)) (d : string)
  : Prog Response :=
  http {| method := POST; url := u; headers := hd; data := Some d |}.

Definition requests_delete (u : string) (hd : list (string * string))
  : Prog Response :=
  http {| method := DELETE; url := u; headers := hd; data := None |}.

Definition getRequest (urlTail authToken d : string) : Request :=
  {| method := GET;
     url := "https://cloud.neocortix.com/cloud-api/sc/" +:+ urlTail;
     headers := ncscReqHeaders authToken;
     data := Some d |}.

(** [queryNcsSc] once [reqParams] is a string; the recursion is on the
    retries left. *)
Fixpoint queryNcsSc_str (retries : nat) (urlTail authToken reqParams : string)
  : Prog QueryResult :=
  let headers := ncscReqHeaders authToken in
  let url := "https://cloud.neocortix.com/cloud-api/sc/" +:+ urlTail in
  resp ← requests_get url headers reqParams;
  let finish :=
    Ret {| content := default (JDict []) (json resp);
           statusCode := status_code resp |} in
  if non2xx (status_code resp) then
    match retries with
    | S retries' =>
        time_sleep 10;;
        queryNcsSc_str retries' urlTail authToken reqParams
    | O => finish
    end
  else finish.

(** [reqParams] is jsonized unless it is a string already. *)
Definition jsonize (reqParams : string + JSON) : string :=
  match reqParams with
  | inl s => s
  | inr v => json_dumps v
  end.

Definition queryNcsSc (urlTail authToken : string) (reqParams : string + JSON)
  (maxRetries : Z) : Prog QueryResult :=
  queryNcsSc_str (Z.to_nat maxRetries) urlTail authToken (jsonize reqParams).

Fixpoint mapR {A B} (f : A -> Result B) (l : list A) : Result (list B) :=
  match l with
  | [] => Ok []
  | x :: rest =>
      match f x with
      | Err e => Err e
      | Ok y => match mapR f rest with Err e => Err e | Ok ys => Ok (y :: ys) end
      end
  end.

Definition getAppVersions (authToken : string) : Prog (list JSON) :=
  response ← queryNcsSc "info/mobile-app-versions" authToken (inr JNull) 1;
  let respContent := content response in
  xs ← lift (py_iter respContent);
  lift (mapR (fun x => py_getitem x "value") xs).

Definition serverError (code : Z) (reqId : string) : JSON :=
  JDict [("serverError", JNum code); ("reqId", JStr reqId)].

(** The [if jsonFilter:] block: the request data with the filter merged. *)
Definition applyFilter (reqData : list (string * JSON)) (jsonFilter : option string)
  : Prog (list (string * JSON)) :=
  match jsonFilter with
  | None => Ret reqData
  | Some f =>
      if String.eqb f "" then Ret reqData
      else
        match json_loads f with
        | None => Raise (JSONDecodeError f)
        | Some filters =>
            if py_truthy filters then
              match filters with
              | JDict kvs => Ret (dict_update reqData kvs)
              | _ => Raise (TypeError "json in filter is not a dict")
              end
            else Ret reqData
        end
  end.

(** The recovery branch taken when the POST answers outside 2xx. *)
Definition launchRecovery (authToken reqId : string) (postStatus : Z) : Prog JSON :=
  time_sleep 30;;
  let listReqData := JDict [("job", JStr reqId)] in
  r ← try_except
        (resp2 ← queryNcsSc "instances" authToken (inl (json_dumps listReqData)) 20;
         Ret (Some resp2))
        (fun exc => if isException exc then Ret None else Raise exc);
  match r with
  | None => Ret (serverError postStatus reqId)
  | Some resp2 =>
      if non2xx (statusCode resp2) then Ret (serverError (statusCode resp2) reqId)
      else
        match content resp2 with
        | JDict kvs => lift (py_getitem (JDict kvs) "my")
        | _ => Raise (AttributeError "object has no attribute 'keys'")
        end
  end.

Definition launchNcscInstances (authToken : string) (numReq : Z)
  (regions abis sshClientKeyName : JSON) (jsonFilter : option string) : Prog JSON :=
  appVersions ← getAppVersions authToken;
  match appVersions with
  | [] => Ret (JDict [])
  | _ =>
      match max_raises appVersions with
      | Some e => Raise e
      | None =>
          let headers := ncscReqHeaders authToken in
          reqId ← uuid4;
          let reqData :=
            [ ("abis", abis); ("job", JStr reqId); ("regions", regions);
              ("ssh_key", sshClientKeyName); ("count", JNum numReq) ] in
          reqData' ← applyFilter reqData jsonFilter;
          let reqDataStr := json_dumps (JDict reqData') in
          let url := "https://cloud.neocortix.com/cloud-api/sc/instances" in
          resp ← requests_post url headers reqDataStr;
          if non2xx (status_code resp) then
            launchRecovery authToken reqId (status_code resp)
          else
            match json resp with
            | Some v => Ret v
            | None => Raise (JSONDecodeError (text resp))
            end
      end
  end.

(** The recursion has no counter; [fuel] bounds its depth. *)
Fixpoint terminateNcscInstance (fuel : nat) (authToken iid : string) : Prog Z :=
  match fuel with
  | O => Stuck
  | S fuel' =>
      let headers := ncscReqHeaders authToken in
      let url := "https://cloud.neocortix.com/cloud-api/sc/instances/" +:+ iid in
      resp ← requests_delete url headers;
      if non2xx (status_code resp) then
        if status_code resp =? 502 then
          time_sleep 10;;
          terminateNcscInstance fuel' authToken iid
        else Ret (status_code resp)
      else Ret (status_code resp)
  end.

(** *** doCmdLaunch *)

Record Args := {
  arg_authToken : string;
  arg_itype : option string;
  arg_count : Z;
  arg_sshClientKeyName : JSON;
  arg_region : JSON;
  arg_filter : option string;
  arg_json : bool
}.

(** The sets and the dict the poll loop mutates. *)
Record PollState := {
  startedSet : gset string;
  failedSet : gset string;
  startedInstances : gmap string JSON
}.

(** What one pass over [iids] accumulates: [launcherStates] is the
    Counter, kept as the list of the states it counted. *)
Record Cycle := {
  state : PollState;
  launcherStates : list JSON;
  starting : bool
}.

(** The loop runs inside [try: ... except KeyboardInterrupt]; the sets
    are mutated in place, so what they held when the interrupt came is
    what the code after the loop sees: [Stop] carries it. *)
Inductive Flow (A : Type) : Type :=
| Next (a : A)
| Stop (st : PollState).
#[global] Arguments Next {A} a.
#[global] Arguments Stop {A} st.

Inductive Queried :=
| Details (details : JSON)
| QueryFailed
| Interrupt.

Definition showDeviceInfo : JSON := JDict [("show-device-info", JBool true)].

Definition queryDetails (authToken iid : string) : Prog Queried :=
  try_except
    (r ← queryNcsSc ("instances/" +:+ iid) authToken (inr showDeviceInfo) 1;
     Ret (Details (content r)))
    (fun exc =>
       if isException exc then Ret QueryFailed
       else if isKeyboardInterrupt exc then Ret Interrupt
       else Raise exc).

Definition recordState (c : Cycle) (iid : string) (details iState : JSON) : Cycle :=
  let st := state c in
  let st1 :=
    if is_str iState "started" then
      {| startedSet := {[iid]} ∪ startedSet st;
         failedSet := failedSet st;
         startedInstances := <[iid := details]> (startedInstances st) |}
    else st in
  let st2 :=
    if is_str iState "failed" then
      {| startedSet := startedSet st1;
         failedSet := {[iid]} ∪ failedSet st1;
         startedInstances := startedInstances st1 |}
    else st1 in
  {| state := st2;
     launcherStates := iState :: launcherStates c;
     starting := if negb (is_str iState "started") then true else starting c |}.

(** The body of [for iid in iids] in the poll loop. *)
Definition pollInstance (authToken : string) (c : Cycle) (iid : string)
  : Prog (Flow Cycle) :=
  if bool_decide (iid ∈ startedSet (state c)) then Ret (Next c)
  else
    q ← queryDetails authToken iid;
    match q with
    | QueryFailed => Ret (Next c)
    | Interrupt => Ret (Stop (state c))
    | Details details =>
        hasState ← lift (py_contains "state" details);
        if negb hasState then Ret (Next c)
        else
          iState ← lift (py_getitem details "state");
          if negb (py_hashable iState) then Raise (TypeError "unhashable type")
          else Ret (Next (recordState c iid details iState))
    end.

Fixpoint pollCycle (authToken : string) (iids : list string) (c : Cycle)
  : Prog (Flow Cycle) :=
  match iids with
  | [] => Ret (Next c)
  | iid :: rest =>
      r ← pollInstance authToken c iid;
      match r with
      | Next c' => pollCycle authToken rest c'
      | Stop st => Ret (Stop st)
      end
  end.

Definition newCycle (st : PollState) : Cycle :=
  {| state := st; launcherStates := []; starting := false |}.

(** [while True: ...] of the poll loop; [fuel] bounds the cycles. *)
Fixpoint pollLoop (fuel : nat) (authToken : string) (iids : list string)
  (deadline : Z) (st : PollState) : Prog PollState :=
  match fuel with
  | O => Stuck
  | S fuel' =>
      r ← pollCycle authToken iids (newCycle st);
      match r with
      | Stop st' => Ret st'
      | Next c =>
          if negb (starting c) then Ret (state c)
          else
            now ← time_time;
            if now >? deadline then Ret (state c)
            else
              interrupted ← try_except (time_sleep 5;; Ret false)
                (fun exc => if isKeyboardInterrupt exc then Ret true else Raise exc);
              if (interrupted : bool) then Ret (state c)
              else pollLoop fuel' authToken iids deadline (state c)
      end
  end.

Definition emptyPollState : PollState :=
  {| startedSet := ∅; failedSet := ∅; startedInstances := ∅ |}.

(** Lines 176-225: the deadline, then the loop. *)
Definition awaitStarted (fuel : nat) (authToken : string) (iids : list string)
  : Prog PollState :=
  let timeLimit := 600 in
  now ← time_time;
  let deadline := now + timeLimit in
  pollLoop fuel authToken iids deadline emptyPollState.

(** Lines 227-262: print what is known about every instance. *)
Inductive Fetched :=
| Got (details : JSON)
| Skip
| Break.

Definition fetchDetails (authToken : string) (known : gmap string JSON) (iid : string)
  : Prog Fetched :=
  match known !! iid with
  | Some details => Ret (Got details)
  | None =>
      try_except
        (r ← queryNcsSc ("instances/" +:+ iid) authToken (inr showDeviceInfo) 1;
         Ret (Got (content r)))
        (fun exc =>
           if isException exc then Ret Skip
           else if isKeyboardInterrupt exc then Ret Break
           else Raise exc)
  end.

(** Prints one instance; returns the new [jsonFirstElem]. *)
Definition printDetails (asJson jsonFirstElem : bool) (iid : string) (details : JSON)
  : Prog bool :=
  if asJson then
    outRec ← match details with
             | JDict kvs => Ret (dict_set kvs "instanceId" (JStr iid))
             | JList _ => Raise (TypeError "list indices must be integers")
             | _ => Raise (AttributeError "object has no attribute 'copy'")
             end;
    (if jsonFirstElem then Ret tt else print_end "," " ");;
    print (json_dumps (JDict outRec));;
    Ret false
  else
    st ← lift (py_getitem details "state");
    job ← lift (py_getitem details "job");
    print (iid +:+ "," +:+ str_of st +:+ "," +:+ str_of job);;
    Ret jsonFirstElem.

Fixpoint reportInstances (authToken : string) (asJson : bool)
  (known : gmap string JSON) (iids : list string) (jsonFirstElem : bool) : Prog unit :=
  match iids with
  | [] => Ret tt
  | iid :: rest =>
      f ← fetchDetails authToken known iid;
      match f with
      | Break => Ret tt
      | Skip => reportInstances authToken asJson known rest jsonFirstElem
      | Got details =>
          first' ← printDetails asJson jsonFirstElem iid details;
          reportInstances authToken asJson known rest first'
      end
  end.

(** [iids.append( inst['id'] )]; the embedding covers string ids. *)
Fixpoint collectIds (instances : list JSON) : Prog (list string) :=
  match instances with
  | [] => Ret []
  | inst :: rest =>
      v ← lift (py_getitem inst "id");
      match v with
      | JStr iid => iids ← collectIds rest; Ret (iid :: iids)
      | _ => Stuck
      end
  end.

(** The [try] block around the launch: an exit code, or the infos. *)
Definition launchOrCode (args : Args) : Prog (JSON + JSON) :=
  let instanceAbis :=
    match arg_itype args with
    | Some t => if String.eqb t "" then JList [] else JList [JStr t]
    | None => JList []
    end in
  try_except
    (infos ← launchNcscInstances (arg_authToken args) (arg_count args)
               (arg_region args) instanceAbis (arg_sshClientKeyName args)
               (arg_filter args);
     has ← lift (py_contains "serverError" infos);
     if (has : bool) then code ← lift (py_getitem infos "serverError"); Ret (inl code)
     else Ret (inr infos))
    (fun exc => if isException exc then Ret (inl (JNum 13)) else Raise exc).

Definition doCmdLaunch (fuel : nat) (args : Args) : Prog JSON :=
  let authToken := arg_authToken args in
  r ← launchOrCode args;
  match r with
  | inl code => Ret code
  | inr infos =>
      instances ← lift (py_iter infos);
      iids ← collectIds instances;
      st ← awaitStarted fuel authToken iids;
      (if arg_json args then print "[" else Ret tt);;
      reportInstances authToken (arg_json args) (startedInstances st) iids true;;
      (if arg_json args then print "]" else Ret tt);;
      Ret (JNum 0)
  end.

(** *** terminateInstances

    [executor.map] submits one work item per element, in order; at most
    [nWorkers] of them run at a time and the workers take them first
    in, first out.  [list(parIter)] takes the results in order; when one
    is an exception it cancels the items not yet started and re-raises
    it once the [with] block has waited for the running ones.  Which
    thread moves next is given by a schedule. *)

Definition terminateOne (fuel : nat) (authToken : string) (iid : JSON) : Prog unit :=
  match iid with
  | JStr s => terminateNcscInstance fuel authToken s;; Ret tt
  | _ => Raise (TypeError "can only concatenate str to str")
  end.

Inductive Future :=
| Pending (work : Prog unit)
| Running (work : Prog unit)
| Finished (r : Result unit)
| Cancelled.

Record Pool := {
  futures : list Future;
  yielded : nat;
  reraised : option Exn
}.

Inductive Action :=
| Worker (i : nat)
| Main.

Definition isPending (f : Future) : bool :=
  match f with Pending _ => true | _ => false end.

Definition isRunning (f : Future) : bool :=
  match f with Running _ => true | _ => false end.

Definition cancel (f : Future) : Future :=
  match f with Pending _ => Cancelled | _ => f end.

Definition setFuture (p : Pool) (i : nat) (f : Future) : Pool :=
  {| futures := <[i := f]> (futures p);
     yielded := yielded p;
     reraised := reraised p |}.

(** A worker may take item [i] when it is the oldest one waiting and a
    worker is free. *)
Definition canStart (nWorkers : nat) (p : Pool) (i : nat) : bool :=
  forallb (fun f => negb (isPending f)) (take i (futures p))
  && (length (List.filter isRunning (futures p)) <? nWorkers)%nat.

(** The main thread asks for the next result. *)
Definition collect (p : Pool) : Pool :=
  match reraised p with
  | Some _ => p
  | None =>
      match futures p !! yielded p with
      | Some (Finished (Ok _)) =>
          {| futures := futures p; yielded := S (yielded p); reraised := None |}
      | Some (Finished (Err e)) =>
          {| futures := map cancel (futures p);
             yielded := yielded p;
             reraised := Some e |}
      | _ => p
      end
  end.

(** The [with] block is left once every result is in, or once the
    exception is known and no item is running any more. *)
Definition poolResult (p : Pool) : option (Result unit) :=
  match reraised p with
  | Some e =>
      if existsb isRunning (futures p) then None else Some (Err e)
  | None =>
      if (yielded p =? length (futures p))%nat then Some (Ok tt) else None
  end.

Fixpoint runPool (nWorkers : nat) (sched : list Action) (p : Pool) : Prog unit :=
  match poolResult p with
  | Some r => lift r
  | None =>
      match sched with
      | [] => Stuck
      | Main :: rest => runPool nWorkers rest (collect p)
      | Worker i :: rest =>
          match futures p !! i with
          | Some (Pending w) =>
              if canStart nWorkers p i
              then runPool nWorkers rest (setFuture p i (Running w))
              else runPool nWorkers rest p
          | Some (Running (Ret _)) =>
              runPool nWorkers rest (setFuture p i (Finished (Ok tt)))
          | Some (Running (Raise e)) =>
              runPool nWorkers rest (setFuture p i (Finished (Err e)))
          | Some (Running (Vis c k)) =>
              Vis c (fun x => runPool nWorkers rest (setFuture p i (Running (k x))))
          | Some (Running Stuck) => Stuck
          | _ => runPool nWorkers rest p
          end
      end
  end.

Definition submitAll (works : list (Prog unit)) : Pool :=
  {| futures := map Pending works; yielded := 0%nat; reraised := None |}.

(** [if instanceIds and (len(instanceIds) > 0) and isinstance(instanceIds[0], str)] *)
Definition terminateGuard (instanceIds : list JSON) : bool :=
  match instanceIds with
  | [] => false
  | first :: _ => isinstance_str first
  end.

Definition terminateInstances (sched : list Action) (fuel : nat)
  (authToken : string) (instanceIds : list JSON) : Prog unit :=
  if terminateGuard instanceIds then
    let nWorkers := 2%nat in
    runPool nWorkers sched (submitAll (map (terminateOne fuel authToken) instanceIds))
  else Ret tt.

End Ncs.

(** ** commandInstancesAsync.py *)

(** What [run_client] returns: [proc.returncode], which is an int or
    [None], or the fallback string. *)
Inductive ReturnValue :=
| ReturnCode (code : Z)
| ReturnNone
| ReturnStr (s : string).

(** An element of what [asyncio.gather(..., return_exceptions=True)]
    gives back. *)
Inductive RawResult :=
| Value (v : ReturnValue)
| Exception (e : Exn).

(** How [run_client] went on one host: it came to an end within the time
    limit, by a return or by an exception, or it did not. *)
Inductive ClientRun :=
| Completed (r : RawResult)
| Overran.

(** [asyncio.wait_for(..., timeout=timeLimit)] *)
Definition wait_for (c : ClientRun) : RawResult :=
  match c with
  | Completed r => r
  | Overran => Exception TimeoutError
  end.

Record Instance := {
  instanceId : string;
  ssh : JSON
}.

Record Tally := {
  nGood : nat;
  nFailed : nat;
  nTimedOut : nat;
  nOther : nat
}.

Definition noTally : Tally :=
  {| nGood := 0; nFailed := 0; nTimedOut := 0; nOther := 0 |}.

(** [isinstance(result, asyncio.TimeoutError)] *)
Definition isTimeoutError (r : RawResult) : bool :=
  match r with Exception TimeoutError => true | _ => false end.

(** [isinstance(result, int)] *)
Definition isInt (r : RawResult) : option Z :=
  match r with Value (ReturnCode code) => Some code | _ => None end.

(** The [if / elif / else] of the loop body. *)
Definition countResult (t : Tally) (result : RawResult) : Tally :=
  if isTimeoutError result then
    {| nGood := nGood t; nFailed := nFailed t;
       nTimedOut := S (nTimedOut t); nOther := nOther t |}
  else
    match isInt result with
    | Some code =>
        if negb (code =? 0) then
          {| nGood := nGood t; nFailed := S (nFailed t);
             nTimedOut := nTimedOut t; nOther := nOther t |}
        else
          {| nGood := S (nGood t); nFailed := nFailed t;
             nTimedOut := nTimedOut t; nOther := nOther t |}
    | None =>
        {| nGood := nGood t; nFailed := nFailed t;
           nTimedOut := nTimedOut t; nOther := S (nOther t) |}
    end.

(** [for i, result in enumerate(results, 1)]: [instances[i-1]] is looked
    up before the result is counted. *)
Fixpoint countResults (instances : list Instance) (i : nat)
  (results : list RawResult) (t : Tally) : Result Tally :=
  match results with
  | [] => Ok t
  | result :: rest =>
      match instances !! (i - 1)%nat with
      | None => Err (OtherException "IndexError" "list index out of range")
      | Some _ => countResults instances (S i) rest (countResult t result)
      end
  end.

(** The counts of the final log line, when the session of the [i]-th
    host goes as [client i] says. *)
Definition run_multiple_clients (client : nat -> Instance -> ClientRun)
  (instances : list Instance) : Result Tally :=
  let results := imap (fun i inst => wait_for (client i inst)) instances in
  countResults instances 1 results noTally.

(** ** Scenarios

    Library stand-ins and scripted servers used to run the definitions
    on concrete inputs. *)

Fixpoint plain_dumps (v : JSON) : string :=
  match v with
  | JNull => "null"
  | JBool true => "true"
  | JBool false => "false"
  | JNum n => pretty n
  | JFloat m e => pretty m +:+ "e" +:+ pretty e
  | JStr s => "'" +:+ s +:+ "'"
  | JList l => "[" +:+ String.concat ", " (map plain_dumps l) +:+ "]"
  | JDict kvs =>
      "{" +:+ String.concat ", "
                (map (fun kv => match kv with
                                | (k, x) => "'" +:+ k +:+ "': " +:+ plain_dumps x
                                end) kvs) +:+ "}"
  end.

Definition plainLib : PyLib :=
  {| json_dumps := plain_dumps;
     json_loads := fun s => if String.eqb s "{}" then Some (JDict []) else None;
     max_raises := fun _ => None;
     str_of := plain_dumps |}.

Definition isHttp (m : Method) (ev : Event) : bool :=
  match ev with
  | EvHttp req => match method req, m with
                  | GET, GET | POST, POST | DELETE, DELETE => true
                  | _, _ => false
                  end
  | _ => false
  end.

Definition isSleep (ev : Event) : bool :=
  match ev with EvSleep _ => true | _ => false end.

Definition countHttp (m : Method) (h : History) : nat :=
  length (List.filter (isHttp m) h).

Definition countSleep (h : History) : nat :=
  length (List.filter isSleep h).

Definition plainResponse (code : Z) (body : option JSON) : Response :=
  {| status_code := code; text := ""; json := body |}.

(** A server described by what it answers to a request, given the
    history; sleeping is never interrupted, the clock starts at [t0] and
    advances by the seconds slept, ids are taken from the count of
    events. *)
Definition slept (h : History) : Z :=
  fold_right (fun ev acc => match ev with EvSleep s => Z.max 0 s + acc | _ => acc end) 0 h.

Definition serverEnv (t0 : Z) (server : History -> Request -> NetReply) : Env :=
  {| answer := fun X h c =>
       match c in Call X return X with
       | CHttp req => server h req
       | CSleep _ => None
       | CTime => t0 + slept h
       | CUuid4 => "job-" +:+ pretty (length h)
       | CPrint _ => tt
       end |}.

(** Answers 500 to the first two GETs and 200 afterwards. *)
Definition flakyServer (h : History) (req : Request) : NetReply :=
  if (countHttp GET h <? 2)%nat
  then Reply (plainResponse 500 None)
  else Reply (plainResponse 200 (Some (JDict [("state", JStr "started")]))).

Definition flakyEnv : Env := serverEnv 0 flakyServer.

Definition pollRequest (iid : string) : Request :=
  getRequest ("instances/" +:+ iid) "tok" (plain_dumps showDeviceInfo).

Definition deleteRequest (authToken iid : string) : Request :=
  {| method := DELETE;
     url := "https://cloud.neocortix.com/cloud-api/sc/instances/" +:+ iid;
     headers := ncscReqHeaders authToken;
     data := None |}.

(** The history after [k] attempts of [req], each followed by a sleep
    of [secs] seconds. *)
Fixpoint retried (req : Request) (secs : Z) (k : nat) (h : History) : History :=
  match k with
  | O => h
  | S k' => EvSleep secs :: EvHttp req :: retried req secs k' h
  end.

(** Answers 502 to the first [n] DELETEs and 204 afterwards. *)
Definition gatewayServer (n : nat) (h : History) (req : Request) : NetReply :=
  if (countHttp DELETE h <? n)%nat
  then Reply (plainResponse 502 None)
  else Reply (plainResponse 204 None).

Definition gatewayEnv (n : nat) : Env := serverEnv 0 (gatewayServer n).

Definition tallyTotal (t : Tally) : nat :=
  (nGood t + nFailed t + nTimedOut t + nOther t)%nat.

Definition host (iid : string) : Instance :=
  {| instanceId := iid; ssh := JDict [("host", JStr iid)] |}.

(** Five hosts: exit codes 0, 0, 1, 0, and one that overruns. *)
Definition fiveHosts : list Instance :=
  [host "h1"; host "h2"; host "h3"; host "h4"; host "h5"].

Definition fiveRuns (i : nat) (inst : Instance) : ClientRun :=
  match i with
  | 2%nat => Completed (Value (ReturnCode 1))
  | 4%nat => Overran
  | _ => Completed (Value (ReturnCode 0))
  end.

(** What holds of the poll loop's sets and dict between two polls. *)
Definition PollInv (iids : list string) (st : PollState) : Prop :=
  dom (startedInstances st) = startedSet st
  /\ startedSet st ⊆ list_to_set iids
  /\ failedSet st ⊆ list_to_set iids
  /\ forall iid details,
       startedInstances st !! iid = Some details ->
       py_getitem details "state" = Ok (JStr "started").

Definition isStarted (iState : JSON) : bool := is_str iState "started".

(** Answers every request with 200 and an instance in state [failed]. *)
Definition failedServer (h : History) (req : Request) : NetReply :=
  Reply (plainResponse 200 (Some (JDict [("state", JStr "failed"); ("job", JStr "j-1")]))).

Definition failedEnv : Env := serverEnv 0 failedServer.

(** Every poll of an id of [iids] is answered, inside 2xx, by a dict
    whose state is [s]; sleeping is never interrupted. *)
Definition AlwaysInState `{lib : PyLib} (env : Env) (tok : string)
  (iids : list string) (s : string) : Prop :=
  (forall h iid, iid ∈ iids ->
     exists resp kvs,
       answer env _ h
         (CHttp (getRequest ("instances/" +:+ iid) tok (json_dumps showDeviceInfo)))
       = Reply resp
       /\ non2xx (status_code resp) = false
       /\ json resp = Some (JDict kvs)
       /\ dict_get kvs "state" = Some (JStr s))
  /\ (forall h secs, answer env _ h (CSleep secs) = None).

(** What came out of a run, if it returned. *)
Definition returned {A} (r : Outcome A * History) : option A :=
  match fst r with Returned a => Some a | _ => None end.

(** Instance [i-1] is started, every other one is failed. *)
Definition mixedServer (h : History) (req : Request) : NetReply :=
  if String.eqb (url req) (url (pollRequest "i-1"))
  then Reply (plainResponse 200 (Some (JDict [("state", JStr "started"); ("job", JStr "j-1")])))
  else failedServer h req.

Definition mixedEnv : Env := serverEnv 0 mixedServer.

(** The [starting] flag says whether some state counted in the cycle
    was not [started]. *)
Definition flagMatches (c : Cycle) : Prop :=
  starting c = negb (forallb isStarted (launcherStates c)).

Definition postRequest (authToken body : string) : Request :=
  {| method := POST;
     url := "https://cloud.neocortix.com/cloud-api/sc/instances";
     headers := ncscReqHeaders authToken;
     data := Some body |}.

(** The request data of a launch before the filter is merged in. *)
Definition launchData (reqId : string) (numReq : Z) (regions abis sshClientKeyName : JSON)
  : list (string * JSON) :=
  [ ("abis", abis); ("job", JStr reqId); ("regions", regions);
    ("ssh_key", sshClientKeyName); ("count", JNum numReq) ].

Definition versionsUrl : string :=
  "https://cloud.neocortix.com/cloud-api/sc/info/mobile-app-versions".

(** A control plane that lists one application version, answers the
    launch POST with 500 and any other request with [other]. *)
Definition brokenLaunchServer (other : Response) (h : History) (req : Request) : NetReply :=
  match method req with
  | POST => Reply (plainResponse 500 None)
  | _ =>
      if String.eqb (url req) versionsUrl
      then Reply (plainResponse 200 (Some (JList [JDict [("value", JNum 1623)]])))
      else Reply other
  end.

(** A control plane that answers 503, without a body, to everything. *)
Definition downServer (h : History) (req : Request) : NetReply :=
  Reply (plainResponse 503 None).

Definition downEnv : Env := serverEnv 0 downServer.

Definition launchArgs (asJson : bool) : Args :=
  {| arg_authToken := "tok";
     arg_itype := None;
     arg_count := 1;
     arg_sshClientKeyName := JNull;
     arg_region := JNull;
     arg_filter := None;
     arg_json := asJson |}.

Definition recoveryFailsEnv : Env :=
  serverEnv 0 (brokenLaunchServer (plainResponse 503 None)).

Definition recoveryEmptyEnv : Env :=
  serverEnv 0 (brokenLaunchServer (plainResponse 200 (Some (JDict [("my", JList [])])))).

Definition versionsRequest : Request :=
  getRequest "info/mobile-app-versions" "tok" "null".

(** *** Reading a pool run *)

Definition isVis {A} (w : Prog A) : bool :=
  match w with Vis _ _ => true | _ => false end.

(** One call of a running work item, answered by the environment. *)
Definition advance {A} (env : Env) (h : History) (w : Prog A) : Prog A * History :=
  match w with
  | Vis c k => (k (answer env _ h c), event_of c :: h)
  | _ => (w, h)
  end.

Definition outcomeOf (r : Result unit) : Outcome unit :=
  match r with Ok _ => Returned tt | Err e => Raised e end.

(** The DELETE requests of a history. *)
Definition deletes (h : History) : list Request :=
  flat_map (fun ev =>
              match ev with
              | EvHttp req => match method req with DELETE => [req] | _ => [] end
              | _ => []
              end) h.


(** Answers 204 to every request. *)
Definition okEnv : Env := gatewayEnv 0.


(** Whether the delete request of a work item has been sent, read off
    the state of its future when every request is answered outside 502. *)
Definition sentOf (f : Future) : bool :=
  match f with
  | Running (Ret _) | Finished _ => true
  | _ => false
  end.

Fixpoint sentRequests (tok : string) (iids : list string) (fs : list Future)
  : list Request :=
  match iids, fs with
  | iid :: iids', f :: fs' =>
      (if sentOf f then [deleteRequest tok iid] else []) ++ sentRequests tok iids' fs'
  | _, _ => []
  end.

Definition okState (w0 : Prog unit) (f : Future) : Prop :=
  f = Pending w0 \/ f = Running w0 \/ f = Running (Ret tt) \/ f = Finished (Ok tt).

(** Every delete request is answered, and not with 502. *)
Definition AnswersDeletes (env : Env) : Prop :=
  forall h req, method req = DELETE ->
    exists resp, answer env _ h (CHttp req) = Reply resp /\ status_code resp <> 502.

(** What holds of the pool while no work item can fail: nothing is
    re-raised or cancelled, the results taken so far are there, and the
    delete requests sent are those of the items past their request. *)
Definition allOnce (fuel : nat) (tok : string) (iids : list string) (h0 : History)
  (p : Pool) (h : History) : Prop :=
  reraised p = None
  /\ length (futures p) = length iids
  /\ (forall i iid f, iids !! i = Some iid -> futures p !! i = Some f ->
        okState (terminateOne fuel tok (JStr iid)) f)
  /\ (forall i, (i < yielded p)%nat -> futures p !! i = Some (Finished (Ok tt)))
  /\ Permutation (deletes h) (sentRequests tok iids (futures p) ++ deletes h0).



(** The connection for [i-1] is refused; every other request gets 204. *)
Definition refusingServer (h : History) (req : Request) : NetReply :=
  if String.eqb (url req) (url (deleteRequest "tok" "i-1"))
  then NetRaise (RequestException "connection refused")
  else Reply (plainResponse 204 None).

Definition refusingEnv : Env := serverEnv 0 refusingServer.


(** A clock that never goes back and that moves on by at least the time
    slept. *)
Definition ClockAdvances (env : Env) : Prop :=
  (forall h ev, answer env _ h CTime <= answer env _ (ev :: h) CTime)
  /\ (forall h secs, answer env _ h CTime + secs <= answer env _ (EvSleep secs :: h) CTime).

(** The schedule on which one worker runs the items one after the
    other, the main thread taking each result as it comes: [n] items
    from index [from] on. *)
Definition seqSchedule (from n : nat) : list Action :=
  flat_map (fun i => [Worker i; Worker i; Worker i; Main]) (seq from n).

(** The pool once the items before [todo] are finished and taken. *)
Definition poolAfter (done : list Future) (todo : list (Prog unit)) : Pool :=
  {| futures := done ++ map Pending todo;
     yielded := length done;
     reraised := None |}.

(** ** More of the two files

    The functions the poll, launch and terminate paths sit in, and the
    helpers of the dispatcher script. *)

Section NcsMore.
Context `{lib : PyLib}.

(** The [abis] argument [doCmdLaunch] builds from [args.itype]. *)
Definition instanceAbis (args : Args) : JSON :=
  match arg_itype args with
  | Some t => if String.eqb t "" then JList [] else JList [JStr t]
  | None => JList []
  end.

(** [__main__], lines 437-441: what the action [launch] hands to
    [sys.exit].  The embedding covers integer codes. *)
Definition mainLaunch (fuel : nat) (args : Args) : Prog JSON :=
  exitCode ← doCmdLaunch fuel args;
  match exitCode with
  | JNum c => Ret (JNum (if c >? 400 then c - 400 else c))
  | JBool _ | JFloat _ _ => Stuck
  | _ => Raise (TypeError "'>' not supported between instances")
  end.

End NcsMore.

(** *** More scenarios *)

Definition filterText : string := "{'count': 3, 'dar': '>= 24'}".

(** A library stand-in that parses [filterText] and the list [[1]]. *)
Definition filterLib : PyLib :=
  {| json_dumps := plain_dumps;
     json_loads := fun s =>
       if String.eqb s filterText
       then Some (JDict [("count", JNum 3); ("dar", JStr ">= 24")])
       else if String.eqb s "[1]" then Some (JList [JNum 1])
       else None;
     max_raises := fun _ => None;
     str_of := plain_dumps |}.

(** A control plane that lists one application version and answers
    every other request with [other]. *)
Definition launchServer (other : Response) (h : History) (req : Request) : NetReply :=
  if String.eqb (url req) versionsUrl
  then Reply (plainResponse 200 (Some (JList [JDict [("value", JNum 1623)]])))
  else Reply other.

Definition filterArgs (f : string) : Args :=
  {| arg_authToken := "tok";
     arg_itype := None;
     arg_count := 1;
     arg_sshClientKeyName := JNull;
     arg_region := JNull;
     arg_filter := Some f;
     arg_json := false |}.

(** The poll of instance [iid]. *)
Definition pollEvent `{lib : PyLib} (tok iid : string) : Event :=
  EvHttp (getRequest ("instances/" +:+ iid) tok (json_dumps showDeviceInfo)).

(** From [st] to [st'] nothing that was recorded is lost or changed. *)
Definition keeps (st st' : PollState) : Prop :=
  startedSet st ⊆ startedSet st'
  /\ failedSet st ⊆ failedSet st'
  /\ startedInstances st ⊆ startedInstances st'.

(** The state a pass over the ids has reached, interrupted or not. *)
Definition flowState (r : Flow Cycle) : PollState :=
  match r with Next c => state c | Stop st => st end.

Definition isPrint (ev : Event) : bool :=
  match ev with EvPrint _ => true | _ => false end.


(** Answers every request with 200 and an instance in state [started]. *)
Definition startedServer (h : History) (req : Request) : NetReply :=
  Reply (plainResponse 200 (Some (JDict [("state", JStr "started"); ("job", JStr "j-1")]))).

Definition startedEnv : Env := serverEnv 0 startedServer.

(** Two states of the poll loop over [i-0] and [i-1]: [i-0] is started;
    then [i-1] is seen failed. *)
Definition oneStarted : PollState :=
  {| startedSet := {["i-0"]};
     failedSet := ∅;
     startedInstances := {["i-0" := JDict [("state", JStr "started")]]} |}.

Definition oneStartedOneFailed : PollState :=
  {| startedSet := {["i-0"]};
     failedSet := {["i-1"]};
     startedInstances := {["i-0" := JDict [("state", JStr "started")]]} |}.

(** From [h] to [h'] nothing happened but printing. *)
Definition onlyPrints (h h' : History) : Prop :=
  exists evs, h' = (evs ++ h)%list /\ forallb isPrint evs = true.

(** A control plane on which everything goes well: one application
    version, a launch that allocates [i-1] and [i-2], and instances that
    are started when they are asked for. *)
Definition twoLaunched : list JSON :=
  [JDict [("id", JStr "i-1")]; JDict [("id", JStr "i-2")]].

Definition happyServer (h : History) (req : Request) : NetReply :=
  match method req with
  | POST => Reply (plainResponse 200 (Some (JList twoLaunched)))
  | _ =>
      if String.eqb (url req) versionsUrl
      then Reply (plainResponse 200 (Some (JList [JDict [("value", JNum 1623)]])))
      else startedServer h req
  end.

Definition happyEnv : Env := serverEnv 0 happyServer.

Definition happyLaunched : History :=
  [EvHttp (postRequest "tok" (plain_dumps (JDict (launchData "job-1" 1 JNull (JList []) JNull))));
   EvUuid4; EvHttp versionsRequest].

(** ** commandInstancesAsync.py: the helpers *)

(** [anyFound]: the items of the two iterables, compared with [==]. *)
Fixpoint anyFound {A} `{EqDecision A} (a b : list A) : bool :=
  match a with
  | [] => false
  | x :: rest => if bool_decide (x ∈ b) then true else anyFound rest b
  end.

(** [v[k] = x] for a string [k] *)
Definition py_setitem (v : JSON) (k : string) (x : JSON) : Result JSON :=
  match v with
  | JDict kvs => Ok (JDict (dict_set kvs k x))
  | JList _ => Err (TypeError "list indices must be integers")
  | _ => Err (TypeError "object does not support item assignment")
  end.

(** The records are those of a JSON file, so no two of them share an
    [ssh] dict: storing the id in one target leaves the others as they
    are. *)
Fixpoint extractSshTargets (inRecs : list JSON) : Result (list JSON) :=
  match inRecs with
  | [] => Ok []
  | details :: rest =>
      match py_getitem details "instanceId" with
      | Err e => Err e
      | Ok iid =>
          match py_getitem details "state" with
          | Err e => Err e
          | Ok st =>
              if is_str st "started" then
                match py_contains "ssh" details with
                | Err e => Err e
                | Ok false => extractSshTargets rest
                | Ok true =>
                    match py_getitem details "ssh" with
                    | Err e => Err e
                    | Ok target =>
                        match py_setitem target "instanceId" iid with
                        | Err e => Err e
                        | Ok target' =>
                            match extractSshTargets rest with
                            | Err e => Err e
                            | Ok targets => Ok (target' :: targets)
                            end
                        end
                    end
                end
              else extractSshTargets rest
          end
      end
  end.

(** A record of a started instance that has an [ssh] entry. *)
Definition startedWithSsh (details : JSON) : bool :=
  match details with
  | JDict kvs =>
      match dict_get kvs "state", dict_get kvs "ssh" with
      | Some st, Some _ => is_str st "started"
      | _, _ => false
      end
  | _ => false
  end.

(** The kinds of result [run_multiple_clients] tells apart. *)
Definition isGood (r : RawResult) : bool :=
  match r with Value (ReturnCode code) => code =? 0 | _ => false end.

Definition isFailed (r : RawResult) : bool :=
  match r with Value (ReturnCode code) => negb (code =? 0) | _ => false end.

Definition isOther (r : RawResult) : bool :=
  match r with
  | Exception TimeoutError | Value (ReturnCode _) => false
  | _ => true
  end.

Definition tallyOf (results : list RawResult) : Tally :=
  {| nGood := length (List.filter isGood results);
     nFailed := length (List.filter isFailed results);
     nTimedOut := length (List.filter isTimeoutError results);
     nOther := length (List.filter isOther results) |}.

(** Launched instances as the dispatcher reads them from its file. *)
Definition launchedRecords : list JSON :=
  [ JDict [("instanceId", JStr "i-1"); ("state", JStr "started");
           ("ssh", JDict [("host", JStr "h1"); ("port", JNum 22)])];
    JDict [("instanceId", JStr "i-2"); ("state", JStr "failed")];
    JDict [("instanceId", JStr "i-3"); ("state", JStr "started");
           ("ssh", JDict [("host", JStr "h3"); ("instanceId", JStr "old")])] ].

(** ** ncs.py: doCmdTerminate and doCmdList *)

(** What the two commands read of [args]; [--instanceId] takes one or
    more strings, and is [None] when it is not given. *)
Record CmdArgs := {
  cmd_authToken : string;
  cmd_instanceId : option (list string);
  cmd_json : bool;
  cmd_showPasswords : bool
}.

(** [args.instanceId == ['ALL']] *)
Definition isALL (ids : option (list string)) : bool :=
  match ids with
  | Some [s] => String.eqb s "ALL"
  | _ => false
  end.

(** [len(v)] *)
Definition py_len (v : JSON) : Result nat :=
  match v with
  | JList l => Ok (length l)
  | JDict kvs => Ok (length kvs)
  | JStr s => Ok (String.length s)
  | _ => Err (TypeError "object has no len()")
  end.

Section Commands.
Context `{lib : PyLib}.

(** [queryNcsSc( 'instances', authToken)] inside [try: ... except
    Exception: return]: [None] stands for the return. *)
Definition listInstances (authToken : string) : Prog (option QueryResult) :=
  try_except
    (response ← queryNcsSc "instances" authToken (inr JNull) 1;
     Ret (Some response))
    (fun exc => if isException exc then Ret None else Raise exc).

(** The last line of [doCmdTerminate] reads the clock for the log. *)
Definition logTook : Prog unit := now ← time_time; Ret tt.

Definition doCmdTerminate (sched : list Action) (fuel : nat) (args : CmdArgs)
  : Prog unit :=
  let authToken := cmd_authToken args in
  startTime ← time_time;
  if isALL (cmd_instanceId args) then
    q ← listInstances authToken;
    match q with
    | None => Ret tt
    | Some response =>
        match content response with
        | JDict _ =>
            let instancesJson := content response in
            runningInstances ← lift (py_getitem instancesJson "my");
            n ← lift (py_len runningInstances);
            insts ← lift (py_iter runningInstances);
            runningIids ← lift (mapR (fun inst => py_getitem inst "id") insts);
            terminateInstances sched fuel authToken runningIids;;
            logTook
        | _ => Raise (AttributeError "object has no attribute 'keys'")
        end
    end
  else
    match cmd_instanceId args with
    | None | Some [] => logTook
    | Some ids =>
        terminateInstances sched fuel authToken (map JStr ids);;
        logTook
    end.

End Commands.

(** What is left of [doCmdTerminate] once the ids are known: the pool
    run, then the clock is read. *)
Definition thenLogTook (r : Outcome unit * History) : Outcome unit * History :=
  match r with
  | (Returned _, h2) => (Returned tt, EvTime :: h2)
  | other => other
  end.

Definition terminateArgs (ids : option (list string)) : CmdArgs :=
  {| cmd_authToken := "tok";
     cmd_instanceId := ids;
     cmd_json := false;
     cmd_showPasswords := false |}.

Definition listRequest : Request := getRequest "instances" "tok" "null".

(** A control plane with two instances of the account: it lists them,
    and answers 204 to everything else. *)
Definition twoListedServer (h : History) (req : Request) : NetReply :=
  match method req with
  | GET => Reply (plainResponse 200 (Some (JDict [("my", JList twoLaunched)])))
  | _ => Reply (plainResponse 204 None)
  end.

Definition twoListedEnv : Env := serverEnv 0 twoListedServer.

(** No request gets through. *)
Definition unreachableServer (h : History) (req : Request) : NetReply :=
  NetRaise (RequestException "connection refused").

Definition unreachableEnv : Env := serverEnv 0 unreachableServer.

(** *** doCmdList *)

(** ['%d' % v]: an int as it is, a bool as 0 or 1; anything that is not
    a number raises.  The embedding does not cover floats. *)
Definition py_format_d (v : JSON) : Prog string :=
  match v with
  | JNum n => Ret (pretty n)
  | JBool b => Ret (if b then "1" else "0")
  | JFloat _ _ => Stuck
  | _ => Raise (TypeError "%d format: a real number is required")
  end.

(** [if (not args.showPasswords) and ('ssh' in outRec):
       outRec['ssh']['password'] = '*'], once [showPasswords] is off. *)
Definition maskPassword (outRec : list (string * JSON)) : Result (list (string * JSON)) :=
  match dict_get outRec "ssh" with
  | None => Ok outRec
  | Some sshSpecs =>
      match py_setitem sshSpecs "password" (JStr "*") with
      | Ok sshSpecs' => Ok (dict_set outRec "ssh" sshSpecs')
      | Err e => Err e
      end
  end.

Section ListCommand.
Context `{lib : PyLib}.

(** Lines 270-283: the ids of the instances the account has; [None]
    stands for the [return] taken when the query raises.  As in
    [collectIds], the embedding covers string ids. *)
Definition listedIds (authToken : string) : Prog (option (list string)) :=
  q ← listInstances authToken;
  match q with
  | None => Ret None
  | Some response =>
      let instancesJson := content response in
      has ← lift (py_contains "running" instancesJson);
      runningInstances ← (if (has : bool) then lift (py_getitem instancesJson "my")
                          else Ret (JList []));
      n ← lift (py_len runningInstances);
      insts ← lift (py_iter runningInstances);
      iids ← collectIds insts;
      Ret (Some iids)
  end.

(** Lines 267-283 *)
Definition idsToList (args : CmdArgs) : Prog (option (list string)) :=
  match cmd_instanceId args with
  | Some (iid :: rest) =>
      if isALL (cmd_instanceId args) then listedIds (cmd_authToken args)
      else Ret (Some (iid :: rest))
  | _ => listedIds (cmd_authToken args)
  end.

(** The query of the loop body, inside [try: ... except Exception:
    continue]; [None] stands for the [continue]. *)
Definition listQuery (authToken iid : string) : Prog (option QueryResult) :=
  try_except
    (response ← queryNcsSc ("instances/" +:+ iid) authToken (inr showDeviceInfo) 1;
     Ret (Some response))
    (fun exc => if isException exc then Ret None else Raise exc).

(** Lines 303-319: what the arguments of the log calls evaluate. *)
Definition logDetails (details instState : JSON) : Prog unit :=
  hasVersion ← lift (py_contains "app-version" details);
  (if (hasVersion : bool) then
     appVersion ← lift (py_getitem details "app-version");
     code ← lift (py_getitem appVersion "code");
     Ret tt
   else Ret tt);;
  hasProgress ← lift (py_contains "progress" details);
  if (hasProgress : bool) then
    if negb (is_str instState "started") then Ret tt
    else
      progress ← lift (py_getitem details "progress");
      launched ← lift (py_contains "SC instance launched" progress);
      Ret tt
  else Ret tt.

(** [details['ssh'][key] if 'ssh' in details else other] *)
Definition sshField (details : JSON) (key : string) (other : JSON) : Prog JSON :=
  has ← lift (py_contains "ssh" details);
  if (has : bool) then
    sshSpecs ← lift (py_getitem details "ssh");
    lift (py_getitem sshSpecs key)
  else Ret other.

(** Lines 323-340: prints one instance; returns the new
    [jsonFirstElem]. *)
Definition printListed (args : CmdArgs) (jsonFirstElem : bool) (iid : string)
  (details : JSON) : Prog bool :=
  if cmd_json args then
    outRec ← match details with
             | JDict kvs => Ret (dict_set kvs "instanceId" (JStr iid))
             | JList _ => Raise (TypeError "list indices must be integers")
             | _ => Raise (AttributeError "object has no attribute 'copy'")
             end;
    outRec' ← (if negb (cmd_showPasswords args) then lift (maskPassword outRec)
               else Ret outRec);
    (if jsonFirstElem then Ret tt else print_end "," " ");;
    print (json_dumps (JDict outRec'));;
    Ret false
  else
    has ← lift (py_contains "ssh" details);
    port ← sshField details "port" (JNum 0);
    host ← (if (has : bool) then v ← sshField details "host" JNull; Ret (str_of v)
            else Ret "None");
    pw ← (if (has : bool) then v ← sshField details "password" JNull; Ret (str_of v)
          else Ret "");
    jobId ← lift (py_getitem details "job");
    let pw' := if negb (cmd_showPasswords args) then "*" else pw in
    st ← lift (py_getitem details "state");
    portText ← py_format_d port;
    print (iid +:+ "," +:+ str_of st +:+ "," +:+ portText +:+ "," +:+ host +:+ ","
           +:+ pw' +:+ "," +:+ str_of jobId);;
    Ret jsonFirstElem.

(** The body of [for iid in iids]. *)
Definition listOne (args : CmdArgs) (jsonFirstElem : bool) (iid : string) : Prog bool :=
  q ← listQuery (cmd_authToken args) iid;
  match q with
  | None => Ret jsonFirstElem
  | Some response =>
      let respCode := statusCode response in
      if non2xx respCode then Ret jsonFirstElem
      else
        let details := content response in
        instState ← lift (py_getitem details "state");
        logDetails details instState;;
        printListed args jsonFirstElem iid details
  end.

Fixpoint listLoop (args : CmdArgs) (iids : list string) (jsonFirstElem : bool)
  : Prog unit :=
  match iids with
  | [] => Ret tt
  | iid :: rest =>
      first' ← listOne args jsonFirstElem iid;
      listLoop args rest first'
  end.

Definition doCmdList (args : CmdArgs) : Prog unit :=
  r ← idsToList args;
  match r with
  | None => Ret tt
  | Some iids =>
      (if cmd_json args then print "[" else Ret tt);;
      listLoop args iids true;;
      (if cmd_json args then print "]" else Ret tt)
  end.

End ListCommand.

(** The strings a history has printed, the last one first. *)
Definition prints (h : History) : list string :=
  flat_map (fun ev => match ev with EvPrint out => [out] | _ => [] end) h.

(** A record whose [ssh] entry, if it has one, shows ['*'] for the
    password. *)
Definition masked (outRec : list (string * JSON)) : Prop :=
  forall sshSpecs, dict_get outRec "ssh" = Some sshSpecs ->
                   py_getitem sshSpecs "password" = Ok (JStr "*").

(** What [doCmdList] may print in JSON mode when passwords are not to
    be shown. *)
Definition maskedOutput `{lib : PyLib} (out : string) : Prop :=
  out = "[" +:+ newline \/ out = "]" +:+ newline \/ out = ", "
  \/ exists outRec, out = json_dumps (JDict outRec) +:+ newline /\ masked outRec.

(** What [doCmdList] may print in plain mode when passwords are not to
    be shown: a line whose fifth field is ['*']. *)
Definition hiddenLine (out : string) : Prop :=
  exists iid st port host job,
    out = (iid +:+ "," +:+ st +:+ "," +:+ port +:+ "," +:+ host +:+ "," +:+ "*"
           +:+ "," +:+ job) +:+ newline.

(** From [h] to [h'] every string printed satisfies [P]. *)
Definition printsOnly (P : string -> Prop) (h h' : History) : Prop :=
  exists evs, h' = (evs ++ h)%list /\ Forall P (prints evs).

Definition listArgs (ids : option (list string)) (asJson : bool) : CmdArgs :=
  {| cmd_authToken := "tok";
     cmd_instanceId := ids;
     cmd_json := asJson;
     cmd_showPasswords := false |}.

(** Every instance is started and reachable with a password. *)
Definition sshServer (h : History) (req : Request) : NetReply :=
  Reply (plainResponse 200
           (Some (JDict [("state", JStr "started"); ("job", JStr "j-1");
                         ("ssh", JDict [("host", JStr "h1"); ("port", JNum 22);
                                        ("password", JStr "secret")])]))).

Definition sshEnv : Env := serverEnv 0 sshServer.

(** The brackets [doCmdList] prints around what it lists in JSON mode,
    the last one first. *)
Definition closing (asJson : bool) : History :=
  if asJson then [EvPrint ("]" +:+ newline)] else [].

Definition opening (asJson : bool) : History :=
  if asJson then [EvPrint ("[" +:+ newline)] else [].

(** ** Reading a run against what the server answered *)

(** The exchanges of a history: every request with the answer it got,
    the last one first. *)
Fixpoint exchanges (env : Env) (h : History) : list (Request * NetReply) :=
  match h with
  | [] => []
  | EvHttp req :: h0 => (req, answer env _ h0 (CHttp req)) :: exchanges env h0
  | _ :: h0 => exchanges env h0
  end.

(** The request by which the poll loop asks for instance [iid]. *)
Definition pollOf `{lib : PyLib} (tok iid : string) : Request :=
  getRequest ("instances/" +:+ iid) tok (json_dumps showDeviceInfo).

(** The body of a reply as [queryNcsSc] hands it on. *)
Definition bodyOf (resp : Response) : JSON := default (JDict []) (json resp).

(** What the poll loop has stored, against the exchanges so far: a
    stored entry is the body of a reply to the poll of its id; and a poll
    answered inside 2xx by a body in state [started], if it is not one of
    the exchanges of [h0], has put its id in [startedSet]. *)
Definition PollSeen `{lib : PyLib} (env : Env) (tok : string) (h0 : History)
  (st : PollState) (h : History) : Prop :=
  (forall iid details,
     startedInstances st !! iid = Some details ->
     exists resp, (pollOf tok iid, Reply resp) ∈ exchanges env h /\ details = bodyOf resp)
  /\ (forall iid resp,
        (pollOf tok iid, Reply resp) ∈ exchanges env h ->
        non2xx (status_code resp) = false ->
        py_getitem (bodyOf resp) "state" = Ok (JStr "started") ->
        (pollOf tok iid, Reply resp) ∈ exchanges env h0 \/ iid ∈ startedSet st).


(** The state the poll loop reaches on [startedEnv] for the one id
    [i-1]. *)
Definition oneSeenStarted : PollState :=
  {| startedSet := {["i-1"]};
     failedSet := ∅;
     startedInstances :=
       {["i-1" := JDict [("state", JStr "started"); ("job", JStr "j-1")]]} |}.

(** ** Properties *)

Local Open Scope list_scope.

Lemma run_bind {A B} env (p : Prog A) (f : A -> Prog B) h :
  run env (p ≫= f) h =
  match run env p h with
  | (Returned a, h') => run env (f a) h'
  | (Raised e, h') => (Raised e, h')
  | (NoResult, h') => (NoResult, h')
  end.
Proof.
  unfold mbind, Prog_bind. revert h.
  induction p as [a|e|X c k IH|]; intros h; simpl; auto.
Qed.

Lemma run_try_except {A} env (p : Prog A) handler h :
  run env (try_except p handler) h =
  match run env p h with
  | (Raised e, h') => run env (handler e) h'
  | other => other
  end.
Proof.
  revert h. induction p as [a|e|X c k IH|]; intros h; simpl; auto.
Qed.

Lemma run_uuid4 {B} env (f : string -> Prog B) h :
  run env (uuid4 ≫= f) h = run env (f (answer env _ h CUuid4)) (EvUuid4 :: h).
Proof. reflexivity. Qed.

Lemma run_time_time {B} env (f : Z -> Prog B) h :
  run env (time_time ≫= f) h = run env (f (answer env _ h CTime)) (EvTime :: h).
Proof. reflexivity. Qed.

Lemma run_http {B} env req (f : Response -> Prog B) h :
  run env (http req ≫= f) h =
  match answer env _ h (CHttp req) with
  | Reply resp => run env (f resp) (EvHttp req :: h)
  | NetRaise exc => (Raised exc, EvHttp req :: h)
  end.
Proof.
  unfold http, mbind, Prog_bind. simpl.
  destruct (answer env NetReply h (CHttp req)); reflexivity.
Qed.

Lemma run_time_sleep {B} env secs (f : unit -> Prog B) h :
  run env (time_sleep secs ≫= f) h =
  match answer env _ h (CSleep secs) with
  | None => run env (f tt) (EvSleep secs :: h)
  | Some exc => (Raised exc, EvSleep secs :: h)
  end.
Proof.
  unfold time_sleep, mbind, Prog_bind. simpl.
  destruct (answer env (option Exn) h (CSleep secs)); reflexivity.
Qed.

Lemma run_print {B} env line (f : unit -> Prog B) h :
  run env (print line ≫= f) h = run env (f tt) (EvPrint (line +:+ newline) :: h).
Proof.
  reflexivity.
Qed.


Lemma queryNcsSc_str_unfold `{lib : PyLib} env n urlTail tok d h :
  run env (queryNcsSc_str n urlTail tok d) h =
  let req := getRequest urlTail tok d in
  let h1 := EvHttp req :: h in
  match answer env _ h (CHttp req) with
  | NetRaise e => (Raised e, h1)
  | Reply resp =>
      if non2xx (status_code resp) then
        match n with
        | O =>
            (Returned {| content := default (JDict []) (json resp);
                         statusCode := status_code resp |}, h1)
        | S n' =>
            match answer env _ h1 (CSleep 10) with
            | Some e => (Raised e, EvSleep 10 :: h1)
            | None => run env (queryNcsSc_str n' urlTail tok d) (EvSleep 10 :: h1)
            end
        end
      else
        (Returned {| content := default (JDict []) (json resp);
                     statusCode := status_code resp |}, h1)
  end.
Proof.
  destruct n; simpl; unfold getRequest;
  destruct (answer env NetReply h _) as [resp|e]; simpl; auto;
  destruct (non2xx (status_code resp)); simpl; auto.
  destruct (answer env (option Exn) _ (CSleep 10)); simpl; auto.
Qed.

Lemma jsonize_inl `{lib : PyLib} (reqParams : string + JSON) :
  jsonize (inl (jsonize reqParams)) = jsonize reqParams.
Proof. reflexivity. Qed.

(** C3.  On a status outside 2xx with [maxRetries > 0], [queryNcsSc]
    sleeps 10 seconds and calls itself with [maxRetries - 1] (the
    parameters, once jsonized, are passed on as they are); with no
    retry left it returns the error status with the parsed body, or
    the empty dict when the body does not parse.  Against answers 500,
    500, 200 a call with [maxRetries = 2] returns the 200 answer after
    three requests and two sleeps of 10 seconds. *)
Theorem queryNcsSc_retries `{lib : PyLib} :
  (forall env urlTail tok reqParams maxRetries h resp,
     let req := getRequest urlTail tok (jsonize reqParams) in
     answer env _ h (CHttp req) = Reply resp ->
     non2xx (status_code resp) = true ->
     0 < maxRetries ->
     run env (queryNcsSc urlTail tok reqParams maxRetries) h =
     match answer env _ (EvHttp req :: h) (CSleep 10) with
     | Some exc => (Raised exc, EvSleep 10 :: EvHttp req :: h)
     | None =>
         run env (queryNcsSc urlTail tok (inl (jsonize reqParams)) (maxRetries - 1))
           (EvSleep 10 :: EvHttp req :: h)
     end)
  /\ (forall env urlTail tok reqParams maxRetries h resp,
     let req := getRequest urlTail tok (jsonize reqParams) in
     answer env _ h (CHttp req) = Reply resp ->
     non2xx (status_code resp) = true ->
     maxRetries <= 0 ->
     run env (queryNcsSc urlTail tok reqParams maxRetries) h =
     (Returned {| content := match json resp with Some body => body | None => JDict [] end;
                  statusCode := status_code resp |},
      EvHttp req :: h))
  /\ (forall env urlTail tok reqParams h r1 r2 r3,
     let req := getRequest urlTail tok (jsonize reqParams) in
     let h1 := EvHttp req :: h in
     let h2 := EvSleep 10 :: h1 in
     let h3 := EvHttp req :: h2 in
     let h4 := EvSleep 10 :: h3 in
     answer env _ h (CHttp req) = Reply r1 -> status_code r1 = 500 ->
     answer env _ h1 (CSleep 10) = None ->
     answer env _ h2 (CHttp req) = Reply r2 -> status_code r2 = 500 ->
     answer env _ h3 (CSleep 10) = None ->
     answer env _ h4 (CHttp req) = Reply r3 -> status_code r3 = 200 ->
     run env (queryNcsSc urlTail tok reqParams 2) h =
     (Returned {| content := match json r3 with Some body => body | None => JDict [] end;
                  statusCode := 200 |},
      EvHttp req :: h4)).
Proof.
  split; [|split].
  - intros env urlTail tok reqParams maxRetries h resp req Hans Hbad Hpos.
    unfold queryNcsSc. rewrite queryNcsSc_str_unfold. cbv zeta.
    fold req. rewrite Hans, Hbad.
    destruct (Z.to_nat maxRetries) as [|n] eqn:En; [lia|].
    replace (Z.to_nat (maxRetries - 1)) with n by lia.
    reflexivity.
  - intros env urlTail tok reqParams maxRetries h resp req Hans Hbad Hle.
    unfold queryNcsSc. rewrite queryNcsSc_str_unfold. cbv zeta.
    fold req. rewrite Hans, Hbad.
    replace (Z.to_nat maxRetries) with O by lia. reflexivity.
  - intros env urlTail tok reqParams h r1 r2 r3 req h1 h2 h3 h4
      H1 S1 Z1 H2 S2 Z2 H3 S3.
    unfold queryNcsSc. change (Z.to_nat 2) with 2%nat.
    rewrite queryNcsSc_str_unfold. cbv zeta. fold req. fold h1.
    rewrite H1, S1. change (non2xx 500) with true. cbv iota.
    rewrite Z1. fold h2.
    rewrite queryNcsSc_str_unfold. cbv zeta. fold req. fold h3.
    rewrite H2, S2. change (non2xx 500) with true. cbv iota.
    rewrite Z2. fold h4.
    rewrite queryNcsSc_str_unfold. cbv zeta. fold req.
    rewrite H3, S3. change (non2xx 200) with false. cbv iota.
    reflexivity.
Qed.

Lemma queryNcsSc_retries_witness :
  run flakyEnv (queryNcsSc (lib := plainLib) "instances/i-1" "tok" (inr showDeviceInfo) 2) [] =
    (Returned {| content := JDict [("state", JStr "started")]; statusCode := 200 |},
     [EvHttp (pollRequest "i-1"); EvSleep 10; EvHttp (pollRequest "i-1"); EvSleep 10;
      EvHttp (pollRequest "i-1")])
  /\ run flakyEnv (queryNcsSc (lib := plainLib) "instances/i-1" "tok" (inr showDeviceInfo) 0) [] =
    (Returned {| content := JDict []; statusCode := 500 |}, [EvHttp (pollRequest "i-1")])
  /\ run flakyEnv (queryNcsSc (lib := plainLib) "instances/i-1" "tok" (inr showDeviceInfo) 1) [] =
     run flakyEnv (queryNcsSc (lib := plainLib) "instances/i-1" "tok"
                     (inl (plain_dumps showDeviceInfo)) 0)
       [EvSleep 10; EvHttp (pollRequest "i-1")].
Proof.
  split; [|split].
  - apply (proj2 (proj2 (queryNcsSc_retries (lib := plainLib)))
             flakyEnv "instances/i-1" "tok" (inr showDeviceInfo) []
             (plainResponse 500 None) (plainResponse 500 None)
             (plainResponse 200 (Some (JDict [("state", JStr "started")]))));
      reflexivity.
  - apply (proj1 (proj2 (queryNcsSc_retries (lib := plainLib)))
             flakyEnv "instances/i-1" "tok" (inr showDeviceInfo) 0 []
             (plainResponse 500 None)); [reflexivity | reflexivity | lia].
  - apply (proj1 (queryNcsSc_retries (lib := plainLib))
             flakyEnv "instances/i-1" "tok" (inr showDeviceInfo) 1 []
             (plainResponse 500 None)); [reflexivity | reflexivity | lia].
Defined.

(** *** terminateNcscInstance *)

Lemma terminateNcscInstance_unfold env fuel tok iid h :
  run env (terminateNcscInstance (S fuel) tok iid) h =
  let req := deleteRequest tok iid in
  let h1 := EvHttp req :: h in
  match answer env _ h (CHttp req) with
  | NetRaise e => (Raised e, h1)
  | Reply resp =>
      if non2xx (status_code resp) && (status_code resp =? 502) then
        match answer env _ h1 (CSleep 10) with
        | Some e => (Raised e, EvSleep 10 :: h1)
        | None => run env (terminateNcscInstance fuel tok iid) (EvSleep 10 :: h1)
        end
      else (Returned (status_code resp), h1)
  end.
Proof.
  simpl. unfold deleteRequest.
  destruct (answer env NetReply h _) as [resp|e]; simpl; auto.
  destruct (non2xx (status_code resp)); simpl; auto.
  destruct (status_code resp =? 502); simpl; auto.
  destruct (answer env (option Exn) _ (CSleep 10)); simpl; auto.
Qed.

(** C4 (amended).  A 502 answer to the delete request makes
    [terminateNcscInstance] sleep 10 seconds and call itself again, and
    so on for as long as the answer is 502: whatever the number [n] of
    502 answers in a row, the request is sent [n + 1] times.  Any other
    status code, 2xx or not, is returned at once. *)
Theorem terminateNcscInstance_retries_while_502
  env (n fuel : nat) tok iid h resp :
  let req := deleteRequest tok iid in
  (forall k, (k < n)%nat ->
     (exists r, answer env _ (retried req 10 k h) (CHttp req) = Reply r
                /\ status_code r = 502)
     /\ answer env _ (EvHttp req :: retried req 10 k h) (CSleep 10) = None) ->
  answer env _ (retried req 10 n h) (CHttp req) = Reply resp ->
  status_code resp <> 502 ->
  (n < fuel)%nat ->
  run env (terminateNcscInstance fuel tok iid) h =
  (Returned (status_code resp), EvHttp req :: retried req 10 n h).
Proof.
  intros req Hbad Hlast Hne Hfuel.
  assert (Hgen : forall k fuel', (k <= n)%nat -> (k < fuel')%nat ->
            run env (terminateNcscInstance fuel' tok iid) (retried req 10 (n - k) h) =
            (Returned (status_code resp), EvHttp req :: retried req 10 n h)).
  { induction k as [|k IH]; intros fuel' Hk Hf.
    - rewrite Nat.sub_0_r in *. destruct fuel' as [|fuel']; [lia|].
      rewrite terminateNcscInstance_unfold. cbv zeta. fold req.
      rewrite Hlast.
      destruct (status_code resp =? 502) eqn:E; [lia|].
      rewrite andb_false_r. reflexivity.
    - destruct fuel' as [|fuel']; [lia|].
      rewrite terminateNcscInstance_unfold. cbv zeta. fold req.
      destruct (Hbad (n - S k)%nat ltac:(lia)) as [[r [Hr Hs]] Hz].
      rewrite Hr, Hs. change (non2xx 502 && (502 =? 502)) with true. cbv iota.
      rewrite Hz.
      specialize (IH fuel' ltac:(lia) ltac:(lia)).
      replace (n - k)%nat with (S (n - S k)) in IH by lia.
      exact IH. }
  specialize (Hgen n fuel ltac:(lia) ltac:(lia)).
  now rewrite Nat.sub_diag in Hgen.
Qed.

Lemma terminateNcscInstance_retries_while_502_witness :
  run (gatewayEnv 3) (terminateNcscInstance 4 "tok" "i-1") [] =
  (Returned 204,
   EvHttp (deleteRequest "tok" "i-1") :: retried (deleteRequest "tok" "i-1") 10 3 []).
Proof.
  apply (terminateNcscInstance_retries_while_502
           (gatewayEnv 3) 3 4 "tok" "i-1" [] (plainResponse 204 None)).
  - intros k Hk.
    destruct k as [|[|[|k]]]; [| | |lia];
      (split; [exists (plainResponse 502 None); split; reflexivity | reflexivity]).
  - reflexivity.
  - simpl. lia.
  - lia.
Defined.

(** C4, as stated, fails: on two 502 answers in a row the delete
    request is sent three times, not twice. *)
Lemma terminateNcscInstance_second_retry :
  run (gatewayEnv 2) (terminateNcscInstance 4 "tok" "i-1") [] =
  (Returned 204,
   [EvHttp (deleteRequest "tok" "i-1"); EvSleep 10;
    EvHttp (deleteRequest "tok" "i-1"); EvSleep 10;
    EvHttp (deleteRequest "tok" "i-1")])
  /\ ~ (countHttp DELETE
          (snd (run (gatewayEnv 2)
                  (terminateNcscInstance 4 "tok" "i-1") [])) <= 2)%nat.
Proof.
  split; [reflexivity|]. vm_compute. lia.
Qed.

(** *** run_multiple_clients *)

Lemma countResult_total t r : tallyTotal (countResult t r) = S (tallyTotal t).
Proof.
  unfold countResult, tallyTotal.
  destruct (isTimeoutError r); simpl; [lia|].
  destruct (isInt r) as [code|]; simpl; [|lia].
  destruct (negb (code =? 0)); simpl; lia.
Qed.

Lemma countResults_total (instances : list Instance) results :
  forall i t,
    (1 <= i)%nat ->
    (i - 1 + length results <= length instances)%nat ->
    exists t', countResults instances i results t = Ok t'
               /\ tallyTotal t' = (tallyTotal t + length results)%nat.
Proof.
  induction results as [|r results IH]; intros i t Hi Hlen; simpl in *.
  - exists t. split; [reflexivity | lia].
  - destruct (lookup_lt_is_Some_2 instances (i - 1)%nat ltac:(lia)) as [inst Hinst].
    rewrite Hinst.
    destruct (IH (S i) (countResult t r) ltac:(lia) ltac:(lia)) as [t' [Ht' Hsum]].
    exists t'. split; [exact Ht'|].
    rewrite Hsum, countResult_total. lia.
Qed.

Lemma countResults_tally (instances : list Instance) results :
  forall i t,
    (1 <= i)%nat ->
    (i - 1 + length results <= length instances)%nat ->
    countResults instances i results t =
    Ok {| nGood := nGood t + nGood (tallyOf results);
          nFailed := nFailed t + nFailed (tallyOf results);
          nTimedOut := nTimedOut t + nTimedOut (tallyOf results);
          nOther := nOther t + nOther (tallyOf results) |}%nat.
Proof.
  induction results as [|r rest IH]; intros i t Hi Hlen.
  - simpl. destruct t; simpl. f_equal. f_equal; lia.
  - simpl in Hlen. simpl countResults.
    destruct (lookup_lt_is_Some_2 instances (i - 1)%nat ltac:(lia)) as [inst ->].
    rewrite IH by lia. f_equal. unfold countResult, tallyOf.
    destruct r as [[code| |]|e]; simpl.
    + destruct (code =? 0); simpl; f_equal; lia.
    + f_equal; lia.
    + f_equal; lia.
    + destruct e; simpl; f_equal; lia.
Qed.

(** C7.  [run_multiple_clients] counts, over all the hosts, the results
    of each kind: good is the exit code 0, failed a non-zero exit code,
    timed out the [TimeoutError] that [wait_for] produces for a task
    that overran its limit (or that the task raised itself), and other
    anything else (an exception of another type, a missing exit code, a
    string); five hosts with exit codes 0, 0, 1, 0 and one overrun give
    3 good, 1 failed, 1 timed out, 0 other. *)
Theorem run_multiple_clients_classifies :
  (forall client (instances : list Instance),
     run_multiple_clients client instances =
     Ok (tallyOf (imap (fun i inst => wait_for (client i inst)) instances)))
  /\ (forall r, isGood r = true <-> r = Value (ReturnCode 0))
  /\ (forall r, isFailed r = true <-> exists code, code <> 0 /\ r = Value (ReturnCode code))
  /\ (forall c, isTimeoutError (wait_for c) = true <->
                c = Overran \/ c = Completed (Exception TimeoutError))
  /\ (forall r, isOther r = true <->
                r <> Exception TimeoutError /\ forall code, r <> Value (ReturnCode code))
  /\ (forall client i1 i2 i3 i4 i5,
        client 0%nat i1 = Completed (Value (ReturnCode 0)) ->
        client 1%nat i2 = Completed (Value (ReturnCode 0)) ->
        client 2%nat i3 = Completed (Value (ReturnCode 1)) ->
        client 3%nat i4 = Completed (Value (ReturnCode 0)) ->
        client 4%nat i5 = Overran ->
        run_multiple_clients client [i1; i2; i3; i4; i5] =
        Ok {| nGood := 3; nFailed := 1; nTimedOut := 1; nOther := 0 |}).
Proof.
  assert (Hall : forall client (instances : list Instance),
            run_multiple_clients client instances =
            Ok (tallyOf (imap (fun i inst => wait_for (client i inst)) instances))).
  { intros client instances. unfold run_multiple_clients.
    rewrite (countResults_tally instances _ 1 noTally) by (rewrite ?length_imap; lia).
    reflexivity. }
  split; [exact Hall|]. split; [|split; [|split; [|split]]].
  - intros r. split.
    + destruct r as [[code| |s]|e]; simpl; try discriminate.
      intros H. apply Z.eqb_eq in H. now subst.
    + intros ->. reflexivity.
  - intros r. split.
    + destruct r as [[code| |s]|e]; simpl; try discriminate.
      intros H. exists code. split; [|reflexivity].
      intros ->. discriminate.
    + intros (code & Hne & ->). simpl. apply negb_true_iff. now apply Z.eqb_neq.
  - intros c. split.
    + destruct c as [[v|e]|]; simpl; try discriminate; [|now left].
      destruct e; try discriminate. now right.
    + intros [->| ->]; reflexivity.
  - intros r. split.
    + destruct r as [[code| |s]|e]; simpl; try discriminate;
        try (intros _; split; [discriminate | intros code0; discriminate]).
      destruct e; try discriminate; intros _; split; discriminate.
    + intros [Hto Hint]. destruct r as [[code| |s]|e]; simpl; try reflexivity.
      * exfalso. exact (Hint code eq_refl).
      * destruct e; try reflexivity. congruence.
  - intros client i1 i2 i3 i4 i5 H1 H2 H3 H4 H5.
    rewrite Hall. simpl. rewrite H1, H2, H3, H4, H5. reflexivity.
Qed.

Lemma run_multiple_clients_classifies_witness :
  run_multiple_clients fiveRuns fiveHosts =
    Ok (tallyOf (imap (fun i inst => wait_for (fiveRuns i inst)) fiveHosts))
  /\ isFailed (Value (ReturnCode 7)) = true
  /\ isOther (Exception (RequestException "connection refused")) = true
  /\ run_multiple_clients fiveRuns fiveHosts =
    Ok {| nGood := 3; nFailed := 1; nTimedOut := 1; nOther := 0 |}.
Proof.
  destruct run_multiple_clients_classifies as (Hall & _ & Hfail & _ & Hother & Hfive).
  split; [|split; [|split]].
  - apply Hall.
  - apply Hfail. exists 7. split; [lia | reflexivity].
  - apply Hother. split; [discriminate | intros code; discriminate].
  - apply (Hfive fiveRuns (host "h1") (host "h2") (host "h3") (host "h4") (host "h5"));
      reflexivity.
Defined.

(** C10.  Every result lands in one bucket: the four counts add up to
    the number of instances, and the loop's lookup [instances[i-1]]
    never fails. *)
Theorem run_multiple_clients_counts_all client (instances : list Instance) :
  exists t, run_multiple_clients client instances = Ok t
            /\ (nGood t + nFailed t + nTimedOut t + nOther t)%nat = length instances.
Proof.
  unfold run_multiple_clients.
  destruct (countResults_total instances
              (imap (fun i inst => wait_for (client i inst)) instances)
              1%nat noTally ltac:(lia)) as [t [Ht Hsum]].
  - rewrite length_imap. simpl. lia.
  - exists t. split; [exact Ht|].
    rewrite length_imap in Hsum. exact Hsum.
Qed.

(** *** The poll loop of doCmdLaunch *)

Lemma run_lift {A} env (r : Result A) h :
  run env (lift r) h = match r with Ok a => (Returned a, h) | Err e => (Raised e, h) end.
Proof. destruct r; reflexivity. Qed.

Lemma is_str_eq v s : is_str v s = true -> v = JStr s.
Proof.
  destruct v; simpl; try discriminate.
  intros H. apply String.eqb_eq in H. now subst.
Qed.

Lemma PollInv_empty iids : PollInv iids emptyPollState.
Proof.
  unfold PollInv, emptyPollState; simpl.
  split; [set_solver|]. split; [set_solver|]. split; [set_solver|].
  intros iid details H. rewrite lookup_empty in H. discriminate.
Qed.

Lemma recordState_inv iids c iid details iState :
  iid ∈ iids ->
  py_getitem details "state" = Ok iState ->
  PollInv iids (state c) ->
  PollInv iids (state (recordState c iid details iState)).
Proof.
  intros Hin Hget (Hdom & Hs & Hf & Hv).
  unfold recordState; simpl.
  destruct (is_str iState "started") eqn:Es; destruct (is_str iState "failed") eqn:Ef;
    unfold PollInv; simpl.
  - apply is_str_eq in Es. apply is_str_eq in Ef. congruence.
  - apply is_str_eq in Es. subst iState.
    split; [|split; [|split]].
    + rewrite dom_insert_L, Hdom. reflexivity.
    + set_solver.
    + exact Hf.
    + intros iid' d'. destruct (decide (iid = iid')) as [->|Hne].
      * rewrite lookup_insert_eq. intros [= <-]. exact Hget.
      * rewrite lookup_insert_ne by exact Hne. apply Hv.
  - split; [|split; [|split]]; try assumption. set_solver.
  - split; [|split; [|split]]; assumption.
Qed.

Lemma pollInstance_inv `{lib : PyLib} env tok iids c iid h r h' :
  iid ∈ iids ->
  PollInv iids (state c) ->
  run env (pollInstance tok c iid) h = (Returned r, h') ->
  match r with
  | Next c' => PollInv iids (state c')
  | Stop st => PollInv iids st
  end.
Proof.
  intros Hin Hinv. unfold pollInstance.
  destruct (bool_decide (iid ∈ startedSet (state c))).
  { simpl. intros [= <- <-]. exact Hinv. }
  rewrite run_bind.
  destruct (run env (queryDetails tok iid) h) as [[q| |] h1]; try discriminate.
  destruct q as [details| |].
  - rewrite run_bind, run_lift.
    destruct (py_contains "state" details) as [hasState|]; try discriminate.
    destruct hasState; simpl.
    + rewrite run_bind, run_lift.
      destruct (py_getitem details "state") as [iState|] eqn:Hget; try discriminate.
      destruct (py_hashable iState); simpl; try discriminate.
      intros [= <- <-]. now apply recordState_inv.
    + intros [= <- <-]. exact Hinv.
  - simpl. intros [= <- <-]. exact Hinv.
  - simpl. intros [= <- <-]. exact Hinv.
Qed.

Lemma pollCycle_cons `{lib : PyLib} tok iid rest c :
  pollCycle tok (iid :: rest) c =
  pollInstance tok c iid ≫= (fun r =>
    match r with
    | Next c' => pollCycle tok rest c'
    | Stop st => Ret (Stop st)
    end).
Proof. reflexivity. Qed.

Lemma pollLoop_S `{lib : PyLib} fuel tok iids deadline st :
  pollLoop (S fuel) tok iids deadline st =
  pollCycle tok iids (newCycle st) ≫= (fun r =>
    match r with
    | Stop st' => Ret st'
    | Next c =>
        if negb (starting c) then Ret (state c)
        else
          time_time ≫= (fun now =>
            if now >? deadline then Ret (state c)
            else
              try_except (time_sleep 5;; Ret false)
                (fun exc => if isKeyboardInterrupt exc then Ret true else Raise exc)
              ≫= (fun interrupted : bool =>
                if interrupted then Ret (state c)
                else pollLoop fuel tok iids deadline (state c)))
    end).
Proof. reflexivity. Qed.

Lemma pollCycle_inv `{lib : PyLib} env tok iids :
  forall ids c h r h',
    ids ⊆ iids ->
    PollInv iids (state c) ->
    run env (pollCycle tok ids c) h = (Returned r, h') ->
    match r with
    | Next c' => PollInv iids (state c')
    | Stop st => PollInv iids st
    end.
Proof.
  induction ids as [|iid ids IH]; intros c h r h' Hsub Hinv.
  - simpl. intros [= <- <-]. exact Hinv.
  - rewrite pollCycle_cons, run_bind.
    destruct (run env (pollInstance tok c iid) h) as [[r1| |] h1] eqn:E1; try discriminate.
    pose proof (pollInstance_inv env tok iids c iid h r1 h1 ltac:(set_solver) Hinv E1) as H1.
    destruct r1 as [c1|st1].
    + apply IH; [set_solver | exact H1].
    + simpl. intros [= <- <-]. exact H1.
Qed.

Lemma pollLoop_inv `{lib : PyLib} env tok iids deadline :
  forall fuel st h st' h',
    PollInv iids st ->
    run env (pollLoop fuel tok iids deadline st) h = (Returned st', h') ->
    PollInv iids st'.
Proof.
  induction fuel as [|fuel IH]; intros st h st' h' Hinv; [discriminate|].
  rewrite pollLoop_S, run_bind.
  destruct (run env (pollCycle tok iids (newCycle st)) h) as [[r| |] h1] eqn:E1;
    try discriminate.
  pose proof (pollCycle_inv env tok iids iids (newCycle st) h r h1
                ltac:(set_solver) Hinv E1) as H1.
  destruct r as [c|st1]; [|simpl; intros [= <- <-]; exact H1].
  destruct (starting c); simpl; [|intros [= <- <-]; exact H1].
  destruct (answer env Z h1 CTime >? deadline); simpl; [intros [= <- <-]; exact H1|].
  destruct (answer env (option Exn) (EvTime :: h1) (CSleep 5)) as [e|]; simpl.
  - destruct (isKeyboardInterrupt e); simpl; [|discriminate].
    intros [= <- <-]. exact H1.
  - apply IH. exact H1.
Qed.

Lemma returned_Some {A} (r : Outcome A * History) a :
  returned r = Some a -> r = (Returned a, snd r).
Proof.
  destruct r as [[x| |] h]; unfold returned; simpl; try discriminate.
  now intros [= ->].
Qed.

Lemma awaitStarted_inv `{lib : PyLib} env fuel tok iids h st :
  returned (run env (awaitStarted fuel tok iids) h) = Some st ->
  PollInv iids st.
Proof.
  intros H. apply returned_Some in H. revert H.
  unfold awaitStarted. rewrite run_bind. simpl.
  apply pollLoop_inv. apply PollInv_empty.
Qed.


Lemma recordState_flag c iid details iState :
  flagMatches c -> flagMatches (recordState c iid details iState).
Proof.
  unfold flagMatches, recordState, isStarted; simpl. intros ->.
  destruct (is_str iState "started"); reflexivity.
Qed.

Lemma pollInstance_flag `{lib : PyLib} env tok c iid h c' h' :
  flagMatches c ->
  run env (pollInstance tok c iid) h = (Returned (Next c'), h') ->
  flagMatches c'.
Proof.
  intros Hc. unfold pollInstance.
  destruct (bool_decide (iid ∈ startedSet (state c))).
  { simpl. intros [= <- <-]. exact Hc. }
  rewrite run_bind.
  destruct (run env (queryDetails tok iid) h) as [[q| |] h1]; try discriminate.
  destruct q as [details| |]; simpl; try (intros [= <- <-]; exact Hc); try discriminate.
  rewrite run_bind, run_lift.
  destruct (py_contains "state" details) as [hasState|]; try discriminate.
  destruct hasState; simpl; [|intros [= <- <-]; exact Hc].
  rewrite run_bind, run_lift.
  destruct (py_getitem details "state") as [iState|]; try discriminate.
  destruct (py_hashable iState); simpl; try discriminate.
  intros [= <- <-]. now apply recordState_flag.
Qed.

Lemma pollCycle_flag `{lib : PyLib} env tok :
  forall ids c h c' h',
    flagMatches c ->
    run env (pollCycle tok ids c) h = (Returned (Next c'), h') ->
    flagMatches c'.
Proof.
  induction ids as [|iid ids IH]; intros c h c' h' Hc.
  - simpl. intros [= <- <-]. exact Hc.
  - rewrite pollCycle_cons, run_bind.
    destruct (run env (pollInstance tok c iid) h) as [[r1| |] h1] eqn:E1; try discriminate.
    destruct r1 as [c1|st1]; [|simpl; discriminate].
    apply IH. exact (pollInstance_flag env tok c iid h c1 h1 Hc E1).
Qed.

(** One turn of [while True], with the exit decision read off the
    states the cycle counted. *)
Lemma pollLoop_turn `{lib : PyLib} env fuel tok iids deadline st h :
  run env (pollLoop (S fuel) tok iids deadline st) h =
  match run env (pollCycle tok iids (newCycle st)) h with
  | (Returned (Stop st'), h1) => (Returned st', h1)
  | (Returned (Next c), h1) =>
      if forallb isStarted (launcherStates c) then (Returned (state c), h1)
      else if answer env _ h1 CTime >? deadline then (Returned (state c), EvTime :: h1)
      else
        match answer env _ (EvTime :: h1) (CSleep 5) with
        | None =>
            run env (pollLoop fuel tok iids deadline (state c))
              (EvSleep 5 :: EvTime :: h1)
        | Some exc =>
            if isKeyboardInterrupt exc
            then (Returned (state c), EvSleep 5 :: EvTime :: h1)
            else (Raised exc, EvSleep 5 :: EvTime :: h1)
        end
  | (Raised exc, h1) => (Raised exc, h1)
  | (NoResult, h1) => (NoResult, h1)
  end.
Proof.
  rewrite pollLoop_S, run_bind.
  destruct (run env (pollCycle tok iids (newCycle st)) h) as [[r| |] h1] eqn:E1;
    try reflexivity.
  destruct r as [c|st1]; [|reflexivity].
  assert (Hflag : flagMatches c).
  { apply (pollCycle_flag env tok iids (newCycle st) h c h1); [reflexivity | exact E1]. }
  rewrite Hflag, negb_involutive.
  destruct (forallb isStarted (launcherStates c)); [reflexivity|].
  simpl.
  destruct (answer env Z h1 CTime >? deadline); [reflexivity|].
  simpl.
  destruct (answer env (option Exn) (EvTime :: h1) (CSleep 5)) as [e|]; simpl.
  - destruct (isKeyboardInterrupt e); reflexivity.
  - reflexivity.
Qed.

Lemma queryDetails_answered `{lib : PyLib} env tok iid h resp :
  answer env _ h
    (CHttp (getRequest ("instances/" +:+ iid) tok (json_dumps showDeviceInfo)))
  = Reply resp ->
  non2xx (status_code resp) = false ->
  run env (queryDetails tok iid) h =
  (Returned (Details (default (JDict []) (json resp))),
   EvHttp (getRequest ("instances/" +:+ iid) tok (json_dumps showDeviceInfo)) :: h).
Proof.
  intros Hans Hok. unfold queryDetails.
  rewrite run_try_except, run_bind. unfold queryNcsSc.
  rewrite queryNcsSc_str_unfold. cbv zeta. simpl jsonize.
  rewrite Hans, Hok. reflexivity.
Qed.

Lemma pollInstance_in_state `{lib : PyLib} env tok iids s c iid h :
  AlwaysInState env tok iids s ->
  s <> "started" ->
  iid ∈ iids ->
  startedSet (state c) = ∅ ->
  exists c',
    run env (pollInstance tok c iid) h =
    (Returned (Next c'),
     EvHttp (getRequest ("instances/" +:+ iid) tok (json_dumps showDeviceInfo)) :: h)
    /\ startedSet (state c') = ∅
    /\ starting c' = true.
Proof.
  intros [Hsrv _] Hs Hin Hempty.
  destruct (Hsrv h iid Hin) as (resp & kvs & Hans & Hok & Hjson & Hstate).
  unfold pollInstance.
  rewrite bool_decide_eq_false_2 by (rewrite Hempty; set_solver).
  rewrite run_bind, (queryDetails_answered env tok iid h resp Hans Hok).
  rewrite Hjson. simpl default.
  rewrite run_bind, run_lift. simpl py_contains. rewrite Hstate. simpl negb. cbv iota.
  rewrite run_bind, run_lift. simpl py_getitem. rewrite Hstate. simpl.
  eexists. split; [reflexivity|].
  assert (Hneq : String.eqb s "started" = false) by (now apply String.eqb_neq).
  unfold recordState; simpl. rewrite Hneq. simpl.
  split; [|reflexivity].
  destruct (String.eqb s "failed"); simpl; exact Hempty.
Qed.

Lemma pollCycle_in_state `{lib : PyLib} env tok iids s :
  AlwaysInState env tok iids s ->
  s <> "started" ->
  forall ids c h,
    ids ⊆ iids ->
    startedSet (state c) = ∅ ->
    exists c' h',
      run env (pollCycle tok ids c) h = (Returned (Next c'), h')
      /\ startedSet (state c') = ∅
      /\ (ids <> [] \/ starting c = true -> starting c' = true).
Proof.
  intros Hsrv Hs. induction ids as [|iid ids IH]; intros c h Hsub Hempty.
  - exists c, h. simpl. split; [reflexivity|]. split; [exact Hempty|].
    intros [H|H]; [congruence | exact H].
  - destruct (pollInstance_in_state env tok iids s c iid h Hsrv Hs
                ltac:(set_solver) Hempty) as (c1 & Hrun & Hempty1 & Hflag1).
    destruct (IH c1 (EvHttp (getRequest ("instances/" +:+ iid) tok
                               (json_dumps showDeviceInfo)) :: h)
                ltac:(set_solver) Hempty1) as (c' & h' & Hrun' & Hempty' & Hflag').
    exists c', h'. rewrite pollCycle_cons, run_bind, Hrun.
    split; [exact Hrun'|]. split; [exact Hempty'|].
    intros _. apply Hflag'. right. exact Hflag1.
Qed.

Lemma pollLoop_in_state `{lib : PyLib} env tok iids s deadline :
  AlwaysInState env tok iids s ->
  s <> "started" ->
  iids <> [] ->
  forall fuel st h st' h',
    startedSet st = ∅ ->
    run env (pollLoop fuel tok iids deadline st) h = (Returned st', h') ->
    exists h1, h' = EvTime :: h1 /\ answer env _ h1 CTime > deadline.
Proof.
  intros Hsrv Hs Hne.
  induction fuel as [|fuel IH]; intros st h st' h' Hempty; [discriminate|].
  rewrite pollLoop_S, run_bind.
  destruct (pollCycle_in_state env tok iids s Hsrv Hs iids (newCycle st) h
              ltac:(set_solver) Hempty) as (c & h1 & Hrun & Hempty1 & Hflag).
  rewrite Hrun, (Hflag (or_introl Hne)). simpl.
  destruct (answer env Z h1 CTime >? deadline) eqn:Hclock; simpl.
  - intros [= <- <-]. exists h1. split; [reflexivity | lia].
  - destruct Hsrv as [_ Hsleep]. rewrite Hsleep. simpl.
    apply IH. exact Hempty1.
Qed.

Lemma run_grows {A} env (p : Prog A) :
  forall h, exists evs, snd (run env p h) = (evs ++ h)%list.
Proof.
  induction p as [a|e|X c k IH|]; intros h; simpl; try (exists []; reflexivity).
  destruct (IH (answer env X h c) (event_of c :: h)) as [evs Hevs].
  exists (evs ++ [event_of c])%list. rewrite Hevs, <- app_assoc. reflexivity.
Qed.

Lemma clock_mono env :
  ClockAdvances env ->
  forall evs h, answer env _ h CTime <= answer env _ (evs ++ h)%list CTime.
Proof.
  intros [Hmono _]. induction evs as [|ev evs IH]; intros h; simpl; [lia|].
  specialize (IH h). specialize (Hmono (evs ++ h)%list ev). lia.
Qed.

Lemma queryNcsSc_str_ends `{lib : PyLib} env :
  forall n urlTail tok d h,
    fst (run env (queryNcsSc_str n urlTail tok d) h) <> NoResult.
Proof.
  induction n as [|n IH]; intros urlTail tok d h;
    rewrite queryNcsSc_str_unfold; cbv zeta;
    destruct (answer env NetReply h _) as [resp|exc]; try discriminate.
  - destruct (non2xx (status_code resp)); discriminate.
  - destruct (non2xx (status_code resp)); [|discriminate].
    destruct (answer env (option Exn) _ (CSleep 10)); [discriminate|]. apply IH.
Qed.

Lemma pollInstance_ends `{lib : PyLib} env tok c iid h :
  fst (run env (pollInstance tok c iid) h) <> NoResult.
Proof.
  unfold pollInstance.
  destruct (bool_decide (iid ∈ startedSet (state c))); [discriminate|].
  rewrite run_bind. unfold queryDetails.
  rewrite run_try_except, run_bind. unfold queryNcsSc.
  pose proof (queryNcsSc_str_ends env (Z.to_nat 1) ("instances/" +:+ iid) tok
                (jsonize (inr showDeviceInfo)) h) as Hq.
  destruct (run env (queryNcsSc_str (Z.to_nat 1) ("instances/" +:+ iid) tok
                       (jsonize (inr showDeviceInfo))) h) as [[r|exc|] h1];
    [| |exfalso; exact (Hq eq_refl)].
  - simpl. rewrite run_bind, run_lift.
    destruct (py_contains "state" (content r)) as [[|]|]; simpl; try discriminate.
    rewrite run_bind, run_lift.
    destruct (py_getitem (content r) "state") as [iState|]; simpl; try discriminate.
    destruct (py_hashable iState); discriminate.
  - destruct (isException exc); simpl; [discriminate|].
    destruct (isKeyboardInterrupt exc); discriminate.
Qed.

Lemma pollCycle_ends `{lib : PyLib} env tok :
  forall iids c h, fst (run env (pollCycle tok iids c) h) <> NoResult.
Proof.
  induction iids as [|iid iids IH]; intros c h; [discriminate|].
  rewrite pollCycle_cons, run_bind.
  pose proof (pollInstance_ends env tok c iid h) as H1.
  destruct (run env (pollInstance tok c iid) h) as [[[c1|st1]|exc|] h1];
    [apply IH | discriminate | discriminate | exfalso; exact (H1 eq_refl)].
Qed.

Lemma pollLoop_ends `{lib : PyLib} env tok iids deadline :
  ClockAdvances env ->
  forall k st h,
    deadline - answer env _ h CTime < 5 * Z.of_nat k ->
    fst (run env (pollLoop (S k) tok iids deadline st) h) <> NoResult.
Proof.
  intros Hclock. induction k as [|k IH]; intros st h Hk;
    rewrite pollLoop_turn;
    pose proof (pollCycle_ends env tok iids (newCycle st) h) as Hc;
    destruct (run env (pollCycle tok iids (newCycle st)) h) as [[[c|st1]|exc|] h1] eqn:Hrun;
    try discriminate; try (exfalso; exact (Hc eq_refl));
    destruct (forallb isStarted (launcherStates c)); try discriminate;
    destruct (run_grows env (pollCycle tok iids (newCycle st)) h) as [evs Hevs];
    rewrite Hrun in Hevs; simpl in Hevs; subst h1;
    pose proof (clock_mono env Hclock evs h) as Hmono;
    destruct (answer env Z (evs ++ h)%list CTime >? deadline) eqn:Hlate;
    try discriminate.
  - lia.
  - destruct (answer env (option Exn) _ (CSleep 5)) as [exc|].
    + destruct (isKeyboardInterrupt exc); discriminate.
    + apply IH.
      destruct Hclock as [Hstep Hsleep].
      pose proof (Hstep (evs ++ h)%list EvTime).
      pose proof (Hsleep (EvTime :: evs ++ h)%list 5).
      lia.
Qed.

(** With a clock that advances, 122 cycles are enough for the loop to
    end, by a return or by an exception. *)
Lemma awaitStarted_ends `{lib : PyLib} env fuel tok iids h :
  ClockAdvances env ->
  (122 <= fuel)%nat ->
  fst (run env (awaitStarted fuel tok iids) h) <> NoResult.
Proof.
  intros Hclock Hfuel. unfold awaitStarted. rewrite run_time_time.
  destruct fuel as [|k]; [lia|].
  apply (pollLoop_ends env tok iids _ Hclock k).
  destruct Hclock as [Hstep _]. pose proof (Hstep h EvTime). lia.
Qed.

(** *** What the polls answered *)

Lemma exchanges_grow env :
  forall evs h x, x ∈ exchanges env h -> x ∈ exchanges env (evs ++ h)%list.
Proof.
  induction evs as [|ev evs IH]; intros h x Hx; [exact Hx|].
  destruct ev; simpl; try (apply IH; exact Hx).
  apply list_elem_of_further, IH, Hx.
Qed.

Lemma pollOf_inj `{lib : PyLib} tok i j : pollOf tok i = pollOf tok j -> i = j.
Proof.
  unfold pollOf, getRequest. intros H. injection H as H. exact H.
Qed.

(** The query returns at this attempt, answered by [resp]. *)
Ltac query_returned Hans resp :=
  intros [= <- <-]; simpl exchanges; rewrite Hans; split; [|split];
  [ intros x Hx; now apply list_elem_of_further
  | intros req rep Hin; apply elem_of_cons in Hin; destruct Hin as [[= -> ->]|Hin];
    [ right; split; [reflexivity|]; intros resp' [= <-] _; reflexivity | now left ]
  | intros r [= <-]; exists resp; split; [apply list_elem_of_here | reflexivity] ].

(** The query raises at this attempt. *)
Ltac query_raised Hans :=
  intros [= <- <-]; simpl exchanges; rewrite Hans; split; [|split];
  [ intros x Hx; now apply list_elem_of_further
  | intros req rep Hin; apply elem_of_cons in Hin; destruct Hin as [[= -> ->]|Hin];
    [ right; split; [reflexivity|]; intros resp' Heq; discriminate | now left ]
  | intros r Heq; discriminate ].

(** The exchanges of a query: the old ones stay; a new one is a GET of
    the query's request, and when it is answered inside 2xx its body is
    what the query returns; and what the query returns is the body of
    one of its replies. *)
Lemma queryNcsSc_str_exchanges `{lib : PyLib} env :
  forall n u tok d h out h1,
    run env (queryNcsSc_str n u tok d) h = (out, h1) ->
    (forall x, x ∈ exchanges env h -> x ∈ exchanges env h1)
    /\ (forall req rep,
          (req, rep) ∈ exchanges env h1 ->
          (req, rep) ∈ exchanges env h
          \/ (req = getRequest u tok d
              /\ forall resp, rep = Reply resp -> non2xx (status_code resp) = false ->
                   out = Returned {| content := bodyOf resp;
                                     statusCode := status_code resp |}))
    /\ (forall r, out = Returned r ->
          exists resp, (getRequest u tok d, Reply resp) ∈ exchanges env h1
                       /\ content r = bodyOf resp).
Proof.
  induction n as [|n IH]; intros u tok d h out h1; rewrite queryNcsSc_str_unfold; cbv zeta;
    destruct (answer env NetReply h (CHttp (getRequest u tok d))) as [resp|exc] eqn:Hans.
  - destruct (non2xx (status_code resp)); query_returned Hans resp.
  - query_raised Hans.
  - destruct (non2xx (status_code resp)) eqn:Hbad; [|query_returned Hans resp].
    (* an attempt answered outside 2xx, with retries left *)
    assert (Hstep : exchanges env (EvSleep 10 :: EvHttp (getRequest u tok d) :: h)
                    = (getRequest u tok d, Reply resp) :: exchanges env h).
    { simpl. rewrite Hans. reflexivity. }
    assert (Hold : forall req rep,
              (req, rep) ∈ (getRequest u tok d, Reply resp) :: exchanges env h ->
              (req, rep) ∈ exchanges env h
              \/ (req = getRequest u tok d
                  /\ forall resp', rep = Reply resp' ->
                       non2xx (status_code resp') = false ->
                       out = Returned {| content := bodyOf resp';
                                         statusCode := status_code resp' |})).
    { intros req rep Hin. apply elem_of_cons in Hin. destruct Hin as [[= -> ->]|Hin].
      - right. split; [reflexivity|]. intros resp' [= <-] Hok. congruence.
      - now left. }
    destruct (answer env (option Exn) _ (CSleep 10)) as [e|].
    + intros [= <- <-]. rewrite Hstep. split; [|split].
      * intros x Hx. now apply list_elem_of_further.
      * exact Hold.
      * intros r Heq. discriminate.
    + intros Hrun. destruct (IH _ _ _ _ _ _ Hrun) as (Hgrow & Hnew & Hret).
      rewrite Hstep in Hgrow, Hnew. split; [|split].
      * intros x Hx. apply Hgrow. now apply list_elem_of_further.
      * intros req rep Hin. destruct (Hnew req rep Hin) as [Hin'|Hin'].
        -- exact (Hold req rep Hin').
        -- right. exact Hin'.
      * exact Hret.
  - query_raised Hans.
Qed.

Lemma PollSeen_step `{lib : PyLib} env tok h0 st h st' h1 :
  PollSeen env tok h0 st h ->
  (forall x, x ∈ exchanges env h -> x ∈ exchanges env h1) ->
  (forall iid details,
     startedInstances st' !! iid = Some details ->
     startedInstances st !! iid = Some details
     \/ exists resp, (pollOf tok iid, Reply resp) ∈ exchanges env h1
                     /\ details = bodyOf resp) ->
  (forall iid resp,
     (pollOf tok iid, Reply resp) ∈ exchanges env h1 ->
     non2xx (status_code resp) = false ->
     py_getitem (bodyOf resp) "state" = Ok (JStr "started") ->
     (pollOf tok iid, Reply resp) ∈ exchanges env h \/ iid ∈ startedSet st') ->
  startedSet st ⊆ startedSet st' ->
  PollSeen env tok h0 st' h1.
Proof.
  intros [Hs Hc] Hgrow Hstored Hnew Hsub. split.
  - intros iid details Hd. destruct (Hstored iid details Hd) as [Hold|Hnow]; [|exact Hnow].
    destruct (Hs iid details Hold) as (resp & Hin & Heq).
    exists resp. split; [apply Hgrow; exact Hin | exact Heq].
  - intros iid resp Hin Hok Hstarted.
    destruct (Hnew iid resp Hin Hok Hstarted) as [Hold|Hnow]; [|right; exact Hnow].
    destruct (Hc iid resp Hold Hok Hstarted) as [H|H]; [left; exact H|].
    right. apply Hsub. exact H.
Qed.

Lemma PollSeen_same `{lib : PyLib} env tok h0 st h h1 :
  PollSeen env tok h0 st h ->
  exchanges env h1 = exchanges env h ->
  PollSeen env tok h0 st h1.
Proof. intros Hseen Heq. unfold PollSeen. rewrite Heq. exact Hseen. Qed.

Lemma started_has_state details :
  py_getitem details "state" = Ok (JStr "started") -> py_contains "state" details = Ok true.
Proof.
  destruct details; simpl; try discriminate.
  destruct (dict_get kvs "state"); [reflexivity | discriminate].
Qed.

Lemma recordState_grows c iid details iState :
  startedSet (state c) ⊆ startedSet (state (recordState c iid details iState)).
Proof.
  unfold recordState; simpl.
  destruct (is_str iState "started"); destruct (is_str iState "failed"); simpl; set_solver.
Qed.

Lemma queryDetails_run `{lib : PyLib} env tok iid h :
  run env (queryDetails tok iid) h =
  match run env (queryNcsSc ("instances/" +:+ iid) tok (inr showDeviceInfo) 1) h with
  | (Returned r, h1) => (Returned (Details (content r)), h1)
  | (Raised exc, h1) =>
      if isException exc then (Returned QueryFailed, h1)
      else if isKeyboardInterrupt exc then (Returned Interrupt, h1)
      else (Raised exc, h1)
  | (NoResult, h1) => (NoResult, h1)
  end.
Proof.
  unfold queryDetails. rewrite run_try_except, run_bind.
  destruct (run env (queryNcsSc ("instances/" +:+ iid) tok (inr showDeviceInfo) 1) h)
    as [[r|exc|] h1]; try reflexivity.
  simpl. destruct (isException exc); [reflexivity|].
  destruct (isKeyboardInterrupt exc); reflexivity.
Qed.

Lemma pollInstance_seen `{lib : PyLib} env tok h0 c iid h r h' :
  PollSeen env tok h0 (state c) h ->
  run env (pollInstance tok c iid) h = (Returned r, h') ->
  PollSeen env tok h0 (flowState r) h'.
Proof.
  intros Hseen. unfold pollInstance.
  destruct (bool_decide (iid ∈ startedSet (state c))).
  { simpl. intros [= <- <-]. exact Hseen. }
  rewrite run_bind, queryDetails_run.
  destruct (run env (queryNcsSc ("instances/" +:+ iid) tok (inr showDeviceInfo) 1) h)
    as [out h1] eqn:Eq.
  unfold queryNcsSc in Eq.
  destruct (queryNcsSc_str_exchanges env _ _ _ _ _ _ _ Eq) as (Hgrow & Hnew & Hret).
  change (getRequest ("instances/" +:+ iid) tok (jsonize (inr showDeviceInfo)))
    with (pollOf tok iid) in Hnew, Hret.
  (* when nothing is recorded *)
  assert (Hskip : (forall resp, out = Returned {| content := bodyOf resp;
                                                  statusCode := status_code resp |} ->
                     py_getitem (bodyOf resp) "state" <> Ok (JStr "started")) ->
                  PollSeen env tok h0 (state c) h1).
  { intros Hnot. apply (PollSeen_step env tok h0 (state c) h _ h1 Hseen Hgrow).
    - intros i d Hd. now left.
    - intros i resp Hin Hok Hstarted. destruct (Hnew _ _ Hin) as [Hold|[_ Hnow]].
      + now left.
      + exfalso. exact (Hnot resp (Hnow resp eq_refl Hok) Hstarted).
    - reflexivity. }
  destruct out as [q|e|]; cbv iota beta.
  - rewrite run_bind, run_lift.
    destruct (py_contains "state" (content q)) as [hasState|] eqn:Hhas; [|discriminate].
    destruct hasState; simpl.
    + rewrite run_bind, run_lift.
      destruct (py_getitem (content q) "state") as [iState|] eqn:Hget; [|discriminate].
      destruct (py_hashable iState); simpl; [|discriminate].
      intros [= <- <-]. simpl flowState.
      apply (PollSeen_step env tok h0 (state c) h _ h1 Hseen Hgrow).
      * intros i d. unfold recordState; simpl.
        destruct (is_str iState "started"); destruct (is_str iState "failed"); simpl;
          try (intros Hd; now left).
        -- destruct (decide (iid = i)) as [->|Hne].
           ++ rewrite lookup_insert_eq. intros [= <-]. right. exact (Hret q eq_refl).
           ++ rewrite lookup_insert_ne by exact Hne. intros Hd. now left.
        -- destruct (decide (iid = i)) as [->|Hne].
           ++ rewrite lookup_insert_eq. intros [= <-]. right. exact (Hret q eq_refl).
           ++ rewrite lookup_insert_ne by exact Hne. intros Hd. now left.
      * intros i resp Hin Hok Hstarted. destruct (Hnew _ _ Hin) as [Hold|[Hreq Hnow]].
        -- now left.
        -- right. apply pollOf_inj in Hreq. subst i.
           pose proof (Hnow resp eq_refl Hok) as Hq. injection Hq as Hq. subst q.
           simpl in Hget. rewrite Hstarted in Hget. injection Hget as <-.
           unfold recordState; simpl. set_solver.
      * apply recordState_grows.
    + intros [= <- <-]. simpl flowState. apply Hskip.
      intros resp Hq Hstarted. injection Hq as Hq. subst q. simpl in Hhas.
      rewrite (started_has_state _ Hstarted) in Hhas. discriminate.
  - destruct (isException e).
    + simpl. intros [= <- <-]. simpl flowState. apply Hskip. intros resp Hq. discriminate.
    + destruct (isKeyboardInterrupt e); simpl; [|discriminate].
      intros [= <- <-]. simpl flowState. apply Hskip. intros resp Hq. discriminate.
  - discriminate.
Qed.

Lemma pollCycle_seen `{lib : PyLib} env tok h0 :
  forall ids c h r h',
    PollSeen env tok h0 (state c) h ->
    run env (pollCycle tok ids c) h = (Returned r, h') ->
    PollSeen env tok h0 (flowState r) h'.
Proof.
  induction ids as [|iid ids IH]; intros c h r h' Hseen.
  - simpl. intros [= <- <-]. exact Hseen.
  - rewrite pollCycle_cons, run_bind.
    destruct (run env (pollInstance tok c iid) h) as [[r1| |] h1] eqn:E1; try discriminate.
    pose proof (pollInstance_seen env tok h0 c iid h r1 h1 Hseen E1) as H1.
    destruct r1 as [c1|st1].
    + apply IH. exact H1.
    + simpl. intros [= <- <-]. exact H1.
Qed.

Lemma pollLoop_seen `{lib : PyLib} env tok iids deadline h0 :
  forall fuel st h st' h',
    PollSeen env tok h0 st h ->
    run env (pollLoop fuel tok iids deadline st) h = (Returned st', h') ->
    PollSeen env tok h0 st' h'.
Proof.
  induction fuel as [|fuel IH]; intros st h st' h' Hseen; [discriminate|].
  rewrite pollLoop_S, run_bind.
  destruct (run env (pollCycle tok iids (newCycle st)) h) as [[r| |] h1] eqn:E1;
    try discriminate.
  pose proof (pollCycle_seen env tok h0 iids (newCycle st) h r h1 Hseen E1) as H1.
  destruct r as [c|st1]; [|simpl; intros [= <- <-]; exact H1].
  simpl in H1.
  destruct (starting c); simpl; [|intros [= <- <-]; exact H1].
  destruct (answer env Z h1 CTime >? deadline); simpl.
  { intros [= <- <-]. exact (PollSeen_same env tok h0 _ h1 _ H1 eq_refl). }
  destruct (answer env (option Exn) (EvTime :: h1) (CSleep 5)) as [e|]; simpl.
  - destruct (isKeyboardInterrupt e); simpl; [|discriminate].
    intros [= <- <-]. exact (PollSeen_same env tok h0 _ h1 _ H1 eq_refl).
  - apply IH. exact (PollSeen_same env tok h0 _ h1 _ H1 eq_refl).
Qed.

Lemma awaitStarted_seen `{lib : PyLib} env fuel tok iids h st h' :
  run env (awaitStarted fuel tok iids) h = (Returned st, h') ->
  PollSeen env tok h st h'.
Proof.
  unfold awaitStarted. rewrite run_time_time.
  apply (pollLoop_seen env tok iids _ h fuel emptyPollState (EvTime :: h) st h').
  split.
  - intros iid details Hd. simpl in Hd. rewrite lookup_empty in Hd. discriminate.
  - intros iid resp Hin _ _. left. exact Hin.
Qed.

(** C1 (amended).  The mapping the poll loop leaves behind, however the
    loop ended, has as its keys the ids seen in state [started]: they
    are input ids; each key holds the body of a reply to a poll of that
    id, and that body said [started]; a poll of an id answered inside
    2xx with a body that said [started] during the loop makes the id a
    key; and an id none of whose polls was answered [started] (it
    failed, was still starting at the deadline, or could not be queried)
    is not a key.  The key set is the whole input id set exactly when
    every input id was seen started.  With a clock that advances the
    loop does end, within 122 cycles. *)
Theorem awaitStarted_keys_are_started_ids `{lib : PyLib} :
  (forall env fuel tok iids h st,
     returned (run env (awaitStarted fuel tok iids) h) = Some st ->
     dom (startedInstances st) = startedSet st
     /\ dom (startedInstances st) ⊆ list_to_set iids
     /\ (forall iid details,
           startedInstances st !! iid = Some details ->
           py_getitem details "state" = Ok (JStr "started"))
     /\ (dom (startedInstances st) = list_to_set iids <->
         forall iid, iid ∈ iids -> iid ∈ startedSet st))
  /\ (forall env fuel tok iids h st h',
        run env (awaitStarted fuel tok iids) h = (Returned st, h') ->
        (forall iid details,
           startedInstances st !! iid = Some details ->
           exists resp, (pollOf tok iid, Reply resp) ∈ exchanges env h'
                        /\ details = bodyOf resp)
        /\ (forall iid resp,
              (pollOf tok iid, Reply resp) ∈ exchanges env h' ->
              non2xx (status_code resp) = false ->
              py_getitem (bodyOf resp) "state" = Ok (JStr "started") ->
              (pollOf tok iid, Reply resp) ∈ exchanges env h
              \/ iid ∈ dom (startedInstances st))
        /\ (forall iid,
              (forall resp, (pollOf tok iid, Reply resp) ∈ exchanges env h' ->
                            py_getitem (bodyOf resp) "state" <> Ok (JStr "started")) ->
              startedInstances st !! iid = None))
  /\ (forall env fuel tok iids h,
        ClockAdvances env ->
        (122 <= fuel)%nat ->
        fst (run env (awaitStarted fuel tok iids) h) <> NoResult).
Proof.
  split; [|split; [|intros; now apply awaitStarted_ends]].
  - intros env fuel tok iids h st H.
    destruct (awaitStarted_inv env fuel tok iids h st H) as (Hdom & Hs & Hf & Hv).
    split; [exact Hdom|]. split; [rewrite Hdom; exact Hs|]. split; [exact Hv|].
    rewrite Hdom. split.
    + intros Heq iid Hin. rewrite Heq. set_solver.
    + intros Hall. apply set_eq. intros iid. split.
      * intros Hin. apply Hs. exact Hin.
      * intros Hin. apply Hall. set_solver.
  - intros env fuel tok iids h st h' Hrun.
    destruct (awaitStarted_seen env fuel tok iids h st h' Hrun) as [Hstored Hseen].
    assert (Hret : returned (run env (awaitStarted fuel tok iids) h) = Some st).
    { unfold returned. rewrite Hrun. reflexivity. }
    destruct (awaitStarted_inv env fuel tok iids h st Hret) as (Hdom & _ & _ & Hv).
    split; [exact Hstored|]. split.
    + intros iid resp Hin Hok Hstarted. rewrite Hdom. exact (Hseen iid resp Hin Hok Hstarted).
    + intros iid Hnone.
      destruct (startedInstances st !! iid) as [details|] eqn:Hd; [|reflexivity].
      destruct (Hstored iid details Hd) as (resp & Hin & ->).
      exfalso. exact (Hnone resp Hin (Hv iid _ Hd)).
Qed.

Lemma serverEnv_clock_advances t0 server : ClockAdvances (serverEnv t0 server).
Proof.
  split.
  - intros h ev. simpl. destruct ev; simpl; lia.
  - intros h secs. simpl. lia.
Qed.

Lemma awaitStarted_keys_are_started_ids_witness :
  dom (startedInstances
         {| startedSet := {["i-1"]}; failedSet := {["i-2"]};
            startedInstances :=
              {["i-1" := JDict [("state", JStr "started"); ("job", JStr "j-1")]]} |})
  = {["i-1"]}
  /\ ((pollOf (lib := plainLib) "tok" "i-1",
       Reply (plainResponse 200
                (Some (JDict [("state", JStr "started"); ("job", JStr "j-1")]))))
        ∈ exchanges startedEnv []
      \/ "i-1" ∈ dom (startedInstances oneSeenStarted))
  /\ fst (run mixedEnv (awaitStarted (lib := plainLib) 122 "tok" ["i-1"; "i-2"]) [])
     <> NoResult.
Proof.
  split; [|split].
  - apply (proj1 (awaitStarted_keys_are_started_ids (lib := plainLib))
             mixedEnv 200%nat "tok" ["i-1"; "i-2"] []).
    vm_compute. reflexivity.
  - apply (proj1 (proj2 (proj1 (proj2 (awaitStarted_keys_are_started_ids (lib := plainLib)))
                           startedEnv 1%nat "tok" ["i-1"] [] oneSeenStarted
                           [EvHttp (pollOf (lib := plainLib) "tok" "i-1"); EvTime]
                           ltac:(vm_compute; reflexivity)))).
    + apply list_elem_of_here.
    + reflexivity.
    + reflexivity.
  - apply (proj2 (proj2 (awaitStarted_keys_are_started_ids (lib := plainLib)))
             mixedEnv 122%nat "tok" ["i-1"; "i-2"] []).
    + apply serverEnv_clock_advances.
    + lia.
Defined.

(** C1, as stated, fails: an instance that stays [failed] until the
    deadline is not a key of the mapping. *)
Lemma awaitStarted_failed_id_is_no_key :
  returned (run failedEnv (awaitStarted (lib := plainLib) 200 "tok" ["i-1"]) []) =
    Some {| startedSet := ∅; failedSet := {["i-1"]}; startedInstances := ∅ |}
  /\ dom (∅ : gmap string JSON) <> list_to_set ["i-1"].
Proof.
  split; [vm_compute; reflexivity|].
  rewrite dom_empty_L. intros Heq.
  assert (Hin : "i-1" ∈ (∅ : gset string)) by (rewrite Heq; set_solver).
  set_solver.
Qed.

(** C2 (amended).  After each poll cycle the loop ends exactly when
    every state the cycle counted is [started] (none counted included),
    or the clock read after the cycle is past the deadline, or the
    sleep before the next cycle is interrupted; otherwise it sleeps 5
    seconds and polls again.  [failed] and [terminated] count as still
    starting: when every id keeps reporting a state other than
    [started], the loop returns only after reading a clock value past
    the deadline.  With a clock that never goes back and moves on by
    the time slept, the loop ends within 122 cycles. *)
Theorem pollLoop_exit_condition `{lib : PyLib} :
  (forall env fuel tok iids deadline st h,
     run env (pollLoop (S fuel) tok iids deadline st) h =
     match run env (pollCycle tok iids (newCycle st)) h with
     | (Returned (Stop st'), h1) => (Returned st', h1)
     | (Returned (Next c), h1) =>
         if forallb isStarted (launcherStates c) then (Returned (state c), h1)
         else if answer env _ h1 CTime >? deadline
              then (Returned (state c), EvTime :: h1)
         else
           match answer env _ (EvTime :: h1) (CSleep 5) with
           | None =>
               run env (pollLoop fuel tok iids deadline (state c))
                 (EvSleep 5 :: EvTime :: h1)
           | Some exc =>
               if isKeyboardInterrupt exc
               then (Returned (state c), EvSleep 5 :: EvTime :: h1)
               else (Raised exc, EvSleep 5 :: EvTime :: h1)
           end
     | (Raised exc, h1) => (Raised exc, h1)
     | (NoResult, h1) => (NoResult, h1)
     end)
  /\ (forall env tok iids s deadline fuel h st' h',
        AlwaysInState env tok iids s ->
        s <> "started" ->
        iids <> [] ->
        run env (pollLoop fuel tok iids deadline emptyPollState) h = (Returned st', h') ->
        exists h1, h' = EvTime :: h1 /\ answer env _ h1 CTime > deadline)
  /\ (forall env fuel tok iids h,
        ClockAdvances env ->
        (122 <= fuel)%nat ->
        fst (run env (awaitStarted fuel tok iids) h) <> NoResult).
Proof.
  split; [|split].
  - intros. apply pollLoop_turn.
  - intros env tok iids s deadline fuel h st' h' Hsrv Hs Hne Hrun.
    exact (pollLoop_in_state env tok iids s deadline Hsrv Hs Hne fuel
             emptyPollState h st' h' eq_refl Hrun).
  - intros. now apply awaitStarted_ends.
Qed.

Lemma failedEnv_always_failed iids :
  AlwaysInState (lib := plainLib) failedEnv "tok" iids "failed".
Proof.
  split.
  - intros h iid _.
    exists (plainResponse 200 (Some (JDict [("state", JStr "failed"); ("job", JStr "j-1")]))),
           [("state", JStr "failed"); ("job", JStr "j-1")].
    repeat split; reflexivity.
  - intros h secs. reflexivity.
Qed.

Lemma pollLoop_exit_condition_witness :
  exists h1,
    [EvTime; EvHttp (pollRequest "i-1")] = EvTime :: h1
    /\ answer failedEnv _ h1 CTime > -1.
Proof.
  apply (proj1 (proj2 (pollLoop_exit_condition (lib := plainLib)))
           failedEnv "tok" ["i-1"] "failed" (-1) 1%nat []
           {| startedSet := ∅; failedSet := {["i-1"]}; startedInstances := ∅ |}).
  - apply failedEnv_always_failed.
  - discriminate.
  - discriminate.
  - vm_compute. reflexivity.
Defined.

(** C2, as stated, fails: with the only id in state [failed] the loop
    does not end after the first cycle but sleeps and polls again; it
    ends after 122 polls, when the clock has passed the deadline. *)
Lemma pollLoop_all_failed_keeps_polling :
  run failedEnv (pollLoop (lib := plainLib) 1 "tok" ["i-1"] 600 emptyPollState) [] =
    (NoResult, [EvSleep 5; EvTime; EvHttp (pollRequest "i-1")])
  /\ returned (run failedEnv (awaitStarted (lib := plainLib) 121 "tok" ["i-1"]) []) = None
  /\ returned (run failedEnv (awaitStarted (lib := plainLib) 122 "tok" ["i-1"]) []) =
       Some {| startedSet := ∅; failedSet := {["i-1"]}; startedInstances := ∅ |}
  /\ countHttp GET (snd (run failedEnv (awaitStarted (lib := plainLib) 122 "tok" ["i-1"]) []))
     = 122%nat
  /\ countSleep (snd (run failedEnv (awaitStarted (lib := plainLib) 122 "tok" ["i-1"]) []))
     = 121%nat
  /\ slept (snd (run failedEnv (awaitStarted (lib := plainLib) 122 "tok" ["i-1"]) []))
     = 605.
Proof.
  repeat split; vm_compute; reflexivity.
Qed.

(** *** launchNcscInstances *)

Lemma launchNcscInstances_unfold `{lib : PyLib} tok numReq regions abis key jsonFilter :
  launchNcscInstances tok numReq regions abis key jsonFilter =
  getAppVersions tok ≫= (fun appVersions =>
    match appVersions with
    | [] => Ret (JDict [])
    | _ =>
        match max_raises appVersions with
        | Some e => Raise e
        | None =>
            uuid4 ≫= (fun reqId =>
              applyFilter (launchData reqId numReq regions abis key) jsonFilter
              ≫= (fun reqData' =>
                http (postRequest tok (json_dumps (JDict reqData'))) ≫= (fun resp =>
                  if non2xx (status_code resp) then
                    launchRecovery tok reqId (status_code resp)
                  else
                    match json resp with
                    | Some v => Ret v
                    | None => Raise (JSONDecodeError (text resp))
                    end)))
        end
    end).
Proof. reflexivity. Qed.

Lemma launchRecovery_run `{lib : PyLib} env tok reqId postStatus h :
  answer env _ h (CSleep 30) = None ->
  run env (launchRecovery tok reqId postStatus) h =
  match run env (queryNcsSc "instances" tok
                   (inl (json_dumps (JDict [("job", JStr reqId)]))) 20)
          (EvSleep 30 :: h) with
  | (Returned resp2, h') =>
      if non2xx (statusCode resp2)
      then (Returned (serverError (statusCode resp2) reqId), h')
      else
        match content resp2 with
        | JDict kvs =>
            match dict_get kvs "my" with
            | Some my => (Returned my, h')
            | None => (Raised (KeyError "my"), h')
            end
        | _ => (Raised (AttributeError "object has no attribute 'keys'"), h')
        end
  | (Raised exc, h') =>
      if isException exc
      then (Returned (serverError postStatus reqId), h')
      else (Raised exc, h')
  | (NoResult, h') => (NoResult, h')
  end.
Proof.
  intros Hsleep. unfold launchRecovery.
  rewrite run_time_sleep, Hsleep.
  rewrite run_bind, run_try_except, run_bind.
  destruct (run env (queryNcsSc "instances" tok _ 20) (EvSleep 30 :: h))
    as [[resp2|exc|] h'].
  - simpl. destruct (non2xx (statusCode resp2)); [reflexivity|].
    destruct (content resp2); try reflexivity.
    simpl. destruct (dict_get kvs "my"); reflexivity.
  - destruct (isException exc); reflexivity.
  - reflexivity.
Qed.

Lemma queryNcsSc_str_requests `{lib : PyLib} env :
  forall n urlTail tok d h,
    (countHttp GET (snd (run env (queryNcsSc_str n urlTail tok d) h))
     <= countHttp GET h + S n)%nat.
Proof.
  induction n as [|n IH]; intros urlTail tok d h;
    rewrite queryNcsSc_str_unfold; cbv zeta;
    destruct (answer env NetReply h _) as [resp|exc].
  - destruct (non2xx (status_code resp)); unfold countHttp; simpl; lia.
  - unfold countHttp; simpl; lia.
  - destruct (non2xx (status_code resp)); [|unfold countHttp; simpl; lia].
    destruct (answer env (option Exn) _ (CSleep 10)); [unfold countHttp; simpl; lia|].
    specialize (IH urlTail tok d
                  (EvSleep 10 :: EvHttp (getRequest urlTail tok d) :: h)).
    unfold countHttp in *. simpl in *. lia.
  - unfold countHttp; simpl; lia.
Qed.

(** C6 (amended).  When the launch POST is answered outside 2xx,
    [launchNcscInstances] sleeps 30 seconds and asks for the instances
    of this run's job id with [maxRetries = 20] (at most 21 requests).
    If that query raises, the status of the POST is returned; if it
    ends outside 2xx, the status of the query, not that of the POST, is
    returned; otherwise the ['my'] entry of its answer is returned as it
    is, an empty list included. *)
Theorem launchNcscInstances_recovery `{lib : PyLib}
  env tok numReq regions abis key jsonFilter h h1 v vs reqData' resp :
  let reqId := answer env _ h1 CUuid4 in
  let post := postRequest tok (json_dumps (JDict reqData')) in
  let recovery :=
    queryNcsSc "instances" tok (inl (json_dumps (JDict [("job", JStr reqId)]))) 20 in
  let h4 := EvSleep 30 :: EvHttp post :: EvUuid4 :: h1 in
  run env (getAppVersions tok) h = (Returned (v :: vs), h1) ->
  max_raises (v :: vs) = None ->
  applyFilter (launchData reqId numReq regions abis key) jsonFilter = Ret reqData' ->
  answer env _ (EvUuid4 :: h1) (CHttp post) = Reply resp ->
  non2xx (status_code resp) = true ->
  answer env _ (EvHttp post :: EvUuid4 :: h1) (CSleep 30) = None ->
  run env (launchNcscInstances tok numReq regions abis key jsonFilter) h =
    match run env recovery h4 with
    | (Returned resp2, h5) =>
        if non2xx (statusCode resp2)
        then (Returned (serverError (statusCode resp2) reqId), h5)
        else
          match content resp2 with
          | JDict kvs =>
              match dict_get kvs "my" with
              | Some my => (Returned my, h5)
              | None => (Raised (KeyError "my"), h5)
              end
          | _ => (Raised (AttributeError "object has no attribute 'keys'"), h5)
          end
    | (Raised exc, h5) =>
        if isException exc
        then (Returned (serverError (status_code resp) reqId), h5)
        else (Raised exc, h5)
    | (NoResult, h5) => (NoResult, h5)
    end
  /\ (countHttp GET (snd (run env recovery h4)) <= countHttp GET h4 + 21)%nat.
Proof.
  intros reqId post recovery h4 Hversions Hmax Hfilter Hpost Hbad Hsleep.
  split.
  - rewrite launchNcscInstances_unfold, run_bind, Hversions, Hmax.
    rewrite run_uuid4. fold reqId. rewrite Hfilter.
    change (run env (Ret reqData' ≫= ?f) ?hh) with (run env (f reqData') hh).
    cbv beta. fold post. rewrite run_http, Hpost, Hbad.
    exact (launchRecovery_run env tok reqId (status_code resp)
             (EvHttp post :: EvUuid4 :: h1) Hsleep).
  - apply (queryNcsSc_str_requests env 20).
Qed.

Lemma launchNcscInstances_recovery_witness :
  run recoveryFailsEnv
    (launchNcscInstances (lib := plainLib) "tok" 1 JNull (JList []) JNull None) [] =
  match run recoveryFailsEnv
          (queryNcsSc (lib := plainLib) "instances" "tok"
             (inl (plain_dumps (JDict [("job", JStr "job-1")]))) 20)
          [EvSleep 30;
           EvHttp (postRequest "tok"
                     (plain_dumps (JDict (launchData "job-1" 1 JNull (JList []) JNull))));
           EvUuid4; EvHttp versionsRequest] with
  | (Returned resp2, h5) =>
      if non2xx (statusCode resp2)
      then (Returned (serverError (statusCode resp2) "job-1"), h5)
      else
        match content resp2 with
        | JDict kvs =>
            match dict_get kvs "my" with
            | Some my => (Returned my, h5)
            | None => (Raised (KeyError "my"), h5)
            end
        | _ => (Raised (AttributeError "object has no attribute 'keys'"), h5)
        end
  | (Raised exc, h5) =>
      if isException exc
      then (Returned (serverError 500 "job-1"), h5)
      else (Raised exc, h5)
  | (NoResult, h5) => (NoResult, h5)
  end.
Proof.
  apply (launchNcscInstances_recovery (lib := plainLib)
           recoveryFailsEnv "tok" 1 JNull (JList []) JNull None []
           [EvHttp versionsRequest] (JNum 1623) []
           (launchData "job-1" 1 JNull (JList []) JNull)
           (plainResponse 500 None));
    reflexivity.
Defined.

(** C6, as stated, fails: when the recovery query keeps answering 503
    the function returns 503, not the 500 of the POST; when it answers
    with an empty list the function returns that list. *)
Lemma launchNcscInstances_recovery_status :
  returned (run recoveryFailsEnv
              (launchNcscInstances (lib := plainLib) "tok" 1 JNull (JList []) JNull None) [])
  = Some (serverError 503 "job-1")
  /\ serverError 503 "job-1" <> serverError 500 "job-1"
  /\ returned (run recoveryEmptyEnv
                 (launchNcscInstances (lib := plainLib) "tok" 1 JNull (JList []) JNull None) [])
     = Some (JList []).
Proof.
  split; [vm_compute; reflexivity|]. split; [discriminate|]. vm_compute; reflexivity.
Qed.

(** *** doCmdLaunch when no application version comes back *)

Lemma queryNcsSc_str_no_post `{lib : PyLib} env :
  forall n urlTail tok d h,
    countHttp POST (snd (run env (queryNcsSc_str n urlTail tok d) h)) = countHttp POST h.
Proof.
  induction n as [|n IH]; intros urlTail tok d h;
    rewrite queryNcsSc_str_unfold; cbv zeta;
    destruct (answer env NetReply h _) as [resp|exc]; try reflexivity.
  - destruct (non2xx (status_code resp)); reflexivity.
  - destruct (non2xx (status_code resp)); [|reflexivity].
    destruct (answer env (option Exn) _ (CSleep 10)); [reflexivity|].
    rewrite IH. reflexivity.
Qed.

Lemma getAppVersions_no_post `{lib : PyLib} env tok h :
  countHttp POST (snd (run env (getAppVersions tok) h)) = countHttp POST h.
Proof.
  unfold getAppVersions. rewrite run_bind.
  pose proof (queryNcsSc_str_no_post env 1 "info/mobile-app-versions" tok
                (jsonize (inr JNull)) h) as Hq.
  unfold queryNcsSc. change (Z.to_nat 1) with 1%nat.
  destruct (run env (queryNcsSc_str 1 "info/mobile-app-versions" tok
                       (jsonize (inr JNull))) h) as [[r|exc|] h1];
    simpl in Hq; simpl; try exact Hq.
  rewrite run_bind, run_lift.
  destruct (py_iter (content r)) as [xs|exc]; simpl; [|exact Hq].
  rewrite run_lift.
  destruct (mapR (fun x => py_getitem x "value") xs); simpl; exact Hq.
Qed.

Lemma pollLoop_no_ids `{lib : PyLib} env fuel tok deadline st h :
  run env (pollLoop (S fuel) tok [] deadline st) h = (Returned st, h).
Proof. reflexivity. Qed.

(** C5 (the code at the failing input).  When the version query comes
    back empty, [launchNcscInstances] returns the empty dict without
    any POST, and [doCmdLaunch], finding no ['serverError'] in it,
    goes on with no instance and returns 0. *)
Theorem doCmdLaunch_no_versions_returns_0 `{lib : PyLib} env fuel args h h1 :
  run env (getAppVersions (arg_authToken args)) h = (Returned [], h1) ->
  (forall numReq regions abis key jsonFilter,
     run env (launchNcscInstances (arg_authToken args) numReq regions abis key jsonFilter) h
     = (Returned (JDict []), h1))
  /\ countHttp POST h1 = countHttp POST h
  /\ run env (doCmdLaunch (S fuel) args) h =
     (Returned (JNum 0),
      ((if arg_json args
        then [EvPrint ("]" +:+ newline); EvPrint ("[" +:+ newline)]
        else []) ++ EvTime :: h1)%list).
Proof.
  intros Hversions.
  assert (Hlaunch : forall numReq regions abis key jsonFilter,
    run env (launchNcscInstances (arg_authToken args) numReq regions abis key jsonFilter) h
    = (Returned (JDict []), h1)).
  { intros. rewrite launchNcscInstances_unfold, run_bind, Hversions. reflexivity. }
  split; [exact Hlaunch|]. split.
  - pose proof (getAppVersions_no_post env (arg_authToken args) h) as Hp.
    rewrite Hversions in Hp. exact Hp.
  - unfold doCmdLaunch. rewrite run_bind.
    unfold launchOrCode. rewrite run_try_except, run_bind, Hlaunch.
    simpl.
    destruct (arg_json args); reflexivity.
Qed.

Lemma doCmdLaunch_no_versions_returns_0_witness :
  run downEnv (doCmdLaunch (lib := plainLib) 1 (launchArgs true)) [] =
  (Returned (JNum 0),
   [EvPrint ("]" +:+ newline); EvPrint ("[" +:+ newline); EvTime;
    EvHttp versionsRequest; EvSleep 10; EvHttp versionsRequest]).
Proof.
  apply (proj2 (proj2 (doCmdLaunch_no_versions_returns_0 (lib := plainLib)
                         downEnv 0 (launchArgs true) []
                         [EvHttp versionsRequest; EvSleep 10; EvHttp versionsRequest]
                         eq_refl))).
Defined.

(** *** terminateInstances *)

Lemma runPool_unfold nWorkers sched p :
  runPool nWorkers sched p =
  match poolResult p with
  | Some r => lift r
  | None =>
      match sched with
      | [] => Stuck
      | Main :: rest => runPool nWorkers rest (collect p)
      | Worker i :: rest =>
          match futures p !! i with
          | Some (Pending w) =>
              if canStart nWorkers p i
              then runPool nWorkers rest (setFuture p i (Running w))
              else runPool nWorkers rest p
          | Some (Running (Ret _)) =>
              runPool nWorkers rest (setFuture p i (Finished (Ok tt)))
          | Some (Running (Raise e)) =>
              runPool nWorkers rest (setFuture p i (Finished (Err e)))
          | Some (Running (Vis c k)) =>
              Vis c (fun x => runPool nWorkers rest (setFuture p i (Running (k x))))
          | Some (Running Stuck) => Stuck
          | _ => runPool nWorkers rest p
          end
      end
  end.
Proof. destruct sched; reflexivity. Qed.

(** A property kept by every move of the main thread and of the workers
    holds of the pool at the moment the [with] block is left. *)
Lemma runPool_final env nWorkers (I : Pool -> History -> Prop) :
  (forall p h, I p h -> I (collect p) h) ->
  (forall p h i w, I p h -> futures p !! i = Some (Pending w) ->
     I (setFuture p i (Running w)) h) ->
  (forall p h i a, I p h -> futures p !! i = Some (Running (Ret a)) ->
     I (setFuture p i (Finished (Ok tt))) h) ->
  (forall p h i e, I p h -> futures p !! i = Some (Running (Raise e)) ->
     I (setFuture p i (Finished (Err e))) h) ->
  (forall p h i w, I p h -> futures p !! i = Some (Running w) -> isVis w = true ->
     I (setFuture p i (Running (fst (advance env h w)))) (snd (advance env h w))) ->
  forall sched p h out h',
    I p h ->
    run env (runPool nWorkers sched p) h = (out, h') ->
    out <> NoResult ->
    exists p' r, I p' h' /\ poolResult p' = Some r /\ out = outcomeOf r.
Proof.
  intros Hmain Hstart Hret Hraise Hcall.
  assert (Hdone : forall p h out h' r, I p h -> poolResult p = Some r ->
            run env (lift r) h = (out, h') ->
            exists p' r, I p' h' /\ poolResult p' = Some r /\ out = outcomeOf r).
  { intros p h out h' r Hinv Hres Hrun. rewrite run_lift in Hrun.
    exists p, r. destruct r as [[]|e]; inversion Hrun; subst; auto. }
  induction sched as [|a rest IH]; intros p h out h' Hinv Hrun Hout;
    rewrite runPool_unfold in Hrun;
    destruct (poolResult p) as [r|] eqn:Hres; eauto.
  - simpl in Hrun. inversion Hrun; subst. congruence.
  - destruct a as [i|].
    2:{ exact (IH (collect p) h out h' (Hmain p h Hinv) Hrun Hout). }
    destruct (futures p !! i) as [[w|w|r'|]|] eqn:Hf.
    + destruct (canStart nWorkers p i).
      * exact (IH _ h out h' (Hstart p h i w Hinv Hf) Hrun Hout).
      * exact (IH p h out h' Hinv Hrun Hout).
    + destruct w as [a|e|X c k|].
      * exact (IH _ h out h' (Hret p h i a Hinv Hf) Hrun Hout).
      * exact (IH _ h out h' (Hraise p h i e Hinv Hf) Hrun Hout).
      * simpl in Hrun.
        exact (IH _ _ out h' (Hcall p h i (Vis c k) Hinv Hf eq_refl) Hrun Hout).
      * simpl in Hrun. inversion Hrun; subst. congruence.
    + exact (IH p h out h' Hinv Hrun Hout).
    + exact (IH p h out h' Hinv Hrun Hout).
    + exact (IH p h out h' Hinv Hrun Hout).
Qed.






Lemma terminateOne_opens fuel tok s :
  (forall a, terminateOne fuel tok (JStr s) <> Ret a)
  /\ (forall e, terminateOne fuel tok (JStr s) <> Raise e)
  /\ (forall env h, isVis (terminateOne fuel tok (JStr s)) = true ->
        snd (advance env h (terminateOne fuel tok (JStr s))) =
        EvHttp (deleteRequest tok s) :: h).
Proof.
  destruct fuel as [|fuel]; repeat split; intros; try discriminate; reflexivity.
Qed.







Lemma sentRequests_insert_same tok :
  forall iids fs i f f',
    fs !! i = Some f ->
    sentOf f' = sentOf f ->
    sentRequests tok iids (<[i := f']> fs) = sentRequests tok iids fs.
Proof.
  induction iids as [|iid iids IH]; intros fs i f f' Hf Hs.
  - destruct fs; [reflexivity|]. destruct i; reflexivity.
  - destruct fs as [|f0 fs]; [discriminate|].
    destruct i as [|i]; simpl in *.
    + inversion Hf; subst. rewrite Hs. reflexivity.
    + f_equal. exact (IH fs i f f' Hf Hs).
Qed.

Lemma sentRequests_insert_flip tok :
  forall iids fs i iid f f',
    iids !! i = Some iid ->
    fs !! i = Some f ->
    sentOf f = false ->
    sentOf f' = true ->
    Permutation (sentRequests tok iids (<[i := f']> fs))
      (deleteRequest tok iid :: sentRequests tok iids fs).
Proof.
  induction iids as [|iid0 iids IH]; intros fs i iid f f' Hi Hf Hs Hs'.
  - discriminate.
  - destruct fs as [|f0 fs]; [discriminate|].
    destruct i as [|i]; simpl in *.
    + inversion Hi; inversion Hf; subst. rewrite Hs, Hs'. reflexivity.
    + rewrite (IH fs i iid f f' Hi Hf Hs Hs').
      destruct (sentOf f0); simpl; [apply perm_swap | reflexivity].
Qed.

Lemma sentRequests_all_finished tok :
  forall iids fs,
    length fs = length iids ->
    (forall i, (i < length fs)%nat -> fs !! i = Some (Finished (Ok tt))) ->
    sentRequests tok iids fs = map (deleteRequest tok) iids.
Proof.
  induction iids as [|iid iids IH]; intros fs Hlen Hall.
  - destruct fs; reflexivity.
  - destruct fs as [|f fs]; [discriminate|]. simpl in *.
    pose proof (Hall 0%nat ltac:(lia)) as H0. simpl in H0. inversion H0; subst.
    simpl. f_equal. apply IH; [lia|].
    intros i Hi. exact (Hall (S i) ltac:(lia)).
Qed.

Lemma advance_terminateOne env fuel tok s h resp :
  isVis (terminateOne fuel tok (JStr s)) = true ->
  answer env _ h (CHttp (deleteRequest tok s)) = Reply resp ->
  status_code resp <> 502 ->
  advance env h (terminateOne fuel tok (JStr s)) =
  (Ret tt, EvHttp (deleteRequest tok s) :: h).
Proof.
  intros Hvis Hans Hne. destruct fuel as [|fuel]; [discriminate|].
  simpl. unfold deleteRequest in Hans. rewrite Hans. simpl.
  destruct (status_code resp =? 502) eqn:E; [lia|].
  destruct (non2xx (status_code resp)); reflexivity.
Qed.

Lemma okState_cases fuel tok iid f :
  okState (terminateOne fuel tok (JStr iid)) f ->
  (forall e, f <> Finished (Err e)) /\ f <> Cancelled
  /\ (forall e, f <> Running (Raise e))
  /\ (forall w, f = Running w -> isVis w = true ->
        w = terminateOne fuel tok (JStr iid))
  /\ (forall w, f = Pending w -> w = terminateOne fuel tok (JStr iid))
  /\ (f = Pending (terminateOne fuel tok (JStr iid)) \/
      f = Running (terminateOne fuel tok (JStr iid)) -> sentOf f = false).
Proof.
  destruct (terminateOne_opens fuel tok iid) as (Hnoret & Hnoraise & _).
  assert (Hunsent : sentOf (Running (terminateOne fuel tok (JStr iid))) = false)
    by (destruct fuel; reflexivity).
  intros [Hf | [Hf | [Hf | Hf]]]; subst f;
    (split; [intros e; discriminate|]);
    (split; [discriminate|]).
  - split; [intros e; discriminate|].
    split; [intros w; discriminate|].
    split; [intros w [= <-]; reflexivity|].
    intros _. reflexivity.
  - split; [intros e [= He]; exact (Hnoraise e He)|].
    split; [intros w [= <-] _; reflexivity|].
    split; [intros w; discriminate|].
    intros _. exact Hunsent.
  - split; [intros e; discriminate|].
    split; [intros w [= <-]; discriminate|].
    split; [intros w; discriminate|].
    intros [H|[= H]]; [discriminate|].
    exfalso. exact (Hnoret tt (eq_sym H)).
  - split; [intros e; discriminate|].
    split; [intros w; discriminate|].
    split; [intros w; discriminate|].
    intros [H|H]; discriminate.
Qed.

Lemma allOnce_state fuel tok iids h0 p h i f :
  allOnce fuel tok iids h0 p h ->
  futures p !! i = Some f ->
  exists iid, iids !! i = Some iid /\ okState (terminateOne fuel tok (JStr iid)) f.
Proof.
  intros (_ & Hlen & Hok & _ & _) Hf.
  destruct (lookup_lt_is_Some_2 iids i) as [iid Hiid].
  { rewrite <- Hlen. exact (lookup_lt_Some _ _ _ Hf). }
  exists iid. split; [exact Hiid|]. exact (Hok i iid f Hiid Hf).
Qed.

Lemma allOnce_set fuel tok iids h0 p h i iid f f' h' :
  allOnce fuel tok iids h0 p h ->
  iids !! i = Some iid ->
  futures p !! i = Some f ->
  okState (terminateOne fuel tok (JStr iid)) f' ->
  (f = Finished (Ok tt) -> f' = Finished (Ok tt)) ->
  Permutation (deletes h') (sentRequests tok iids (<[i := f']> (futures p)) ++ deletes h0) ->
  allOnce fuel tok iids h0 (setFuture p i f') h'.
Proof.
  intros (Hre & Hlen & Hok & Hyield & Hperm) Hiid Hf Hok' Hkeep Hperm'.
  unfold allOnce, setFuture; simpl.
  split; [exact Hre|]. split; [rewrite length_insert; exact Hlen|].
  split; [|split; [|exact Hperm']].
  - intros j iid' g Hj Hg.
    destruct (decide (i = j)) as [->|Hne].
    + rewrite list_lookup_insert_eq in Hg by exact (lookup_lt_Some _ _ _ Hf).
      inversion Hg; subst. rewrite Hiid in Hj. inversion Hj; subst. exact Hok'.
    + rewrite list_lookup_insert_ne in Hg by exact Hne. exact (Hok j iid' g Hj Hg).
  - intros j Hj. specialize (Hyield j Hj).
    destruct (decide (i = j)) as [->|Hne].
    + rewrite list_lookup_insert_eq by exact (lookup_lt_Some _ _ _ Hf).
      rewrite Hf in Hyield. inversion Hyield; subst. f_equal. now apply Hkeep.
    + rewrite list_lookup_insert_ne by exact Hne. exact Hyield.
Qed.

Lemma allOnce_collect fuel tok iids h0 p h :
  allOnce fuel tok iids h0 p h -> allOnce fuel tok iids h0 (collect p) h.
Proof.
  intros Hinv. pose proof Hinv as (Hre & Hlen & Hok & Hyield & Hperm).
  unfold collect. rewrite Hre.
  destruct (futures p !! yielded p) as [f|] eqn:Hy; [|exact Hinv].
  destruct (allOnce_state fuel tok iids h0 p h _ f Hinv Hy) as (iid & Hiid & Hstate).
  destruct (okState_cases fuel tok iid f Hstate) as (Hnoerr & _).
  destruct f as [w|w|[[]|e]|]; try exact Hinv.
  - unfold allOnce; simpl.
    split; [reflexivity|]. split; [exact Hlen|]. split; [exact Hok|].
    split; [|exact Hperm].
    intros j Hj. destruct (decide (j = yielded p)) as [->|Hne]; [exact Hy|].
    apply Hyield. lia.
  - exfalso. exact (Hnoerr e eq_refl).
Qed.

Lemma allOnce_final env fuel tok iids h0 :
  AnswersDeletes env ->
  forall sched p h out h',
    allOnce fuel tok iids h0 p h ->
    run env (runPool 2 sched p) h = (out, h') ->
    out <> NoResult ->
    out = Returned tt
    /\ Permutation (deletes h') (map (deleteRequest tok) iids ++ deletes h0).
Proof.
  intros Hsrv sched p h out h' Hinv Hrun Hout.
  destruct (runPool_final env 2 (allOnce fuel tok iids h0)) with
    (sched := sched) (p := p) (h := h) (out := out) (h' := h')
    as (p' & r & (Hre & Hlen & Hok & Hyield & Hperm) & Hres & Hr); auto.
  - apply allOnce_collect.
  - (* an item is started *)
    intros q hq i w Hq Hf.
    destruct (allOnce_state fuel tok iids h0 q hq i _ Hq Hf) as (iid & Hiid & Hstate).
    destruct (okState_cases fuel tok iid _ Hstate) as (_ & _ & _ & _ & Hpend & Hunsent).
    rewrite (Hpend w eq_refl) in *.
    apply (allOnce_set fuel tok iids h0 q hq i iid _ _ hq Hq Hiid Hf).
    + right. left. reflexivity.
    + discriminate.
    + rewrite (sentRequests_insert_same tok iids (futures q) i _ _ Hf).
      * destruct Hq as (_ & _ & _ & _ & Hp). exact Hp.
      * rewrite (Hunsent (or_introl eq_refl)).
        destruct fuel; reflexivity.
  - (* an item returns *)
    intros q hq i a Hq Hf.
    destruct (allOnce_state fuel tok iids h0 q hq i _ Hq Hf) as (iid & Hiid & Hstate).
    apply (allOnce_set fuel tok iids h0 q hq i iid _ _ hq Hq Hiid Hf).
    + right. right. right. reflexivity.
    + discriminate.
    + rewrite (sentRequests_insert_same tok iids (futures q) i _ _ Hf); [|reflexivity].
      destruct Hq as (_ & _ & _ & _ & Hp). exact Hp.
  - (* no item raises *)
    intros q hq i e Hq Hf.
    destruct (allOnce_state fuel tok iids h0 q hq i _ Hq Hf) as (iid & Hiid & Hstate).
    destruct (okState_cases fuel tok iid _ Hstate) as (_ & _ & Hnoraise & _).
    exfalso. exact (Hnoraise e eq_refl).
  - (* an item sends its request *)
    intros q hq i w Hq Hf Hvis.
    destruct (allOnce_state fuel tok iids h0 q hq i _ Hq Hf) as (iid & Hiid & Hstate).
    destruct (okState_cases fuel tok iid _ Hstate) as (_ & _ & _ & Hrun' & _ & Hunsent).
    pose proof (Hrun' w eq_refl Hvis) as Hw. subst w.
    destruct (Hsrv hq (deleteRequest tok iid) eq_refl) as (resp & Hans & Hne).
    rewrite (advance_terminateOne env fuel tok iid hq resp Hvis Hans Hne). simpl.
    apply (allOnce_set fuel tok iids h0 q hq i iid _ _ _ Hq Hiid Hf).
    + right. right. left. reflexivity.
    + discriminate.
    + rewrite (sentRequests_insert_flip tok iids (futures q) i iid _ (Running (Ret tt)) Hiid Hf
                 (Hunsent (or_intror eq_refl)) eq_refl).
      simpl. apply perm_skip.
      destruct Hq as (_ & _ & _ & _ & Hp). exact Hp.
  - (* at the end every result has been taken *)
    unfold poolResult in Hres. rewrite Hre in Hres.
    destruct (yielded p' =? length (futures p'))%nat eqn:E; [|discriminate].
    apply Nat.eqb_eq in E. inversion Hres; subst r.
    split; [exact Hr|].
    rewrite <- (sentRequests_all_finished tok iids (futures p') Hlen).
    + exact Hperm.
    + intros j Hj. apply Hyield. lia.
Qed.

Lemma sentRequests_pending tok :
  forall iids ws, sentRequests tok iids (map Pending ws) = [].
Proof.
  induction iids as [|iid iids IH]; intros [|w ws]; simpl; auto.
Qed.

Lemma allOnce_submitted fuel tok iids h :
  allOnce fuel tok iids h
    (submitAll (map (terminateOne fuel tok) (map JStr iids))) h.
Proof.
  unfold allOnce, submitAll; simpl.
  split; [reflexivity|]. split; [now rewrite !length_map|].
  split; [|split].
  - intros i iid f Hi Hf.
    rewrite !list_lookup_fmap, Hi in Hf. simpl in Hf. inversion Hf; subst.
    left. reflexivity.
  - intros i Hi. lia.
  - rewrite sentRequests_pending. reflexivity.
Qed.

Lemma lookup_middle (done : list Future) f more :
  (done ++ f :: more) !! length done = Some f.
Proof. induction done as [|d done IH]; simpl; auto. Qed.

Lemma insert_middle (done : list Future) f g more :
  <[length done := g]> (done ++ f :: more) = done ++ g :: more.
Proof. induction done as [|d done IH]; simpl; [reflexivity|]. now rewrite IH. Qed.

Lemma canStart_after (done : list Future) w more :
  Forall (fun f => f = Finished (Ok tt)) done ->
  canStart 2 {| futures := done ++ Pending w :: map Pending more;
                yielded := length done; reraised := None |} (length done) = true.
Proof.
  intros Hdone. unfold canStart; simpl.
  assert (Htake : take (length done) (done ++ Pending w :: map Pending more) = done).
  { clear Hdone. induction done as [|d done IH]; simpl; [reflexivity|]. now rewrite IH. }
  assert (Hnone : forallb (fun f => negb (isPending f)) done = true).
  { clear Htake. induction Hdone as [|d done Hd _ IH]; simpl; [reflexivity|].
    subst d. exact IH. }
  assert (Hrun : List.filter isRunning (done ++ Pending w :: map Pending more) = []).
  { clear Htake Hnone. induction Hdone as [|d done Hd _ IH]; simpl.
    - induction more as [|m more IHm]; simpl; auto.
    - subst d. exact IH. }
  rewrite Htake, Hnone, Hrun. reflexivity.
Qed.

Lemma runPool_call env nWorkers i rest p w h :
  poolResult p = None ->
  futures p !! i = Some (Running w) ->
  isVis w = true ->
  run env (runPool nWorkers (Worker i :: rest) p) h =
  run env (runPool nWorkers rest (setFuture p i (Running (fst (advance env h w)))))
    (snd (advance env h w)).
Proof.
  intros Hres Hf Hvis. rewrite runPool_unfold, Hres, Hf.
  destruct w; try discriminate. reflexivity.
Qed.

Lemma poolResult_unfinished (fs : list Future) y :
  y <> length fs ->
  poolResult {| futures := fs; yielded := y; reraised := None |} = None.
Proof.
  intros Hne. unfold poolResult; simpl.
  destruct (y =? length fs)%nat eqn:E; [|reflexivity].
  apply Nat.eqb_eq in E. congruence.
Qed.

Lemma runPool_start nWorkers i rest p w :
  poolResult p = None ->
  futures p !! i = Some (Pending w) ->
  canStart nWorkers p i = true ->
  runPool nWorkers (Worker i :: rest) p = runPool nWorkers rest (setFuture p i (Running w)).
Proof. intros Hres Hf Hc. now rewrite runPool_unfold, Hres, Hf, Hc. Qed.

Lemma runPool_return nWorkers i rest p a :
  poolResult p = None ->
  futures p !! i = Some (Running (Ret a)) ->
  runPool nWorkers (Worker i :: rest) p =
  runPool nWorkers rest (setFuture p i (Finished (Ok tt))).
Proof. intros Hres Hf. now rewrite runPool_unfold, Hres, Hf. Qed.

Lemma runPool_main nWorkers rest p :
  poolResult p = None ->
  runPool nWorkers (Main :: rest) p = runPool nWorkers rest (collect p).
Proof. intros Hres. now rewrite runPool_unfold, Hres. Qed.

Lemma setFuture_middle (done : list Future) f g more y r :
  setFuture {| futures := done ++ f :: more; yielded := y; reraised := r |}
    (length done) g
  = {| futures := done ++ g :: more; yielded := y; reraised := r |}.
Proof. unfold setFuture; simpl. now rewrite insert_middle. Qed.

Lemma collect_middle (done : list Future) more :
  collect {| futures := done ++ Finished (Ok tt) :: more;
             yielded := length done; reraised := None |}
  = {| futures := done ++ Finished (Ok tt) :: more;
       yielded := S (length done); reraised := None |}.
Proof. unfold collect; simpl. now rewrite lookup_middle. Qed.

(** One item on the sequential schedule: taken, run through its one
    call, finished, and its result taken by the main thread. *)
Lemma seqSchedule_item env (done : list Future) w ws rest h ev :
  Forall (fun f => f = Finished (Ok tt)) done ->
  isVis w = true ->
  advance env h w = (Ret tt, ev :: h) ->
  run env
    (runPool 2
       (Worker (length done) :: Worker (length done) :: Worker (length done)
        :: Main :: rest)
       {| futures := done ++ Pending w :: map Pending ws;
          yielded := length done; reraised := None |}) h
  = run env
      (runPool 2 rest
         {| futures := (done ++ [Finished (Ok tt)]) ++ map Pending ws;
            yielded := length (done ++ [Finished (Ok tt)]); reraised := None |})
      (ev :: h).
Proof.
  intros Hdone Hvis Hadv.
  assert (Hres : forall f,
    poolResult {| futures := done ++ f :: map Pending ws;
                  yielded := length done; reraised := None |} = None).
  { intros f. apply poolResult_unfinished. rewrite length_app. simpl. lia. }
  rewrite (runPool_start 2 (length done) _ _ w (Hres _) (lookup_middle done _ _)
             (canStart_after done w ws Hdone)).
  rewrite setFuture_middle.
  rewrite (runPool_call env 2 (length done) _ _ w h (Hres _) (lookup_middle done _ _) Hvis).
  rewrite Hadv. simpl fst. simpl snd. rewrite setFuture_middle.
  rewrite (runPool_return 2 (length done) _ _ tt (Hres _) (lookup_middle done _ _)).
  rewrite setFuture_middle.
  rewrite (runPool_main 2 _ _ (Hres _)).
  rewrite collect_middle.
  rewrite <- app_assoc, length_app. simpl.
  replace (length done + 1)%nat with (S (length done)) by lia.
  reflexivity.
Qed.

(** On the sequential schedule the batch comes to its end. *)
Lemma seqSchedule_returns env fuel tok :
  AnswersDeletes env ->
  (1 <= fuel)%nat ->
  forall iids done h,
    Forall (fun f => f = Finished (Ok tt)) done ->
    fst (run env
           (runPool 2 (seqSchedule (length done) (length iids))
              (poolAfter done (map (terminateOne fuel tok) (map JStr iids)))) h)
    = Returned tt.
Proof.
  intros Hsrv Hfuel.
  induction iids as [|iid iids IH]; intros done h Hdone.
  - unfold seqSchedule. simpl seq. simpl flat_map.
    rewrite runPool_unfold. unfold poolResult, poolAfter; simpl.
    rewrite app_nil_r, Nat.eqb_refl. reflexivity.
  - assert (Hvis : isVis (terminateOne fuel tok (JStr iid)) = true).
    { destruct fuel; [lia | reflexivity]. }
    destruct (Hsrv h (deleteRequest tok iid) eq_refl) as (resp & Hans & Hne).
    pose proof (advance_terminateOne env fuel tok iid h resp Hvis Hans Hne) as Hadv.
    unfold poolAfter, seqSchedule.
    rewrite !map_cons. simpl length. rewrite <- cons_seq.
    change (flat_map ?f (?x :: ?l)) with (f x ++ flat_map f l).
    cbv beta. simpl app.
    rewrite (seqSchedule_item env done _ _ _ h _ Hdone Hvis Hadv).
    specialize (IH (done ++ [Finished (Ok tt)]) (EvHttp (deleteRequest tok iid) :: h)).
    unfold poolAfter, seqSchedule in IH.
    rewrite length_app in IH. simpl length in IH.
    replace (length done + 1)%nat with (S (length done)) in IH by lia.
    rewrite length_app. simpl length.
    replace (length done + 1)%nat with (S (length done)) by lia.
    apply IH. apply Forall_app. split; [exact Hdone|]. constructor; auto.
Qed.


Lemma okEnv_answers_deletes : AnswersDeletes okEnv.
Proof.
  intros h req _. exists (plainResponse 204 None). split; [reflexivity|].
  simpl. lia.
Qed.



(** ** More properties *)

Lemma retried_add req secs :
  forall k j h, retried req secs k (retried req secs j h) = retried req secs (k + j) h.
Proof.
  induction k as [|k IH]; intros j h; simpl; [reflexivity|]. now rewrite IH.
Qed.

Lemma queryNcsSc_str_trace `{lib : PyLib} env urlTail tok d :
  forall n h r h',
    run env (queryNcsSc_str n urlTail tok d) h = (Returned r, h') ->
    exists k, (k <= n)%nat
      /\ h' = EvHttp (getRequest urlTail tok d) :: retried (getRequest urlTail tok d) 10 k h
      /\ (non2xx (statusCode r) = true -> k = n).
Proof.
  induction n as [|n IH]; intros h r h'; rewrite queryNcsSc_str_unfold; cbv zeta;
    destruct (answer env NetReply h _) as [resp|exc]; try discriminate.
  - destruct (non2xx (status_code resp)) eqn:Hbad; intros [= <- <-];
      exists 0%nat; simpl; auto.
  - destruct (non2xx (status_code resp)) eqn:Hbad.
    + destruct (answer env (option Exn) _ (CSleep 10)); [discriminate|].
      intros Hrun. destruct (IH _ r h' Hrun) as (k & Hk & Hh & Hall).
      exists (S k). split; [lia|]. split.
      * rewrite Hh.
        change (EvSleep 10 :: EvHttp (getRequest urlTail tok d) :: h)
          with (retried (getRequest urlTail tok d) 10 1 h).
        rewrite retried_add. replace (k + 1)%nat with (S k) by lia. reflexivity.
      * intros H. rewrite (Hall H). reflexivity.
    + intros [= <- <-]. exists 0%nat. simpl. split; [lia|]. split; [reflexivity|].
      intros H. congruence.
Qed.

(** X1.  When [queryNcsSc] returns, what it has done is [k + 1] GETs of
    the same request with a 10-second sleep between them, for some [k]
    not above the retries allowed; and a status outside 2xx is only
    returned once all the retries are used up. *)
Theorem queryNcsSc_trace `{lib : PyLib} env urlTail tok reqParams maxRetries h r h' :
  run env (queryNcsSc urlTail tok reqParams maxRetries) h = (Returned r, h') ->
  exists k, (k <= Z.to_nat maxRetries)%nat
    /\ h' = EvHttp (getRequest urlTail tok (jsonize reqParams))
            :: retried (getRequest urlTail tok (jsonize reqParams)) 10 k h
    /\ (non2xx (statusCode r) = true -> k = Z.to_nat maxRetries).
Proof. apply queryNcsSc_str_trace. Qed.

Lemma queryNcsSc_trace_witness :
  exists k, (k <= Z.to_nat 2)%nat
    /\ [EvHttp (pollRequest "i-1"); EvSleep 10; EvHttp (pollRequest "i-1"); EvSleep 10;
        EvHttp (pollRequest "i-1")]
       = EvHttp (getRequest "instances/i-1" "tok" (jsonize (lib := plainLib) (inr showDeviceInfo)))
         :: retried (getRequest "instances/i-1" "tok"
                       (jsonize (lib := plainLib) (inr showDeviceInfo))) 10 k []
    /\ (non2xx 200 = true -> k = Z.to_nat 2).
Proof.
  apply (queryNcsSc_trace (lib := plainLib) flakyEnv "instances/i-1" "tok"
           (inr showDeviceInfo) 2 []
           {| content := JDict [("state", JStr "started")]; statusCode := 200 |}).
  reflexivity.
Defined.

(** X2.  [queryNcsSc] raises only what the network or the sleep raised:
    a status code, whatever it is, never makes it raise. *)
Theorem queryNcsSc_raises_only_from_calls `{lib : PyLib}
  env urlTail tok reqParams maxRetries h exc h' :
  run env (queryNcsSc urlTail tok reqParams maxRetries) h = (Raised exc, h') ->
  exists h0,
    (h' = EvHttp (getRequest urlTail tok (jsonize reqParams)) :: h0
     /\ answer env _ h0 (CHttp (getRequest urlTail tok (jsonize reqParams))) = NetRaise exc)
    \/ (h' = EvSleep 10 :: h0 /\ answer env _ h0 (CSleep 10) = Some exc).
Proof.
  unfold queryNcsSc. generalize (Z.to_nat maxRetries) as n. intros n. revert h.
  induction n as [|n IH]; intros h; rewrite queryNcsSc_str_unfold; cbv zeta;
    destruct (answer env NetReply h _) as [resp|e] eqn:Hans.
  - destruct (non2xx (status_code resp)); discriminate.
  - intros [= <- <-]. exists h. left. auto.
  - destruct (non2xx (status_code resp)); [|discriminate].
    destruct (answer env (option Exn) _ (CSleep 10)) as [e|] eqn:Hs.
    + intros [= <- <-]. eexists. right. split; [reflexivity | exact Hs].
    + apply IH.
  - intros [= <- <-]. exists h. left. auto.
Qed.

Lemma queryNcsSc_raises_only_from_calls_witness :
  exists h0,
    ([EvHttp (getRequest "instances/i-1" "tok" "")] =
       EvHttp (getRequest "instances/i-1" "tok" (jsonize (lib := plainLib) (inl ""))) :: h0
     /\ answer refusingEnv _ h0
          (CHttp (getRequest "instances/i-1" "tok" (jsonize (lib := plainLib) (inl ""))))
        = NetRaise (RequestException "connection refused"))
    \/ ([EvHttp (getRequest "instances/i-1" "tok" "")] = EvSleep 10 :: h0
        /\ answer refusingEnv _ h0 (CSleep 10) = Some (RequestException "connection refused")).
Proof.
  apply (queryNcsSc_raises_only_from_calls (lib := plainLib) refusingEnv
           "instances/i-1" "tok" (inl "") 1 []).
  reflexivity.
Defined.



(** *** Launching *)

Lemma dict_get_set kvs k v k' :
  dict_get (dict_set kvs k v) k' = if String.eqb k k' then Some v else dict_get kvs k'.
Proof.
  induction kvs as [|[k0 v0] rest IH]; simpl; [reflexivity|].
  destruct (String.eqb k0 k) eqn:Hk0; simpl.
  - apply String.eqb_eq in Hk0. subst k0. destruct (String.eqb k k'); reflexivity.
  - rewrite IH. destruct (String.eqb k k') eqn:Hk; [|reflexivity].
    apply String.eqb_eq in Hk. subst k'. rewrite Hk0. reflexivity.
Qed.

Lemma dict_get_app l1 l2 k :
  dict_get (l1 ++ l2) k =
  match dict_get l1 k with Some v => Some v | None => dict_get l2 k end.
Proof.
  induction l1 as [|[k0 v0] rest IH]; simpl; [reflexivity|].
  destruct (String.eqb k0 k); [reflexivity | exact IH].
Qed.

Lemma dict_get_update other :
  forall kvs k,
    dict_get (dict_update kvs other) k =
    match dict_get (rev other) k with Some v => Some v | None => dict_get kvs k end.
Proof.
  unfold dict_update.
  induction other as [|[k0 v0] rest IH]; intros kvs k; simpl; [reflexivity|].
  rewrite IH, dict_get_app, dict_get_set. simpl.
  destruct (dict_get (rev rest) k); [reflexivity|].
  destruct (String.eqb k0 k); reflexivity.
Qed.

(** X4.  A filter that parses to a dict is merged over the request data:
    every key of the filter replaces the launch's own field of that name
    (the last occurrence of the key counting), and the fields the filter
    does not name are kept. *)
Theorem applyFilter_overrides `{lib : PyLib} reqData f kvs :
  f <> "" ->
  json_loads f = Some (JDict kvs) ->
  exists reqData',
    applyFilter reqData (Some f) = Ret reqData'
    /\ forall k, dict_get reqData' k =
                 match dict_get (rev kvs) k with
                 | Some v => Some v
                 | None => dict_get reqData k
                 end.
Proof.
  intros Hf Hloads. unfold applyFilter.
  apply String.eqb_neq in Hf. rewrite Hf, Hloads.
  destruct kvs as [|kv kvs'].
  - exists reqData. split; [reflexivity|]. intros k. reflexivity.
  - exists (dict_update reqData (kv :: kvs')). split; [reflexivity|].
    intros k. apply dict_get_update.
Qed.

Lemma applyFilter_overrides_witness :
  exists reqData',
    applyFilter (lib := filterLib) (launchData "job-1" 1 JNull (JList []) JNull)
      (Some filterText) = Ret reqData'
    /\ forall k, dict_get reqData' k =
                 match dict_get (rev [("count", JNum 3); ("dar", JStr ">= 24")]) k with
                 | Some v => Some v
                 | None => dict_get (launchData "job-1" 1 JNull (JList []) JNull) k
                 end.
Proof.
  apply (applyFilter_overrides (lib := filterLib)).
  - discriminate.
  - reflexivity.
Defined.

(** X5.  When the versions are there and the POST is answered inside
    2xx with a JSON body, [launchNcscInstances] returns that body after
    this one POST: no sleep, no further request. *)
Theorem launchNcscInstances_success `{lib : PyLib}
  env tok numReq regions abis key jsonFilter h h1 v vs reqData' resp body :
  run env (getAppVersions tok) h = (Returned (v :: vs), h1) ->
  max_raises (v :: vs) = None ->
  applyFilter (launchData (answer env _ h1 CUuid4) numReq regions abis key) jsonFilter
    = Ret reqData' ->
  answer env _ (EvUuid4 :: h1) (CHttp (postRequest tok (json_dumps (JDict reqData'))))
    = Reply resp ->
  non2xx (status_code resp) = false ->
  json resp = Some body ->
  run env (launchNcscInstances tok numReq regions abis key jsonFilter) h =
  (Returned body, EvHttp (postRequest tok (json_dumps (JDict reqData'))) :: EvUuid4 :: h1).
Proof.
  intros Hver Hmax Hfilter Hpost H2xx Hbody.
  rewrite launchNcscInstances_unfold, run_bind, Hver, Hmax, run_uuid4, Hfilter.
  change (run env (Ret reqData' ≫= ?f) ?hh) with (run env (f reqData') hh).
  cbv beta. rewrite run_http, Hpost, H2xx, Hbody. reflexivity.
Qed.

Lemma launchNcscInstances_success_witness :
  run (serverEnv 0 (launchServer (plainResponse 200 (Some (JList [JDict [("id", JStr "i-1")]])))))
    (launchNcscInstances (lib := filterLib) "tok" 1 JNull (JList []) JNull (Some filterText)) [] =
  (Returned (JList [JDict [("id", JStr "i-1")]]),
   [EvHttp (postRequest "tok"
              (plain_dumps (JDict [("abis", JList []); ("job", JStr "job-1"); ("regions", JNull);
                                   ("ssh_key", JNull); ("count", JNum 3);
                                   ("dar", JStr ">= 24")])));
    EvUuid4; EvHttp versionsRequest]).
Proof.
  apply (launchNcscInstances_success (lib := filterLib)
           (serverEnv 0 (launchServer (plainResponse 200 (Some (JList [JDict [("id", JStr "i-1")]])))))
           "tok" 1 JNull (JList []) JNull (Some filterText) [] [EvHttp versionsRequest]
           (JNum 1623) []
           [("abis", JList []); ("job", JStr "job-1"); ("regions", JNull);
            ("ssh_key", JNull); ("count", JNum 3); ("dar", JStr ">= 24")]
           (plainResponse 200 (Some (JList [JDict [("id", JStr "i-1")]])))
           (JList [JDict [("id", JStr "i-1")]]));
    reflexivity.
Defined.

(** What a filter that cannot be used makes [applyFilter] do. *)
Lemma applyFilter_unusable `{lib : PyLib} reqData f :
  f <> "" ->
  json_loads f = None
  \/ (exists filters, json_loads f = Some filters /\ py_truthy filters = true
                      /\ forall kvs, filters <> JDict kvs) ->
  exists exc, applyFilter reqData (Some f) = Raise exc /\ isException exc = true.
Proof.
  intros Hf Hbad. unfold applyFilter. apply String.eqb_neq in Hf. rewrite Hf.
  destruct Hbad as [-> | (filters & -> & -> & Hnodict)].
  - eexists. split; reflexivity.
  - destruct filters; try (eexists; split; reflexivity).
    exfalso. exact (Hnodict _ eq_refl).
Qed.

(** X6.  A filter that is not valid JSON, or that is JSON of another
    kind than a dict (and not a falsy value), is found out before
    anything is posted: [doCmdLaunch] returns 13 right after the job id
    is drawn. *)
Theorem doCmdLaunch_bad_filter_returns_13 `{lib : PyLib} env fuel args h h1 v vs f :
  run env (getAppVersions (arg_authToken args)) h = (Returned (v :: vs), h1) ->
  max_raises (v :: vs) = None ->
  arg_filter args = Some f ->
  f <> "" ->
  json_loads f = None
  \/ (exists filters, json_loads f = Some filters /\ py_truthy filters = true
                      /\ forall kvs, filters <> JDict kvs) ->
  run env (doCmdLaunch fuel args) h = (Returned (JNum 13), EvUuid4 :: h1)
  /\ countHttp POST (EvUuid4 :: h1) = countHttp POST h.
Proof.
  intros Hver Hmax Hfilter Hf Hbad. split.
  - unfold doCmdLaunch. rewrite run_bind.
    unfold launchOrCode. rewrite run_try_except, run_bind.
    rewrite launchNcscInstances_unfold, run_bind, Hver, Hmax, run_uuid4, Hfilter.
    destruct (applyFilter_unusable
                (launchData (answer env _ h1 CUuid4) (arg_count args) (arg_region args)
                   (match arg_itype args with
                    | Some t => if String.eqb t "" then JList [] else JList [JStr t]
                    | None => JList []
                    end) (arg_sshClientKeyName args)) f Hf Hbad) as (exc & -> & Hexc).
    simpl. rewrite Hexc. reflexivity.
  - pose proof (getAppVersions_no_post env (arg_authToken args) h) as Hp.
    rewrite Hver in Hp. exact Hp.
Qed.

Lemma doCmdLaunch_bad_filter_returns_13_witness :
  run (serverEnv 0 (launchServer (plainResponse 200 None)))
    (doCmdLaunch (lib := filterLib) 1 (filterArgs "[1]")) [] =
    (Returned (JNum 13), [EvUuid4; EvHttp versionsRequest])
  /\ countHttp POST [EvUuid4; EvHttp versionsRequest] = countHttp POST [].
Proof.
  apply (doCmdLaunch_bad_filter_returns_13 (lib := filterLib)
           (serverEnv 0 (launchServer (plainResponse 200 None))) 1 (filterArgs "[1]")
           [] [EvHttp versionsRequest] (JNum 1623) [] "[1]").
  - reflexivity.
  - reflexivity.
  - reflexivity.
  - discriminate.
  - right. exists (JList [JNum 1]). split; [reflexivity|]. split; [reflexivity|]. discriminate.
Defined.

(** X7.  When the launch comes back with a dict holding ['serverError'],
    [doCmdLaunch] returns what is stored there at once: no instance is
    polled and nothing is printed, and [__main__] hands the code, less
    400 when it is above 400, to [sys.exit]. *)
Theorem doCmdLaunch_server_error `{lib : PyLib} env fuel args h h1 kvs code :
  run env (launchNcscInstances (arg_authToken args) (arg_count args) (arg_region args)
             (instanceAbis args) (arg_sshClientKeyName args) (arg_filter args)) h
    = (Returned (JDict kvs), h1) ->
  dict_get kvs "serverError" = Some (JNum code) ->
  run env (doCmdLaunch fuel args) h = (Returned (JNum code), h1)
  /\ run env (mainLaunch fuel args) h =
     (Returned (JNum (if code >? 400 then code - 400 else code)), h1).
Proof.
  intros Hlaunch Hcode.
  assert (Hcmd : run env (doCmdLaunch fuel args) h = (Returned (JNum code), h1)).
  { unfold doCmdLaunch. rewrite run_bind.
    unfold launchOrCode. rewrite run_try_except, run_bind.
    fold (instanceAbis args). rewrite Hlaunch. simpl. rewrite Hcode. reflexivity. }
  split; [exact Hcmd|].
  unfold mainLaunch. rewrite run_bind, Hcmd. reflexivity.
Qed.

Lemma doCmdLaunch_server_error_witness :
  run recoveryFailsEnv (doCmdLaunch (lib := plainLib) 0 (launchArgs true)) [] =
    (Returned (JNum 503),
     snd (run recoveryFailsEnv
            (launchNcscInstances (lib := plainLib) "tok" 1 JNull (JList []) JNull None) []))
  /\ run recoveryFailsEnv (mainLaunch (lib := plainLib) 0 (launchArgs true)) [] =
    (Returned (JNum 103),
     snd (run recoveryFailsEnv
            (launchNcscInstances (lib := plainLib) "tok" 1 JNull (JList []) JNull None) [])).
Proof.
  apply (doCmdLaunch_server_error (lib := plainLib) recoveryFailsEnv 0 (launchArgs true) []
           _ [("serverError", JNum 503); ("reqId", JStr "job-1")] 503).
  - vm_compute. reflexivity.
  - reflexivity.
Defined.

(** *** The poll loop *)

Lemma recordState_keeps c iid details iState :
  iid ∉ startedSet (state c) ->
  dom (startedInstances (state c)) = startedSet (state c) ->
  dom (startedInstances (state (recordState c iid details iState)))
    = startedSet (state (recordState c iid details iState))
  /\ keeps (state c) (state (recordState c iid details iState)).
Proof.
  intros Hnotin Hdom. unfold recordState, keeps; simpl.
  assert (Hnone : startedInstances (state c) !! iid = None).
  { apply not_elem_of_dom. rewrite Hdom. exact Hnotin. }
  destruct (is_str iState "started"); destruct (is_str iState "failed"); simpl.
  - split; [rewrite dom_insert_L, Hdom; reflexivity|].
    split; [set_solver|]. split; [set_solver|]. now apply insert_subseteq.
  - split; [rewrite dom_insert_L, Hdom; reflexivity|].
    split; [set_solver|]. split; [set_solver|]. now apply insert_subseteq.
  - split; [exact Hdom|]. split; [set_solver|]. split; [set_solver|]. reflexivity.
  - split; [exact Hdom|]. split; [set_solver|]. split; [set_solver|]. reflexivity.
Qed.

Lemma keeps_refl st : keeps st st.
Proof. unfold keeps. split; [set_solver|]. split; [set_solver|]. reflexivity. Qed.

Lemma keeps_trans st1 st2 st3 : keeps st1 st2 -> keeps st2 st3 -> keeps st1 st3.
Proof.
  intros (Hs1 & Hf1 & Hm1) (Hs2 & Hf2 & Hm2). unfold keeps.
  split; [set_solver|]. split; [set_solver|]. now transitivity (startedInstances st2).
Qed.

Lemma pollInstance_keeps `{lib : PyLib} env tok c iid h r h' :
  dom (startedInstances (state c)) = startedSet (state c) ->
  run env (pollInstance tok c iid) h = (Returned r, h') ->
  dom (startedInstances (flowState r)) = startedSet (flowState r)
  /\ keeps (state c) (flowState r).
Proof.
  intros Hdom. unfold pollInstance.
  destruct (bool_decide (iid ∈ startedSet (state c))) eqn:Hin.
  { simpl. intros [= <- <-]. split; [exact Hdom | apply keeps_refl]. }
  apply bool_decide_eq_false in Hin.
  rewrite run_bind.
  destruct (run env (queryDetails tok iid) h) as [[q| |] h1]; try discriminate.
  destruct q as [details| |].
  - rewrite run_bind, run_lift.
    destruct (py_contains "state" details) as [hasState|]; try discriminate.
    destruct hasState; simpl.
    + rewrite run_bind, run_lift.
      destruct (py_getitem details "state") as [iState|] eqn:Hget; try discriminate.
      destruct (py_hashable iState); simpl; try discriminate.
      intros [= <- <-]. now apply recordState_keeps.
    + intros [= <- <-]. split; [exact Hdom | apply keeps_refl].
  - simpl. intros [= <- <-]. split; [exact Hdom | apply keeps_refl].
  - simpl. intros [= <- <-]. split; [exact Hdom | apply keeps_refl].
Qed.

Lemma pollCycle_keeps `{lib : PyLib} env tok :
  forall ids c h r h',
    dom (startedInstances (state c)) = startedSet (state c) ->
    run env (pollCycle tok ids c) h = (Returned r, h') ->
    dom (startedInstances (flowState r)) = startedSet (flowState r)
    /\ keeps (state c) (flowState r).
Proof.
  induction ids as [|iid ids IH]; intros c h r h' Hdom.
  - simpl. intros [= <- <-]. split; [exact Hdom | apply keeps_refl].
  - rewrite pollCycle_cons, run_bind.
    destruct (run env (pollInstance tok c iid) h) as [[r1| |] h1] eqn:E1; try discriminate.
    destruct (pollInstance_keeps env tok c iid h r1 h1 Hdom E1) as [Hdom1 Hk1].
    destruct r1 as [c1|st1].
    + intros Hrun. destruct (IH c1 h1 r h' Hdom1 Hrun) as [Hdom2 Hk2].
      split; [exact Hdom2 | exact (keeps_trans _ _ _ Hk1 Hk2)].
    + simpl. intros [= <- <-]. split; [exact Hdom1 | exact Hk1].
Qed.

Lemma pollLoop_keeps `{lib : PyLib} env tok iids deadline :
  forall fuel st h st' h',
    dom (startedInstances st) = startedSet st ->
    run env (pollLoop fuel tok iids deadline st) h = (Returned st', h') ->
    dom (startedInstances st') = startedSet st' /\ keeps st st'.
Proof.
  induction fuel as [|fuel IH]; intros st h st' h' Hdom; [discriminate|].
  rewrite pollLoop_S, run_bind.
  destruct (run env (pollCycle tok iids (newCycle st)) h) as [[r| |] h1] eqn:E1;
    try discriminate.
  pose proof (pollCycle_keeps env tok iids (newCycle st) h r h1 Hdom E1) as H1.
  destruct r as [c|st1]; [|simpl; intros [= <- <-]; exact H1].
  simpl in H1.
  destruct (starting c); simpl; [|intros [= <- <-]; exact H1].
  destruct (answer env Z h1 CTime >? deadline); simpl; [intros [= <- <-]; exact H1|].
  destruct (answer env (option Exn) (EvTime :: h1) (CSleep 5)) as [e|]; simpl.
  - destruct (isKeyboardInterrupt e); simpl; [|discriminate].
    intros [= <- <-]. exact H1.
  - intros Hrun. destruct (IH (state c) _ st' h' (proj1 H1) Hrun) as [Hdom2 Hk2].
    split; [exact Hdom2 | exact (keeps_trans _ _ _ (proj2 H1) Hk2)].
Qed.

(** X8.  The poll loop only adds to what it has recorded: an id once in
    [startedSet] or [failedSet] stays there, and the details stored for a
    started instance are never replaced, since a started id is not
    polled again. *)
Theorem pollLoop_keeps_what_it_recorded `{lib : PyLib}
  env fuel tok iids deadline st h st' h' :
  dom (startedInstances st) = startedSet st ->
  run env (pollLoop fuel tok iids deadline st) h = (Returned st', h') ->
  startedSet st ⊆ startedSet st'
  /\ failedSet st ⊆ failedSet st'
  /\ (forall iid details,
        startedInstances st !! iid = Some details ->
        startedInstances st' !! iid = Some details).
Proof.
  intros Hdom Hrun.
  destruct (pollLoop_keeps env tok iids deadline fuel st h st' h' Hdom Hrun)
    as [_ (Hs & Hf & Hm)].
  split; [exact Hs|]. split; [exact Hf|].
  intros iid details Hsome. exact (lookup_weaken _ _ _ _ Hsome Hm).
Qed.

Lemma pollLoop_keeps_what_it_recorded_witness :
  startedSet oneStarted ⊆ startedSet oneStartedOneFailed
  /\ failedSet oneStarted ⊆ failedSet oneStartedOneFailed
  /\ (forall iid details,
        startedInstances oneStarted !! iid = Some details ->
        startedInstances oneStartedOneFailed !! iid = Some details).
Proof.
  apply (pollLoop_keeps_what_it_recorded (lib := plainLib) failedEnv 1 "tok" ["i-0"; "i-1"] (-1)
           oneStarted [] oneStartedOneFailed [EvTime; EvHttp (pollRequest "i-1")]).
  - unfold oneStarted; simpl. apply dom_singleton_L.
  - rewrite pollLoop_turn. vm_compute. reflexivity.
Defined.








Lemma pollInstance_started `{lib : PyLib} env tok iids c iid h :
  AlwaysInState env tok iids "started" ->
  iid ∈ iids ->
  iid ∉ startedSet (state c) ->
  starting c = false ->
  exists c',
    run env (pollInstance tok c iid) h = (Returned (Next c'), pollEvent tok iid :: h)
    /\ startedSet (state c') = {[iid]} ∪ startedSet (state c)
    /\ failedSet (state c') = failedSet (state c)
    /\ starting c' = false.
Proof.
  intros [Hsrv _] Hin Hnotin Hflag.
  destruct (Hsrv h iid Hin) as (resp & kvs & Hans & Hok & Hjson & Hstate).
  unfold pollInstance.
  rewrite bool_decide_eq_false_2 by exact Hnotin.
  rewrite run_bind, (queryDetails_answered env tok iid h resp Hans Hok).
  rewrite Hjson. simpl default.
  rewrite run_bind, run_lift. simpl py_contains. rewrite Hstate. simpl negb. cbv iota.
  rewrite run_bind, run_lift. simpl py_getitem. rewrite Hstate. simpl.
  eexists. split; [reflexivity|].
  unfold recordState; simpl. split; [reflexivity|]. split; [reflexivity | exact Hflag].
Qed.

Lemma pollCycle_started `{lib : PyLib} env tok iids :
  AlwaysInState env tok iids "started" ->
  forall ids c h,
    ids ⊆ iids ->
    starting c = false ->
    exists c' polled,
      run env (pollCycle tok ids c) h
        = (Returned (Next c'), (rev (map (pollEvent tok) polled) ++ h)%list)
      /\ startedSet (state c') = list_to_set ids ∪ startedSet (state c)
      /\ failedSet (state c') = failedSet (state c)
      /\ starting c' = false
      /\ NoDup polled
      /\ forall x, x ∈ polled <-> x ∈ ids /\ x ∉ startedSet (state c).
Proof.
  intros Hsrv. induction ids as [|iid ids IH]; intros c h Hsub Hflag.
  - exists c, []. simpl. split; [reflexivity|]. split; [set_solver|].
    split; [reflexivity|]. split; [exact Hflag|]. split; [constructor|]. set_solver.
  - destruct (decide (iid ∈ startedSet (state c))) as [Hin|Hnotin].
    + destruct (IH c h ltac:(set_solver) Hflag)
        as (c' & polled & Hrun & Hs & Hf & Hfl & Hnd & Hiff).
      exists c', polled. rewrite pollCycle_cons, run_bind.
      unfold pollInstance at 1. rewrite bool_decide_eq_true_2 by exact Hin.
      split; [exact Hrun|]. split; [set_solver|]. split; [exact Hf|].
      split; [exact Hfl|]. split; [exact Hnd|].
      intros x. rewrite Hiff. set_solver.
    + destruct (pollInstance_started env tok iids c iid h Hsrv ltac:(set_solver) Hnotin Hflag)
        as (c1 & Hrun1 & Hs1 & Hf1 & Hfl1).
      destruct (IH c1 (pollEvent tok iid :: h) ltac:(set_solver) Hfl1)
        as (c' & polled & Hrun & Hs & Hf & Hfl & Hnd & Hiff).
      exists c', (iid :: polled). rewrite pollCycle_cons, run_bind, Hrun1.
      split.
      { rewrite Hrun. simpl map. simpl rev. rewrite <- app_assoc. reflexivity. }
      split; [rewrite Hs, Hs1; set_solver|]. split; [congruence|].
      split; [exact Hfl|]. split.
      { apply NoDup_cons. split; [|exact Hnd]. rewrite Hiff, Hs1. set_solver. }
      intros x. rewrite !elem_of_cons, Hiff, Hs1, not_elem_of_union, not_elem_of_singleton.
      destruct (decide (x = iid)) as [->|Hne]; [tauto|]. tauto.
Qed.

Lemma pollLoop_started `{lib : PyLib} env fuel tok iids deadline st h :
  AlwaysInState env tok iids "started" ->
  exists st' polled,
    run env (pollLoop (S fuel) tok iids deadline st) h
      = (Returned st', (rev (map (pollEvent tok) polled) ++ h)%list)
    /\ startedSet st' = list_to_set iids ∪ startedSet st
    /\ failedSet st' = failedSet st
    /\ NoDup polled
    /\ forall x, x ∈ polled <-> x ∈ iids /\ x ∉ startedSet st.
Proof.
  intros Hsrv.
  destruct (pollCycle_started env tok iids Hsrv iids (newCycle st) h
              ltac:(set_solver) eq_refl)
    as (c' & polled & Hrun & Hs & Hf & Hfl & Hnd & Hiff).
  exists (state c'), polled. rewrite pollLoop_S, run_bind, Hrun, Hfl.
  split; [reflexivity|]. split; [exact Hs|]. split; [exact Hf|].
  split; [exact Hnd | exact Hiff].
Qed.

Lemma startedEnv_always_started iids :
  AlwaysInState (lib := plainLib) startedEnv "tok" iids "started".
Proof.
  split.
  - intros h iid _.
    exists (plainResponse 200 (Some (JDict [("state", JStr "started"); ("job", JStr "j-1")]))),
           [("state", JStr "started"); ("job", JStr "j-1")].
    repeat split; reflexivity.
  - intros h secs. reflexivity.
Qed.

(** X10.  When every instance answers [started], the loop is left after
    one pass: each id not yet started is polled exactly once, the clock
    is not read and nothing sleeps; all the ids are then in
    [startedSet]. *)
Theorem pollLoop_all_started_one_pass `{lib : PyLib} env fuel tok iids deadline st h :
  AlwaysInState env tok iids "started" ->
  exists st' polled,
    run env (pollLoop (S fuel) tok iids deadline st) h
      = (Returned st', (rev (map (pollEvent tok) polled) ++ h)%list)
    /\ startedSet st' = list_to_set iids ∪ startedSet st
    /\ failedSet st' = failedSet st
    /\ NoDup polled
    /\ forall x, x ∈ polled <-> x ∈ iids /\ x ∉ startedSet st.
Proof. apply pollLoop_started. Qed.

Lemma pollLoop_all_started_one_pass_witness :
  exists st' polled,
    run startedEnv
      (pollLoop (lib := plainLib) 1 "tok" ["i-1"; "i-2"; "i-1"] 600 emptyPollState) []
      = (Returned st', (rev (map (pollEvent (lib := plainLib) "tok") polled) ++ [])%list)
    /\ startedSet st' = list_to_set ["i-1"; "i-2"; "i-1"] ∪ startedSet emptyPollState
    /\ failedSet st' = failedSet emptyPollState
    /\ NoDup polled
    /\ forall x, x ∈ polled <-> x ∈ ["i-1"; "i-2"; "i-1"] /\ x ∉ startedSet emptyPollState.
Proof.
  apply (pollLoop_all_started_one_pass (lib := plainLib) startedEnv 0 "tok"
           ["i-1"; "i-2"; "i-1"] 600 emptyPollState []).
  apply startedEnv_always_started.
Defined.

(** *** The report *)

Lemma onlyPrints_refl h : onlyPrints h h.
Proof. exists []. split; reflexivity. Qed.

Lemma onlyPrints_print h h' out : onlyPrints h h' -> onlyPrints h (EvPrint out :: h').
Proof.
  intros (evs & -> & Hall). exists (EvPrint out :: evs). split; [reflexivity | exact Hall].
Qed.

Lemma onlyPrints_trans h1 h2 h3 : onlyPrints h1 h2 -> onlyPrints h2 h3 -> onlyPrints h1 h3.
Proof.
  intros (evs1 & -> & Hall1) (evs2 & -> & Hall2). exists (evs2 ++ evs1)%list.
  split; [apply app_assoc|]. rewrite forallb_app, Hall1, Hall2. reflexivity.
Qed.

Lemma printDetails_only_prints `{lib : PyLib} env asJson first iid details h :
  onlyPrints h (snd (run env (printDetails asJson first iid details) h)).
Proof.
  unfold printDetails. destruct asJson.
  - destruct details; destruct first; simpl;
      repeat apply onlyPrints_print; apply onlyPrints_refl.
  - rewrite run_bind, run_lift.
    destruct (py_getitem details "state"); [|apply onlyPrints_refl].
    rewrite run_bind, run_lift.
    destruct (py_getitem details "job"); [|apply onlyPrints_refl].
    simpl. apply onlyPrints_print, onlyPrints_refl.
Qed.

Lemma reportInstances_known `{lib : PyLib} env tok asJson known :
  forall iids first h,
    (forall iid, iid ∈ iids -> is_Some (known !! iid)) ->
    onlyPrints h (snd (run env (reportInstances tok asJson known iids first) h)).
Proof.
  induction iids as [|iid rest IH]; intros first h Hknown; [apply onlyPrints_refl|].
  destruct (Hknown iid ltac:(set_solver)) as [details Hd].
  simpl reportInstances. unfold fetchDetails. rewrite Hd.
  change (run env (Ret (Got details) ≫= ?f) ?hh) with (run env (f (Got details)) hh).
  cbv beta iota. rewrite run_bind.
  pose proof (printDetails_only_prints env asJson first iid details h) as Hp.
  destruct (run env (printDetails asJson first iid details) h) as [[first'|e|] h1];
    simpl in Hp; try exact Hp.
  apply (onlyPrints_trans _ _ _ Hp). apply IH. intros x Hx. apply Hknown. set_solver.
Qed.

(** X11.  For ids whose details the poll loop has stored, the report
    makes no request: whatever it does, and however it ends, is
    printing. *)
Theorem reportInstances_known_only_prints `{lib : PyLib}
  env tok asJson known iids first h :
  (forall iid, iid ∈ iids -> is_Some (known !! iid)) ->
  exists evs,
    snd (run env (reportInstances tok asJson known iids first) h) = (evs ++ h)%list
    /\ forallb isPrint evs = true.
Proof. intros Hknown. exact (reportInstances_known env tok asJson known iids first h Hknown). Qed.

Lemma reportInstances_known_only_prints_witness :
  exists evs,
    snd (run downEnv
           (reportInstances (lib := plainLib) "tok" false (startedInstances oneStarted)
              ["i-0"] true) [])
      = (evs ++ [])%list
    /\ forallb isPrint evs = true.
Proof.
  apply (reportInstances_known_only_prints (lib := plainLib) downEnv "tok" false
           (startedInstances oneStarted) ["i-0"] true []).
  intros iid Hin. apply list_elem_of_singleton in Hin. subst iid.
  eexists. reflexivity.
Defined.

(** *** The whole of a launch *)

Lemma py_getitem_ok_dict v k x : py_getitem v k = Ok x -> exists kvs, v = JDict kvs.
Proof. destruct v; simpl; try discriminate. intros _. now exists kvs. Qed.

Lemma collectIds_run `{lib : PyLib} env insts iids h :
  Forall2 (fun inst iid => py_getitem inst "id" = Ok (JStr iid)) insts iids ->
  run env (collectIds insts) h = (Returned iids, h).
Proof.
  induction 1 as [|inst iid insts iids Hid _ IH]; [reflexivity|].
  simpl collectIds. rewrite run_bind, run_lift, Hid. cbv iota beta.
  rewrite run_bind, IH. reflexivity.
Qed.

Lemma no_serverError_in_list insts iids :
  Forall2 (fun inst iid => py_getitem inst "id" = Ok (JStr iid)) insts iids ->
  py_contains "serverError" (JList insts) = Ok false.
Proof.
  intros Hall. simpl. f_equal.
  induction Hall as [|inst iid insts iids Hid _ IH]; [reflexivity|].
  simpl. rewrite IH. destruct (py_getitem_ok_dict _ _ _ Hid) as [kvs ->]. reflexivity.
Qed.

Lemma reportInstances_json_returns `{lib : PyLib} env tok known :
  forall iids first h,
    (forall iid, iid ∈ iids -> exists kvs, known !! iid = Some (JDict kvs)) ->
    fst (run env (reportInstances tok true known iids first) h) = Returned tt.
Proof.
  induction iids as [|iid rest IH]; intros first h Hknown; [reflexivity|].
  destruct (Hknown iid ltac:(set_solver)) as [kvs Hd].
  simpl reportInstances. unfold fetchDetails. rewrite Hd.
  change (run env (Ret (Got (JDict kvs)) ≫= ?f) ?hh) with (run env (f (Got (JDict kvs))) hh).
  cbv beta iota. rewrite run_bind.
  assert (Hrest : forall x, x ∈ rest -> exists kvs', known !! x = Some (JDict kvs')).
  { intros x Hx. apply Hknown. set_solver. }
  destruct first; simpl; apply IH; exact Hrest.
Qed.

(** X12.  A launch in JSON mode whose instances all answer [started]:
    [doCmdLaunch] returns 0; after the launch it reads the clock once,
    polls every instance exactly once, and from then on only prints:
    the details stored by the poll loop are reused, no instance is
    queried a second time. *)
Theorem doCmdLaunch_all_started `{lib : PyLib} env fuel args h h1 insts iids :
  run env (launchNcscInstances (arg_authToken args) (arg_count args) (arg_region args)
             (instanceAbis args) (arg_sshClientKeyName args) (arg_filter args)) h
    = (Returned (JList insts), h1) ->
  Forall2 (fun inst iid => py_getitem inst "id" = Ok (JStr iid)) insts iids ->
  AlwaysInState env (arg_authToken args) iids "started" ->
  arg_json args = true ->
  exists polled evs,
    run env (doCmdLaunch (S fuel) args) h =
      (Returned (JNum 0),
       (evs ++ rev (map (pollEvent (arg_authToken args)) polled) ++ EvTime :: h1)%list)
    /\ forallb isPrint evs = true
    /\ NoDup polled
    /\ forall x, x ∈ polled <-> x ∈ iids.
Proof.
  intros Hlaunch Hids Hsrv Hjson.
  set (tok := arg_authToken args) in *.
  set (deadline := answer env Z h1 CTime + 600).
  destruct (pollLoop_started env fuel tok iids deadline emptyPollState (EvTime :: h1) Hsrv)
    as (st' & polled & Hloop & Hs & _ & Hnd & Hiff).
  pose proof (pollLoop_inv env tok iids deadline (S fuel) emptyPollState (EvTime :: h1)
                st' _ (PollInv_empty iids) Hloop) as (Hdom & _ & _ & Hstate).
  assert (Hknown : forall iid, iid ∈ iids ->
                     exists kvs, startedInstances st' !! iid = Some (JDict kvs)).
  { intros iid Hin.
    assert (Hd : iid ∈ dom (startedInstances st')).
    { rewrite Hdom, Hs. set_solver. }
    apply elem_of_dom in Hd. destruct Hd as [details Hd].
    destruct (py_getitem_ok_dict _ _ _ (Hstate iid details Hd)) as [kvs ->].
    now exists kvs. }
  set (h2 := (rev (map (pollEvent tok) polled) ++ EvTime :: h1)%list) in *.
  set (h3 := EvPrint ("[" +:+ newline) :: h2).
  pose proof (reportInstances_json_returns env tok (startedInstances st') iids true h3 Hknown)
    as Hret.
  destruct (reportInstances_known env tok true (startedInstances st') iids true h3)
    as (evs & Hevs & Hall).
  { intros iid Hin. destruct (Hknown iid Hin) as [kvs Hk]. now exists (JDict kvs). }
  exists polled, (EvPrint ("]" +:+ newline) :: evs ++ [EvPrint ("[" +:+ newline)])%list.
  split; [|split; [|split]].
  - unfold doCmdLaunch. rewrite run_bind.
    unfold launchOrCode. rewrite run_try_except, run_bind.
    fold (instanceAbis args). fold tok. rewrite Hlaunch.
    rewrite run_bind, run_lift, (no_serverError_in_list insts iids Hids).
    cbv iota beta. simpl run at 1. cbv iota beta.
    rewrite run_bind, run_lift. simpl py_iter. cbv iota beta.
    rewrite run_bind, (collectIds_run env insts iids h1 Hids).
    rewrite run_bind. unfold awaitStarted. rewrite run_time_time.
    fold deadline. rewrite Hloop. rewrite Hjson.
    rewrite run_print. fold h3. rewrite run_bind.
    destruct (run env (reportInstances tok true (startedInstances st') iids true) h3)
      as [out h4].
    simpl in Hret, Hevs. subst out h4.
    rewrite run_print. simpl. unfold h3. rewrite <- app_assoc. reflexivity.
  - simpl. rewrite forallb_app, Hall. reflexivity.
  - exact Hnd.
  - intros x. rewrite Hiff. simpl. set_solver.
Qed.

Lemma happyEnv_always_started :
  AlwaysInState (lib := plainLib) happyEnv "tok" ["i-1"; "i-2"] "started".
Proof.
  split.
  - intros h iid Hin.
    exists (plainResponse 200 (Some (JDict [("state", JStr "started"); ("job", JStr "j-1")]))),
           [("state", JStr "started"); ("job", JStr "j-1")].
    apply list_elem_of_In in Hin. simpl in Hin.
    destruct Hin as [<-|[<-|[]]]; repeat split; reflexivity.
  - intros h secs. reflexivity.
Qed.

Lemma doCmdLaunch_all_started_witness :
  exists polled evs,
    run happyEnv (doCmdLaunch (lib := plainLib) 1 (launchArgs true)) [] =
      (Returned (JNum 0),
       (evs ++ rev (map (pollEvent (lib := plainLib) "tok") polled)
            ++ EvTime :: happyLaunched)%list)
    /\ forallb isPrint evs = true
    /\ NoDup polled
    /\ forall x, x ∈ polled <-> x ∈ ["i-1"; "i-2"].
Proof.
  apply (doCmdLaunch_all_started (lib := plainLib) happyEnv 0 (launchArgs true) []
           happyLaunched twoLaunched ["i-1"; "i-2"]).
  - vm_compute. reflexivity.
  - repeat constructor.
  - apply happyEnv_always_started.
  - reflexivity.
Defined.

(** *** The application versions *)

Lemma mapR_values l vs :
  Forall2 (fun x v => exists kvs, x = JDict kvs /\ dict_get kvs "value" = Some v) l vs ->
  mapR (fun x => py_getitem x "value") l = Ok vs.
Proof.
  induction 1 as [|x v l vs (kvs & -> & Hv) _ IH]; [reflexivity|].
  simpl. rewrite Hv, IH. reflexivity.
Qed.

(** X13.  When the versions query returns a list of dicts, each with a
    ['value'], [getAppVersions] returns these values in the order of the
    list, after the query and nothing else. *)
Theorem getAppVersions_values `{lib : PyLib} env tok h r h1 l vs :
  run env (queryNcsSc "info/mobile-app-versions" tok (inr JNull) 1) h = (Returned r, h1) ->
  content r = JList l ->
  Forall2 (fun x v => exists kvs, x = JDict kvs /\ dict_get kvs "value" = Some v) l vs ->
  run env (getAppVersions tok) h = (Returned vs, h1).
Proof.
  intros Hq Hc Hall. unfold getAppVersions.
  rewrite run_bind, Hq, Hc. simpl py_iter.
  rewrite run_bind, run_lift, run_lift, (mapR_values l vs Hall). reflexivity.
Qed.

Lemma getAppVersions_values_witness :
  run happyEnv (getAppVersions (lib := plainLib) "tok") [] =
  (Returned [JNum 1623], [EvHttp versionsRequest]).
Proof.
  apply (getAppVersions_values (lib := plainLib) happyEnv "tok" []
           {| content := JList [JDict [("value", JNum 1623)]]; statusCode := 200 |}
           [EvHttp versionsRequest] [JDict [("value", JNum 1623)]] [JNum 1623]).
  - reflexivity.
  - reflexivity.
  - constructor; [|constructor]. exists [("value", JNum 1623)]. split; reflexivity.
Defined.

(** X14.  When the body of the versions reply is a JSON object that is
    not empty, as an error body is, [getAppVersions] raises [TypeError]
    on its first key, and [doCmdLaunch] returns 13 without drawing a job
    id or posting anything. *)
Theorem doCmdLaunch_versions_object_returns_13 `{lib : PyLib} env fuel args h r h1 kv kvs :
  run env (queryNcsSc "info/mobile-app-versions" (arg_authToken args) (inr JNull) 1) h
    = (Returned r, h1) ->
  content r = JDict (kv :: kvs) ->
  run env (getAppVersions (arg_authToken args)) h
    = (Raised (TypeError "indices must be integers"), h1)
  /\ run env (doCmdLaunch fuel args) h = (Returned (JNum 13), h1).
Proof.
  intros Hq Hc.
  assert (Hver : run env (getAppVersions (arg_authToken args)) h
                 = (Raised (TypeError "indices must be integers"), h1)).
  { unfold getAppVersions. rewrite run_bind, Hq, Hc. reflexivity. }
  split; [exact Hver|].
  unfold doCmdLaunch. rewrite run_bind.
  unfold launchOrCode. rewrite run_try_except, run_bind.
  rewrite launchNcscInstances_unfold, run_bind, Hver. reflexivity.
Qed.

Lemma doCmdLaunch_versions_object_returns_13_witness :
  run (serverEnv 0 (fun _ _ => Reply (plainResponse 403 (Some (JDict [("error", JStr "denied")])))))
    (getAppVersions (lib := plainLib) "tok") []
    = (Raised (TypeError "indices must be integers"),
       [EvHttp versionsRequest; EvSleep 10; EvHttp versionsRequest])
  /\ run (serverEnv 0 (fun _ _ => Reply (plainResponse 403 (Some (JDict [("error", JStr "denied")])))))
       (doCmdLaunch (lib := plainLib) 0 (launchArgs false)) []
     = (Returned (JNum 13), [EvHttp versionsRequest; EvSleep 10; EvHttp versionsRequest]).
Proof.
  apply (doCmdLaunch_versions_object_returns_13 (lib := plainLib)
           (serverEnv 0 (fun _ _ => Reply (plainResponse 403 (Some (JDict [("error", JStr "denied")])))))
           0 (launchArgs false) []
           {| content := JDict [("error", JStr "denied")]; statusCode := 403 |}
           [EvHttp versionsRequest; EvSleep 10; EvHttp versionsRequest]
           ("error", JStr "denied") []).
  - reflexivity.
  - reflexivity.
Defined.

(** ** commandInstancesAsync.py *)

(** X15.  The four counts [run_multiple_clients] logs are the numbers of
    hosts of each kind: return code 0; another return code; timed out;
    anything else.  They depend on how many results of each kind there
    are, not on their order. *)
Theorem run_multiple_clients_tally client (instances : list Instance) :
  run_multiple_clients client instances =
  Ok (tallyOf (imap (fun i inst => wait_for (client i inst)) instances)).
Proof.
  unfold run_multiple_clients.
  rewrite (countResults_tally instances _ 1 noTally) by (rewrite ?length_imap; lia).
  reflexivity.
Qed.

(** X16.  The targets [extractSshTargets] returns are, in order, the
    [ssh] dicts of the records that are started and have one, each with
    the record's [instanceId] stored in it, in place of any [instanceId]
    the [ssh] dict had. *)
Theorem extractSshTargets_targets :
  forall inRecs targets,
    extractSshTargets inRecs = Ok targets ->
    Forall2 (fun details target =>
               exists iid kvs,
                 py_getitem details "instanceId" = Ok iid
                 /\ py_getitem details "ssh" = Ok (JDict kvs)
                 /\ target = JDict (dict_set kvs "instanceId" iid))
            (List.filter startedWithSsh inRecs) targets.
Proof.
  induction inRecs as [|d rest IH]; intros targets.
  - intros [= <-]. constructor.
  - destruct d as [| | | | | |kvs]; try discriminate.
    simpl.
    destruct (dict_get kvs "instanceId") as [iid|] eqn:Hi; [|discriminate].
    destruct (dict_get kvs "state") as [st|] eqn:Hst; [|discriminate].
    destruct (dict_get kvs "ssh") as [target|] eqn:Hssh.
    + destruct (is_str st "started"); [|apply IH].
      destruct target as [| | | | | |skvs]; try discriminate.
      simpl. destruct (extractSshTargets rest) as [ts|]; [|discriminate].
      intros [= <-]. constructor; [|apply IH; reflexivity].
      exists iid, skvs. simpl. rewrite Hi, Hssh. repeat split; reflexivity.
    + destruct (is_str st "started"); apply IH.
Qed.

Lemma extractSshTargets_targets_witness :
  Forall2 (fun details target =>
             exists iid kvs,
               py_getitem details "instanceId" = Ok iid
               /\ py_getitem details "ssh" = Ok (JDict kvs)
               /\ target = JDict (dict_set kvs "instanceId" iid))
          (List.filter startedWithSsh launchedRecords)
          [ JDict [("host", JStr "h1"); ("port", JNum 22); ("instanceId", JStr "i-1")];
            JDict [("host", JStr "h3"); ("instanceId", JStr "i-3")] ].
Proof.
  apply (extractSshTargets_targets launchedRecords). reflexivity.
Defined.

Lemma extractSshTargets_app pre :
  forall ts rest,
    extractSshTargets pre = Ok ts ->
    extractSshTargets (pre ++ rest) =
    match extractSshTargets rest with
    | Ok ts' => Ok (ts ++ ts')%list
    | Err e => Err e
    end.
Proof.
  induction pre as [|d pre IH]; intros ts rest.
  - intros [= <-]. simpl. destruct (extractSshTargets rest); reflexivity.
  - simpl.
    destruct (py_getitem d "instanceId") as [iid|]; [|discriminate].
    destruct (py_getitem d "state") as [st|]; [|discriminate].
    destruct (is_str st "started"); [|apply IH].
    destruct (py_contains "ssh" d) as [[|]|]; [| apply IH | discriminate].
    destruct (py_getitem d "ssh") as [target|]; [|discriminate].
    destruct (py_setitem target "instanceId" iid) as [target'|]; [|discriminate].
    destruct (extractSshTargets pre) as [ts0|] eqn:Hpre; [|discriminate].
    intros [= <-]. rewrite (IH ts0 rest eq_refl).
    destruct (extractSshTargets rest); reflexivity.
Qed.

(** X17.  The [instanceId] of a record is read before its state is
    looked at: one record without it, started or not, makes the whole
    call raise, whatever targets the records before it gave. *)
Theorem extractSshTargets_needs_instanceId pre d post ts e :
  extractSshTargets pre = Ok ts ->
  py_getitem d "instanceId" = Err e ->
  extractSshTargets (pre ++ d :: post) = Err e.
Proof.
  intros Hpre Hd. rewrite (extractSshTargets_app pre ts _ Hpre).
  simpl. rewrite Hd. reflexivity.
Qed.

Lemma extractSshTargets_needs_instanceId_witness :
  extractSshTargets (launchedRecords ++ JDict [("state", JStr "failed")] :: [])
  = Err (KeyError "instanceId").
Proof.
  apply (extractSshTargets_needs_instanceId launchedRecords (JDict [("state", JStr "failed")]) []
           [ JDict [("host", JStr "h1"); ("port", JNum 22); ("instanceId", JStr "i-1")];
             JDict [("host", JStr "h3"); ("instanceId", JStr "i-3")] ]);
    reflexivity.
Defined.

(** X18.  [anyFound a b] is true exactly when some item of [a] is in
    [b]; so the order of the two arguments does not matter. *)
Theorem anyFound_spec {A} `{EqDecision A} (a b : list A) :
  (anyFound a b = true <-> exists x, x ∈ a /\ x ∈ b)
  /\ anyFound a b = anyFound b a.
Proof.
  assert (Hspec : forall a b : list A, anyFound a b = true <-> exists x, x ∈ a /\ x ∈ b).
  { clear a b. induction a as [|x a IH]; intros b; simpl.
    - split; [discriminate|]. intros (x & Hx & _). inversion Hx.
    - case_bool_decide as Hin.
      + split; [|reflexivity]. intros _. exists x. split; [left | exact Hin].
      + rewrite IH. split.
        * intros (y & Hy & Hyb). exists y. split; [now right | exact Hyb].
        * intros (y & Hy & Hyb). exists y. apply elem_of_cons in Hy.
          destruct Hy as [->|Hy]; [contradiction|]. split; assumption. }
  split; [apply Hspec|].
  destruct (anyFound a b) eqn:Hab; destruct (anyFound b a) eqn:Hba; try reflexivity.
  - apply Hspec in Hab. destruct Hab as (x & Hx & Hxb).
    assert (Ht : anyFound b a = true) by (apply Hspec; exists x; split; assumption).
    congruence.
  - apply Hspec in Hba. destruct Hba as (x & Hx & Hxa).
    assert (Ht : anyFound a b = true) by (apply Hspec; exists x; split; assumption).
    congruence.
Qed.

(** ** doCmdTerminate *)

Lemma terminateInstances_once env sched fuel tok iids h out h' :
  AnswersDeletes env ->
  run env (terminateInstances sched fuel tok (map JStr iids)) h = (out, h') ->
  out <> NoResult ->
  out = Returned tt
  /\ Permutation (deletes h') (map (deleteRequest tok) iids ++ deletes h)%list.
Proof.
  intros Hsrv Hrun Hout.
  destruct iids as [|iid iids].
  - simpl in Hrun. inversion Hrun; subst. split; reflexivity.
  - apply (allOnce_final env fuel tok (iid :: iids) h Hsrv sched
             (submitAll (map (terminateOne fuel tok) (map JStr (iid :: iids))))
             h out h'); [apply allOnce_submitted | exact Hrun | exact Hout].
Qed.

Lemma terminateInstances_sequential env fuel tok iids h :
  AnswersDeletes env ->
  (1 <= fuel)%nat ->
  fst (run env (terminateInstances (seqSchedule 0 (length iids)) fuel tok (map JStr iids)) h)
  = Returned tt.
Proof.
  intros Hsrv Hfuel.
  destruct iids as [|iid iids]; [reflexivity|].
  apply (seqSchedule_returns env fuel tok Hsrv Hfuel (iid :: iids) [] h).
  constructor.
Qed.

Lemma deletes_retried_get req secs h :
  method req = GET -> forall k, deletes (retried req secs k h) = deletes h.
Proof.
  intros Hget. induction k as [|k IH]; [reflexivity|].
  simpl. rewrite Hget. exact IH.
Qed.

Lemma queryNcsSc_no_delete `{lib : PyLib} env urlTail tok reqParams maxRetries h r h1 :
  run env (queryNcsSc urlTail tok reqParams maxRetries) h = (Returned r, h1) ->
  deletes h1 = deletes h.
Proof.
  intros Hq. destruct (queryNcsSc_str_trace env _ _ _ _ _ _ _ Hq) as (k & _ & -> & _).
  simpl. apply deletes_retried_get. reflexivity.
Qed.

Lemma listInstances_run `{lib : PyLib} env tok h :
  run env (listInstances tok) h =
  match run env (queryNcsSc "instances" tok (inr JNull) 1) h with
  | (Returned r, h1) => (Returned (Some r), h1)
  | (Raised exc, h1) => if isException exc then (Returned None, h1) else (Raised exc, h1)
  | (NoResult, h1) => (NoResult, h1)
  end.
Proof.
  unfold listInstances. rewrite run_try_except, run_bind.
  destruct (run env (queryNcsSc "instances" tok (inr JNull) 1) h) as [[r|exc|] h1];
    try reflexivity.
  destruct (isException exc); reflexivity.
Qed.

Lemma mapR_ids insts iids :
  Forall2 (fun inst iid => py_getitem inst "id" = Ok (JStr iid)) insts iids ->
  mapR (fun inst => py_getitem inst "id") insts = Ok (map JStr iids).
Proof.
  induction 1 as [|inst iid insts iids Hid _ IH]; [reflexivity|].
  simpl. rewrite Hid, IH. reflexivity.
Qed.

Lemma run_logTook env h : run env logTook h = (Returned tt, EvTime :: h).
Proof. reflexivity. Qed.

(** X19.  Without instance ids [doCmdTerminate] sends nothing: it reads
    the clock at its start and for its last log line, and returns. *)
Theorem doCmdTerminate_no_ids `{lib : PyLib} env sched fuel args h :
  cmd_instanceId args = None \/ cmd_instanceId args = Some [] ->
  run env (doCmdTerminate sched fuel args) h = (Returned tt, EvTime :: EvTime :: h).
Proof.
  intros [Hids|Hids]; unfold doCmdTerminate; rewrite run_time_time, Hids; reflexivity.
Qed.

Lemma doCmdTerminate_no_ids_witness :
  run refusingEnv (doCmdTerminate (lib := plainLib) [] 0 (terminateArgs None)) []
  = (Returned tt, [EvTime; EvTime]).
Proof.
  apply (doCmdTerminate_no_ids (lib := plainLib) refusingEnv [] 0 (terminateArgs None) []).
  left. reflexivity.
Defined.

(** X20.  [terminate ALL] when the listing fails.  If the query raises
    an exception, [doCmdTerminate] returns at once.  If the query
    returns a dict without ['my'], as it does after an error status
    whose body is not JSON, [doCmdTerminate] raises [KeyError]: the
    status code of the listing is not looked at.  Either way no delete
    request is sent. *)
Theorem doCmdTerminate_ALL_listing_fails `{lib : PyLib} env sched fuel args h :
  isALL (cmd_instanceId args) = true ->
  (forall exc h1,
     run env (queryNcsSc "instances" (cmd_authToken args) (inr JNull) 1) (EvTime :: h)
       = (Raised exc, h1) ->
     isException exc = true ->
     run env (doCmdTerminate sched fuel args) h = (Returned tt, h1))
  /\ (forall r h1 kvs,
        run env (queryNcsSc "instances" (cmd_authToken args) (inr JNull) 1) (EvTime :: h)
          = (Returned r, h1) ->
        content r = JDict kvs ->
        dict_get kvs "my" = None ->
        run env (doCmdTerminate sched fuel args) h = (Raised (KeyError "my"), h1)
        /\ deletes h1 = deletes h).
Proof.
  intros Hall. split.
  - intros exc h1 Hq Hexc.
    unfold doCmdTerminate. rewrite run_time_time, Hall, run_bind, listInstances_run, Hq, Hexc.
    reflexivity.
  - intros r h1 kvs Hq Hc Hmy. split.
    + unfold doCmdTerminate. rewrite run_time_time, Hall, run_bind, listInstances_run, Hq.
      rewrite Hc. cbv iota beta.
      rewrite run_bind, run_lift. simpl py_getitem. rewrite Hmy. reflexivity.
    + exact (queryNcsSc_no_delete env _ _ _ _ _ _ _ Hq).
Qed.

Lemma doCmdTerminate_ALL_listing_fails_witness :
  (run unreachableEnv (doCmdTerminate (lib := plainLib) [] 0 (terminateArgs (Some ["ALL"]))) []
   = (Returned tt, [EvHttp listRequest; EvTime]))
  /\ (run downEnv (doCmdTerminate (lib := plainLib) [] 0 (terminateArgs (Some ["ALL"]))) []
      = (Raised (KeyError "my"), [EvHttp listRequest; EvSleep 10; EvHttp listRequest; EvTime])
      /\ deletes [EvHttp listRequest; EvSleep 10; EvHttp listRequest; EvTime] = deletes []).
Proof.
  split.
  - apply (proj1 (doCmdTerminate_ALL_listing_fails (lib := plainLib) unreachableEnv [] 0
                    (terminateArgs (Some ["ALL"])) [] eq_refl)
             (RequestException "connection refused")).
    + vm_compute. reflexivity.
    + reflexivity.
  - apply (proj2 (doCmdTerminate_ALL_listing_fails (lib := plainLib) downEnv [] 0
                    (terminateArgs (Some ["ALL"])) [] eq_refl)
             {| content := JDict []; statusCode := 503 |} _ []).
    + vm_compute. reflexivity.
    + reflexivity.
    + reflexivity.
Defined.

Lemma run_then_logTook env (p : Prog unit) h :
  run env (p;; logTook) h = thenLogTook (run env p h).
Proof.
  change (p;; logTook) with (p ≫= (fun _ : unit => logTook)).
  rewrite run_bind. destruct (run env p h) as [[[]|e|] h2]; reflexivity.
Qed.

Lemma doCmdTerminate_ALL_run `{lib : PyLib} env sched fuel args h r h1 kvs insts iids :
  isALL (cmd_instanceId args) = true ->
  run env (queryNcsSc "instances" (cmd_authToken args) (inr JNull) 1) (EvTime :: h)
    = (Returned r, h1) ->
  content r = JDict kvs ->
  dict_get kvs "my" = Some (JList insts) ->
  Forall2 (fun inst iid => py_getitem inst "id" = Ok (JStr iid)) insts iids ->
  run env (doCmdTerminate sched fuel args) h =
  thenLogTook (run env (terminateInstances sched fuel (cmd_authToken args) (map JStr iids)) h1).
Proof.
  intros Hall Hq Hc Hmy Hids.
  unfold doCmdTerminate. rewrite run_time_time, Hall, run_bind, listInstances_run, Hq.
  rewrite Hc. cbv iota beta.
  rewrite run_bind, run_lift. simpl py_getitem. rewrite Hmy. cbv iota beta.
  rewrite run_bind, run_lift. simpl py_len. cbv iota beta.
  rewrite run_bind, run_lift. simpl py_iter. cbv iota beta.
  rewrite run_bind, run_lift, (mapR_ids insts iids Hids). cbv iota beta.
  apply run_then_logTook.
Qed.

Lemma thenLogTook_once tok iids h r out h' :
  (forall out0 h2, r = (out0, h2) -> out0 <> NoResult ->
     out0 = Returned tt
     /\ Permutation (deletes h2) (map (deleteRequest tok) iids ++ deletes h)%list) ->
  thenLogTook r = (out, h') ->
  out <> NoResult ->
  out = Returned tt
  /\ Permutation (deletes h') (map (deleteRequest tok) iids ++ deletes h)%list.
Proof.
  intros Honce Hrun Hout. destruct r as [[[]|e|] h2]; simpl in Hrun.
  - destruct (Honce _ _ eq_refl ltac:(discriminate)) as [_ Hperm].
    inversion Hrun; subst. split; [reflexivity | exact Hperm].
  - destruct (Honce _ _ eq_refl ltac:(discriminate)) as [Hbad _]. discriminate.
  - inversion Hrun; subst. contradiction.
Qed.

(** X21.  [terminate ALL]: when the listing returns a dict whose ['my']
    is a list of instances with string ids, whatever its status code,
    and every delete request is answered, and not with 502, then on
    every schedule on which [doCmdTerminate] comes to an end it returns
    normally, having sent exactly one delete request per listed
    instance; and on the sequential schedule it does come to an end. *)
Theorem doCmdTerminate_ALL_deletes_listed `{lib : PyLib}
  env fuel args h r h1 kvs insts iids :
  isALL (cmd_instanceId args) = true ->
  run env (queryNcsSc "instances" (cmd_authToken args) (inr JNull) 1) (EvTime :: h)
    = (Returned r, h1) ->
  content r = JDict kvs ->
  dict_get kvs "my" = Some (JList insts) ->
  Forall2 (fun inst iid => py_getitem inst "id" = Ok (JStr iid)) insts iids ->
  AnswersDeletes env ->
  (forall sched out h',
     run env (doCmdTerminate sched fuel args) h = (out, h') ->
     out <> NoResult ->
     out = Returned tt
     /\ Permutation (deletes h')
          (map (deleteRequest (cmd_authToken args)) iids ++ deletes h)%list)
  /\ ((1 <= fuel)%nat ->
      fst (run env (doCmdTerminate (seqSchedule 0 (length iids)) fuel args) h) = Returned tt).
Proof.
  intros Hall Hq Hc Hmy Hids Hsrv. split.
  - intros sched out h' Hrun Hout.
    rewrite (doCmdTerminate_ALL_run env sched fuel args h r h1 kvs insts iids
               Hall Hq Hc Hmy Hids) in Hrun.
    assert (Hd : deletes h1 = deletes h) by exact (queryNcsSc_no_delete env _ _ _ _ _ _ _ Hq).
    rewrite <- Hd.
    apply (thenLogTook_once _ _ _ _ _ _ (fun out0 h2 Hr Ho =>
             terminateInstances_once env sched fuel _ iids h1 out0 h2 Hsrv Hr Ho) Hrun Hout).
  - intros Hfuel.
    rewrite (doCmdTerminate_ALL_run env _ fuel args h r h1 kvs insts iids
               Hall Hq Hc Hmy Hids).
    pose proof (terminateInstances_sequential env fuel (cmd_authToken args) iids h1
                  Hsrv Hfuel) as Hseq.
    destruct (run env (terminateInstances _ fuel (cmd_authToken args) (map JStr iids)) h1)
      as [out0 h2].
    simpl in Hseq. subst out0. reflexivity.
Qed.

Lemma twoListedEnv_answers_deletes : AnswersDeletes twoListedEnv.
Proof.
  intros h req Hm. exists (plainResponse 204 None). split.
  - simpl. unfold twoListedServer. rewrite Hm. reflexivity.
  - simpl. lia.
Qed.

Lemma doCmdTerminate_ALL_deletes_listed_witness :
  (forall sched out h',
     run twoListedEnv (doCmdTerminate (lib := plainLib) sched 1 (terminateArgs (Some ["ALL"]))) []
       = (out, h') ->
     out <> NoResult ->
     out = Returned tt
     /\ Permutation (deletes h')
          (map (deleteRequest (cmd_authToken (terminateArgs (Some ["ALL"])))) ["i-1"; "i-2"]
             ++ deletes [])%list)
  /\ ((1 <= 1)%nat ->
      fst (run twoListedEnv
             (doCmdTerminate (lib := plainLib) (seqSchedule 0 (length ["i-1"; "i-2"])) 1
                (terminateArgs (Some ["ALL"]))) [])
      = Returned tt).
Proof.
  apply (doCmdTerminate_ALL_deletes_listed (lib := plainLib) twoListedEnv 1
           (terminateArgs (Some ["ALL"])) []
           {| content := JDict [("my", JList twoLaunched)]; statusCode := 200 |}
           [EvHttp listRequest; EvTime] [("my", JList twoLaunched)] twoLaunched ["i-1"; "i-2"]).
  - reflexivity.
  - reflexivity.
  - reflexivity.
  - reflexivity.
  - repeat constructor.
  - exact twoListedEnv_answers_deletes.
Defined.

(** X22.  [terminate] with ids given: when every delete request is
    answered, and not with 502, then on every schedule on which
    [doCmdTerminate] comes to an end it returns normally, having sent
    exactly one delete request per id; and on the sequential schedule it
    does come to an end. *)
Theorem doCmdTerminate_ids_deletes_each `{lib : PyLib} env fuel args h iid iids :
  cmd_instanceId args = Some (iid :: iids) ->
  isALL (cmd_instanceId args) = false ->
  AnswersDeletes env ->
  (forall sched out h',
     run env (doCmdTerminate sched fuel args) h = (out, h') ->
     out <> NoResult ->
     out = Returned tt
     /\ Permutation (deletes h')
          (map (deleteRequest (cmd_authToken args)) (iid :: iids) ++ deletes h)%list)
  /\ ((1 <= fuel)%nat ->
      fst (run env (doCmdTerminate (seqSchedule 0 (length (iid :: iids))) fuel args) h)
      = Returned tt).
Proof.
  intros Hids Hall Hsrv.
  assert (Hrun0 : forall sched,
            run env (doCmdTerminate sched fuel args) h =
            thenLogTook (run env (terminateInstances sched fuel (cmd_authToken args)
                                    (map JStr (iid :: iids))) (EvTime :: h))).
  { intros sched. unfold doCmdTerminate. rewrite run_time_time, Hall, Hids.
    apply run_then_logTook. }
  split.
  - intros sched out h' Hrun Hout. rewrite Hrun0 in Hrun.
    exact (thenLogTook_once (cmd_authToken args) (iid :: iids) (EvTime :: h) _ out h'
             (fun out0 h2 Hr Ho =>
                terminateInstances_once env sched fuel _ (iid :: iids) (EvTime :: h)
                  out0 h2 Hsrv Hr Ho) Hrun Hout).
  - intros Hfuel. rewrite Hrun0.
    pose proof (terminateInstances_sequential env fuel (cmd_authToken args) (iid :: iids)
                  (EvTime :: h) Hsrv Hfuel) as Hseq.
    destruct (run env (terminateInstances _ fuel (cmd_authToken args)
                         (map JStr (iid :: iids))) (EvTime :: h)) as [out0 h2].
    simpl in Hseq. subst out0. reflexivity.
Qed.

Lemma doCmdTerminate_ids_deletes_each_witness :
  (forall sched out h',
     run okEnv (doCmdTerminate (lib := plainLib) sched 1 (terminateArgs (Some ["i-1"; "i-2"]))) []
       = (out, h') ->
     out <> NoResult ->
     out = Returned tt
     /\ Permutation (deletes h')
          (map (deleteRequest (cmd_authToken (terminateArgs (Some ["i-1"; "i-2"]))))
             ["i-1"; "i-2"] ++ deletes [])%list)
  /\ ((1 <= 1)%nat ->
      fst (run okEnv
             (doCmdTerminate (lib := plainLib) (seqSchedule 0 (length ["i-1"; "i-2"])) 1
                (terminateArgs (Some ["i-1"; "i-2"]))) [])
      = Returned tt).
Proof.
  apply (doCmdTerminate_ids_deletes_each (lib := plainLib) okEnv 1
           (terminateArgs (Some ["i-1"; "i-2"])) [] "i-1" ["i-2"]).
  - reflexivity.
  - reflexivity.
  - exact okEnv_answers_deletes.
Defined.

(** ** doCmdList *)

Lemma prints_app evs1 evs2 : prints (evs1 ++ evs2) = (prints evs1 ++ prints evs2)%list.
Proof. apply flat_map_app. Qed.

(** How [printsOnly P] goes through the parts of [doCmdList] that do not
    depend on the mode. *)
Section PrintsOnly.
Context `{lib : PyLib}.
Variable P : string -> Prop.

Lemma printsOnly_refl h : printsOnly P h h.
Proof. exists []. split; [reflexivity | constructor]. Qed.

Lemma printsOnly_trans h1 h2 h3 :
  printsOnly P h1 h2 -> printsOnly P h2 h3 -> printsOnly P h1 h3.
Proof.
  intros (evs1 & -> & Hall1) (evs2 & -> & Hall2). exists (evs2 ++ evs1)%list.
  split; [apply app_assoc|]. rewrite prints_app. apply Forall_app. split; assumption.
Qed.

Lemma printsOnly_other h h' ev :
  isPrint ev = false -> printsOnly P h h' -> printsOnly P h (ev :: h').
Proof.
  intros Hev (evs & -> & Hall). exists (ev :: evs). split; [reflexivity|].
  destruct ev; try discriminate; exact Hall.
Qed.

Lemma printsOnly_print h h' out :
  P out -> printsOnly P h h' -> printsOnly P h (EvPrint out :: h').
Proof.
  intros Hout (evs & -> & Hall). exists (EvPrint out :: evs). split; [reflexivity|].
  simpl. constructor; assumption.
Qed.

Lemma pm_bind {A B} env (p : Prog A) (f : A -> Prog B) h :
  printsOnly P h (snd (run env p h)) ->
  (forall a h1, printsOnly P h1 (snd (run env (f a) h1))) ->
  printsOnly P h (snd (run env (p ≫= f) h)).
Proof.
  intros Hp Hf. rewrite run_bind.
  destruct (run env p h) as [[a|e|] h1]; simpl in Hp; try exact Hp.
  exact (printsOnly_trans _ _ _ Hp (Hf a h1)).
Qed.

Lemma pm_try {A} env (p : Prog A) handler h :
  printsOnly P h (snd (run env p h)) ->
  (forall e h1, printsOnly P h1 (snd (run env (handler e) h1))) ->
  printsOnly P h (snd (run env (try_except p handler) h)).
Proof.
  intros Hp Hh. rewrite run_try_except.
  destruct (run env p h) as [[a|e|] h1]; simpl in Hp; try exact Hp.
  exact (printsOnly_trans _ _ _ Hp (Hh e h1)).
Qed.

Lemma pm_lift {A} env (r : Result A) h : printsOnly P h (snd (run env (lift r) h)).
Proof. destruct r; apply printsOnly_refl. Qed.

Lemma pm_lift_bind {A B} env (r : Result A) (f : A -> Prog B) h :
  (forall a, r = Ok a -> printsOnly P h (snd (run env (f a) h))) ->
  printsOnly P h (snd (run env (lift r ≫= f) h)).
Proof.
  intros Hf. rewrite run_bind, run_lift.
  destruct r as [a|e]; [apply Hf; reflexivity | apply printsOnly_refl].
Qed.

Lemma pm_ret {A} env (a : A) h : printsOnly P h (snd (run env (Ret a) h)).
Proof. apply printsOnly_refl. Qed.

Lemma pm_raise {A} env e h : printsOnly P h (snd (run env (Raise e : Prog A) h)).
Proof. apply printsOnly_refl. Qed.

Lemma pm_print env line h :
  P (line +:+ newline) -> printsOnly P h (snd (run env (print line) h)).
Proof. intros Hm. simpl. apply printsOnly_print; [exact Hm | apply printsOnly_refl]. Qed.

Lemma pm_query env :
  forall n urlTail tok d h,
    printsOnly P h (snd (run env (queryNcsSc_str n urlTail tok d) h)).
Proof.
  induction n as [|n IH]; intros urlTail tok d h; rewrite queryNcsSc_str_unfold; cbv zeta;
    destruct (answer env NetReply h _) as [resp|exc]; simpl;
    try (apply printsOnly_other; [reflexivity | apply printsOnly_refl]).
  - destruct (non2xx (status_code resp)); simpl;
      apply printsOnly_other; try reflexivity; apply printsOnly_refl.
  - destruct (non2xx (status_code resp)); simpl.
    + destruct (answer env (option Exn) _ (CSleep 10)); simpl.
      * do 2 (apply printsOnly_other; [reflexivity|]). apply printsOnly_refl.
      * eapply printsOnly_trans; [|apply IH].
        do 2 (apply printsOnly_other; [reflexivity|]). apply printsOnly_refl.
    + apply printsOnly_other; [reflexivity | apply printsOnly_refl].
Qed.

Lemma pm_listInstances env tok h : printsOnly P h (snd (run env (listInstances tok) h)).
Proof.
  unfold listInstances. apply pm_try.
  - apply pm_bind; [apply pm_query | intros; apply pm_ret].
  - intros e h1. destruct (isException e); [apply pm_ret | apply pm_raise].
Qed.

Lemma pm_listQuery env tok iid h : printsOnly P h (snd (run env (listQuery tok iid) h)).
Proof.
  unfold listQuery. apply pm_try.
  - apply pm_bind; [apply pm_query | intros; apply pm_ret].
  - intros e h1. destruct (isException e); [apply pm_ret | apply pm_raise].
Qed.

Lemma pm_collectIds env :
  forall insts h, printsOnly P h (snd (run env (collectIds insts) h)).
Proof.
  induction insts as [|inst insts IH]; intros h; [apply pm_ret|].
  simpl collectIds. apply pm_bind; [apply pm_lift|].
  intros v h1. destruct v; try apply printsOnly_refl.
  apply pm_bind; [apply IH | intros; apply pm_ret].
Qed.

Lemma pm_listedIds env tok h : printsOnly P h (snd (run env (listedIds tok) h)).
Proof.
  unfold listedIds. apply pm_bind; [apply pm_listInstances|].
  intros [response|] h1; [|apply pm_ret].
  apply pm_bind; [apply pm_lift|]. intros has h2.
  apply pm_bind; [destruct has; [apply pm_lift | apply pm_ret]|]. intros running h3.
  apply pm_bind; [apply pm_lift|]. intros n h4.
  apply pm_bind; [apply pm_lift|]. intros insts h5.
  apply pm_bind; [apply pm_collectIds | intros; apply pm_ret].
Qed.

Lemma pm_idsToList env args h : printsOnly P h (snd (run env (idsToList args) h)).
Proof.
  unfold idsToList. destruct (cmd_instanceId args) as [[|iid rest]|];
    try apply pm_listedIds.
  destruct (isALL _); [apply pm_listedIds | apply pm_ret].
Qed.

Lemma pm_logDetails env details instState h :
  printsOnly P h (snd (run env (logDetails details instState) h)).
Proof.
  unfold logDetails. apply pm_bind; [apply pm_lift|]. intros hasVersion h1.
  apply pm_bind.
  { destruct hasVersion; [|apply pm_ret].
    apply pm_bind; [apply pm_lift|]. intros av h2.
    apply pm_bind; [apply pm_lift | intros; apply pm_ret]. }
  intros _ h2. apply pm_bind; [apply pm_lift|]. intros hasProgress h3.
  destruct hasProgress; [|apply pm_ret].
  destruct (negb (is_str instState "started")); [apply pm_ret|].
  apply pm_bind; [apply pm_lift|]. intros progress h4.
  apply pm_bind; [apply pm_lift | intros; apply pm_ret].
Qed.

Lemma pm_sshField env details key other h :
  printsOnly P h (snd (run env (sshField details key other) h)).
Proof.
  unfold sshField. apply pm_bind; [apply pm_lift|]. intros has h1.
  destruct has; [|apply pm_ret].
  apply pm_bind; [apply pm_lift | intros; apply pm_lift].
Qed.

Lemma pm_listOne env args first iid h :
  (forall details h1, printsOnly P h1 (snd (run env (printListed args first iid details) h1))) ->
  printsOnly P h (snd (run env (listOne args first iid) h)).
Proof.
  intros Hprint. unfold listOne. apply pm_bind; [apply pm_listQuery|].
  intros [response|] h1; [|apply pm_ret]. cbv zeta.
  destruct (non2xx (statusCode response)); [apply pm_ret|].
  apply pm_bind; [apply pm_lift|]. intros instState h2.
  apply pm_bind; [apply pm_logDetails|]. intros _ h3.
  apply Hprint.
Qed.

Lemma pm_listLoop env args :
  (forall first iid details h1,
     printsOnly P h1 (snd (run env (printListed args first iid details) h1))) ->
  forall iids first h, printsOnly P h (snd (run env (listLoop args iids first) h)).
Proof.
  intros Hprint. induction iids as [|iid rest IH]; intros first h; [apply pm_ret|].
  change (listLoop args (iid :: rest) first)
    with (listOne args first iid ≫= (fun first' => listLoop args rest first')).
  apply pm_bind; [apply pm_listOne; intros; apply Hprint|].
  intros first' h1. apply IH.
Qed.

End PrintsOnly.

Lemma maskPassword_masked outRec outRec' :
  maskPassword outRec = Ok outRec' -> masked outRec'.
Proof.
  unfold maskPassword, masked.
  destruct (dict_get outRec "ssh") as [sshSpecs|] eqn:Hssh.
  - destruct sshSpecs as [| | | | | |skvs]; try discriminate.
    simpl. intros [= <-] sshSpecs'. rewrite dict_get_set. simpl.
    intros [= <-]. simpl. rewrite dict_get_set. reflexivity.
  - intros [= <-] sshSpecs' Hsome. congruence.
Qed.

Lemma printListed_masked `{lib : PyLib} env args first iid details h :
  cmd_json args = true ->
  cmd_showPasswords args = false ->
  printsOnly maskedOutput h (snd (run env (printListed args first iid details) h)).
Proof.
  intros Hjson Hshow. unfold printListed. rewrite Hjson, Hshow. simpl negb. cbv iota.
  apply pm_bind.
  { destruct details; try apply pm_raise; apply pm_ret. }
  intros outRec h1. apply pm_lift_bind. intros outRec' Hmask.
  apply pm_bind.
  { destruct first; [apply pm_ret|]. simpl.
    apply printsOnly_print; [|apply printsOnly_refl]. right. right. left. reflexivity. }
  intros _ h2. apply pm_bind; [|intros; apply pm_ret].
  apply pm_print. right. right. right. exists outRec'.
  split; [reflexivity | exact (maskPassword_masked _ _ Hmask)].
Qed.

(** X23.  [list] in JSON mode without [--showPasswords]: whatever is
    printed is a bracket, the separator, or the dump of a record whose
    [ssh] entry, if there is one, has ['*'] as its password. *)
Theorem doCmdList_masks_passwords `{lib : PyLib} env args h :
  cmd_json args = true ->
  cmd_showPasswords args = false ->
  exists evs,
    snd (run env (doCmdList args) h) = (evs ++ h)%list
    /\ Forall maskedOutput (prints evs).
Proof.
  intros Hjson Hshow. change (printsOnly maskedOutput h (snd (run env (doCmdList args) h))).
  unfold doCmdList. apply pm_bind; [apply pm_idsToList|].
  intros [iids|] h1; [|apply pm_ret]. rewrite Hjson.
  apply pm_bind; [apply pm_print; left; reflexivity|]. intros _ h2.
  apply pm_bind.
  { apply pm_listLoop. intros. apply printListed_masked; assumption. }
  intros _ h3. apply pm_print. right. left. reflexivity.
Qed.

Lemma doCmdList_masks_passwords_witness :
  exists evs,
    snd (run sshEnv (doCmdList (lib := plainLib) (listArgs (Some ["i-1"; "i-2"]) true)) [])
      = (evs ++ [])%list
    /\ Forall (maskedOutput (lib := plainLib)) (prints evs).
Proof.
  apply (doCmdList_masks_passwords (lib := plainLib) sshEnv
           (listArgs (Some ["i-1"; "i-2"]) true) []); reflexivity.
Defined.

Lemma printListed_hidden `{lib : PyLib} env args first iid details h :
  cmd_json args = false ->
  cmd_showPasswords args = false ->
  printsOnly hiddenLine h (snd (run env (printListed args first iid details) h)).
Proof.
  intros Hjson Hshow. unfold printListed. rewrite Hjson, Hshow. simpl negb. cbv iota.
  apply pm_bind; [apply pm_lift|]. intros has h1.
  apply pm_bind; [apply pm_sshField|]. intros port h2.
  apply pm_bind.
  { destruct has; [|apply pm_ret].
    apply pm_bind; [apply pm_sshField | intros; apply pm_ret]. }
  intros host h3. apply pm_bind.
  { destruct has; [|apply pm_ret].
    apply pm_bind; [apply pm_sshField | intros; apply pm_ret]. }
  intros pw h4. apply pm_bind; [apply pm_lift|]. intros jobId h5.
  apply pm_bind; [apply pm_lift|]. intros st h6.
  apply pm_bind; [destruct port; apply printsOnly_refl|]. intros portText h7.
  apply pm_bind; [|intros; apply pm_ret].
  apply pm_print. exists iid, (str_of st), portText, host, (str_of jobId). reflexivity.
Qed.

(** X24.  [list] in plain mode without [--showPasswords]: every line
    printed has ['*'] as its password field, and no bracket is printed. *)
Theorem doCmdList_hides_passwords `{lib : PyLib} env args h :
  cmd_json args = false ->
  cmd_showPasswords args = false ->
  exists evs,
    snd (run env (doCmdList args) h) = (evs ++ h)%list
    /\ Forall hiddenLine (prints evs).
Proof.
  intros Hjson Hshow. change (printsOnly hiddenLine h (snd (run env (doCmdList args) h))).
  unfold doCmdList. apply pm_bind; [apply pm_idsToList|].
  intros [iids|] h1; [|apply pm_ret]. rewrite Hjson.
  apply pm_bind; [apply pm_ret|]. intros _ h2.
  apply pm_bind; [|intros; apply pm_ret].
  apply pm_listLoop. intros. apply printListed_hidden; assumption.
Qed.

Lemma doCmdList_hides_passwords_witness :
  exists evs,
    snd (run sshEnv (doCmdList (lib := plainLib) (listArgs (Some ["i-1"; "i-2"]) false)) [])
      = (evs ++ [])%list
    /\ Forall hiddenLine (prints evs).
Proof.
  apply (doCmdList_hides_passwords (lib := plainLib) sshEnv
           (listArgs (Some ["i-1"; "i-2"]) false) []); reflexivity.
Defined.

Lemma idsToList_listed `{lib : PyLib} args :
  cmd_instanceId args = None \/ cmd_instanceId args = Some []
  \/ isALL (cmd_instanceId args) = true ->
  idsToList args = listedIds (cmd_authToken args).
Proof.
  unfold idsToList. intros [H|[H|H]].
  - rewrite H. reflexivity.
  - rewrite H. reflexivity.
  - destruct (cmd_instanceId args) as [[|iid rest]|]; try reflexivity.
    rewrite H. reflexivity.
Qed.

(** X25.  [list] without ids, or with [ALL], reads the instances under
    ['my'] only when the listing has a key ['running']: when that key is
    missing nothing is listed, whatever ['my'] holds and whatever the
    status code of the listing was. *)
Theorem doCmdList_needs_running_key `{lib : PyLib} env args h r h1 kvs :
  cmd_instanceId args = None \/ cmd_instanceId args = Some []
  \/ isALL (cmd_instanceId args) = true ->
  run env (queryNcsSc "instances" (cmd_authToken args) (inr JNull) 1) h = (Returned r, h1) ->
  content r = JDict kvs ->
  dict_get kvs "running" = None ->
  run env (doCmdList args) h =
  (Returned tt, (closing (cmd_json args) ++ opening (cmd_json args) ++ h1)%list).
Proof.
  intros Hids Hq Hc Hrunning.
  unfold doCmdList. rewrite run_bind, (idsToList_listed args Hids).
  unfold listedIds. rewrite run_bind, listInstances_run, Hq. cbv iota beta zeta.
  rewrite Hc. rewrite run_bind, run_lift. simpl py_contains. rewrite Hrunning.
  cbv iota beta. destruct (cmd_json args); reflexivity.
Qed.

Lemma doCmdList_needs_running_key_witness :
  run twoListedEnv (doCmdList (lib := plainLib) (listArgs (Some ["ALL"]) true)) [] =
  (Returned tt, (closing true ++ opening true ++ [EvHttp listRequest])%list).
Proof.
  apply (doCmdList_needs_running_key (lib := plainLib) twoListedEnv
           (listArgs (Some ["ALL"]) true) []
           {| content := JDict [("my", JList twoLaunched)]; statusCode := 200 |}
           [EvHttp listRequest] [("my", JList twoLaunched)]).
  - right. right. reflexivity.
  - reflexivity.
  - reflexivity.
  - reflexivity.
Defined.

(** X26.  [list] with one id: when the query for it raises an
    exception, or comes back with a status outside 2xx, the instance is
    passed over: nothing is printed for it, whatever the body of the
    reply, and [doCmdList] returns. *)
Theorem doCmdList_skips_not_found `{lib : PyLib} env args h iid h1 :
  cmd_instanceId args = Some [iid] ->
  iid <> "ALL" ->
  (exists r,
     run env (queryNcsSc ("instances/" +:+ iid) (cmd_authToken args) (inr showDeviceInfo) 1)
       (opening (cmd_json args) ++ h)%list = (Returned r, h1)
     /\ non2xx (statusCode r) = true)
  \/ (exists exc,
        run env (queryNcsSc ("instances/" +:+ iid) (cmd_authToken args) (inr showDeviceInfo) 1)
          (opening (cmd_json args) ++ h)%list = (Raised exc, h1)
        /\ isException exc = true) ->
  run env (doCmdList args) h = (Returned tt, (closing (cmd_json args) ++ h1)%list).
Proof.
  intros Hids Hne Hq.
  assert (Hone : forall h0,
            h0 = (opening (cmd_json args) ++ h)%list ->
            run env (listOne args true iid) h0 = (Returned true, h1)).
  { intros h0 ->. unfold listOne, listQuery. rewrite run_bind, run_try_except, run_bind.
    destruct Hq as [(r & -> & Hbad) | (exc & -> & Hexc)].
    - simpl. rewrite Hbad. reflexivity.
    - simpl. rewrite Hexc. reflexivity. }
  unfold doCmdList, idsToList. rewrite Hids.
  assert (Hall : isALL (Some [iid]) = false) by (simpl; now apply String.eqb_neq).
  rewrite Hall.
  change (run env (Ret (Some [iid]) ≫= ?f) ?hh) with (run env (f (Some [iid])) hh).
  cbv beta iota.
  destruct (cmd_json args); simpl opening in Hone; simpl closing.
  - rewrite run_print, run_bind.
    change (listLoop args [iid] true)
      with (listOne args true iid ≫= (fun first' => listLoop args [] first')).
    rewrite run_bind, (Hone (EvPrint ("[" +:+ newline) :: h) eq_refl). reflexivity.
  - change (run env (Ret tt ≫= ?f) ?hh) with (run env (f tt) hh). cbv beta.
    rewrite run_bind.
    change (listLoop args [iid] true)
      with (listOne args true iid ≫= (fun first' => listLoop args [] first')).
    rewrite run_bind, (Hone h eq_refl). reflexivity.
Qed.

Lemma doCmdList_skips_not_found_witness :
  run (serverEnv 0 (fun _ _ => Reply (plainResponse 404 (Some (JDict [("state", JStr "started")])))))
    (doCmdList (lib := plainLib) (listArgs (Some ["i-1"]) true)) [] =
  (Returned tt,
   (closing true
    ++ [EvHttp (pollRequest "i-1"); EvSleep 10; EvHttp (pollRequest "i-1");
        EvPrint ("[" +:+ newline)])%list).
Proof.
  apply (doCmdList_skips_not_found (lib := plainLib)
           (serverEnv 0 (fun _ _ => Reply (plainResponse 404 (Some (JDict [("state", JStr "started")])))))
           (listArgs (Some ["i-1"]) true) [] "i-1").
  - reflexivity.
  - discriminate.
  - left. exists {| content := JDict [("state", JStr "started")]; statusCode := 404 |}.
    split; reflexivity.
Defined.
